(** * Tiklog delivery back end: dispatch, response relay, delivery lifecycle
      and rider discovery.

    Shallow embedding of [RabbitMqService] (connection registry, response
    relay, start/end of delivery with settlement, message bus) and of
    [DeliveryController] (rider discovery and arrival time, creating and
    editing a delivery).

    Conventions.
    - A JavaScript [number] is a [JS.JSNum]: a finite value, an infinity or
      [NaN].  The arithmetic operators round their exact result to IEEE 754
      binary64 (round to nearest, ties to even, overflow to an infinity), as
      the engine does; negative zero is identified with zero.
    - A constant of [config/constants] and a stored distance are given by
      their decimal value, a rational; [JS.num] is the number it denotes.
    - [null]/[undefined] is [None].
    - A Mongo [ObjectId] is a natural number handed out by the store. *)

From Stdlib Require Import ZArith QArith Qround Qabs Qreduction Qpower.
From Stdlib Require Import List String Bool.
From Stdlib Require Import Lia Lqa Sorted.
From Stdlib Require Floats.
Import ListNotations.

Local Open Scope Q_scope.

(* ===================================================================== *)
(** ** JavaScript values and operators used by the code                   *)
(* ===================================================================== *)

Module JS.

(** [Math.round] on a finite number: the nearest integer, ties towards
    [+Infinity]. *)
Definition Math_round (x : Q) : Z := Qfloor (x + (1 # 2)).

(** [Math.floor] on a finite number. *)
Definition Math_floor (x : Q) : Z := Qfloor x.

(** Every JavaScript array is truthy, the empty one included. *)
Definition truthy_array {A : Type} (a : list A) : bool := true.

(** [a[a.length - 1]]: [undefined] on the empty array. *)
Definition last_elem {A : Type} (a : list A) : option A :=
  nth_error a (List.length a - 1).

(** Truthiness of a [boolean | null]. *)
Definition truthy_bool (b : option bool) : bool :=
  match b with Some true => true | _ => false end.

(** A number with the two infinities and [NaN] (negative zero apart). *)
Inductive JSNum : Type :=
  | Fin (q : Q)
  | PInf
  | NInf
  | NaN.

Definition neg (a : JSNum) : JSNum :=
  match a with
  | Fin q => Fin (- q)
  | PInf => NInf
  | NInf => PInf
  | NaN => NaN
  end.

(** *** Rounding to binary64

    A positive rational [x] with [2^l <= x < 2^(l+1)] is rounded on the grid
    of the multiples of [2^e], where [e = max (l - 52) (-1074)]: 53
    significant bits for a normal number, the fixed step [2^-1074] for a
    subnormal one.  The nearest point of the grid is taken, the one with the
    even multiple on a tie; a result of [2^1024] or more is [Infinity]. *)

Definition pow2 (e : Z) : Q := 2 ^ e.

(** [floor (log2 x)] for [x > 0]. *)
Definition ilog2 (x : Q) : Z :=
  let k := (Z.log2 (Qnum x) - Z.log2 (Zpos (Qden x)))%Z in
  if Qle_bool (pow2 k) x then k else (k - 1)%Z.

(** The nearest integer, the even one on a tie. *)
Definition rne (x : Q) : Z :=
  let f := Qfloor x in
  match Qcompare (x - inject_Z f) (1 # 2) with
  | Lt => f
  | Gt => (f + 1)%Z
  | Eq => if Z.even f then f else (f + 1)%Z
  end.

Definition expo (x : Q) : Z := Z.max (ilog2 x - 52) (-1074).

Definition nearest (x : Q) : Q :=
  let e := expo x in
  inject_Z (rne (x / pow2 e)) * pow2 e.

Definition round_pos (x : Q) : JSNum :=
  let v := nearest x in
  if Qle_bool (pow2 1024) v then PInf else Fin (Qred v).

(** The binary64 number nearest to the rational [x]; a finite result is
    given in lowest terms. *)
Definition round64 (x : Q) : JSNum :=
  match Qcompare x 0 with
  | Eq => Fin 0
  | Gt => round_pos x
  | Lt => neg (round_pos (- x))
  end.

(** The number a decimal denotes: a numeric literal of the program, a
    decimal string converted to a number, a stored value read back. *)
Definition num (q : Q) : JSNum := round64 q.

(** [x] is a binary64 number: rounding leaves it as it is. *)
Definition representable (x : Q) : Prop := round64 x = Fin (Qred x).

(** *** The operators *)

Definition add (a b : JSNum) : JSNum :=
  match a, b with
  | NaN, _ | _, NaN => NaN
  | Fin x, Fin y => round64 (x + y)
  | PInf, NInf | NInf, PInf => NaN
  | PInf, _ | _, PInf => PInf
  | NInf, _ | _, NInf => NInf
  end.

Definition sub (a b : JSNum) : JSNum := add a (neg b).

(** The infinity whose sign is the sign of [q]; [NaN] when [q] is zero. *)
Definition signed_inf (positive : bool) (q : Q) : JSNum :=
  match q ?= 0 with
  | Eq => NaN
  | Gt => if positive then PInf else NInf
  | Lt => if positive then NInf else PInf
  end.

Definition mul (a b : JSNum) : JSNum :=
  match a, b with
  | NaN, _ | _, NaN => NaN
  | Fin x, Fin y => round64 (x * y)
  | PInf, Fin y => signed_inf true y
  | NInf, Fin y => signed_inf false y
  | Fin x, PInf => signed_inf true x
  | Fin x, NInf => signed_inf false x
  | PInf, PInf | NInf, NInf => PInf
  | PInf, NInf | NInf, PInf => NInf
  end.

(** Division: a finite number over zero is an infinity, [0 / 0] is [NaN]. *)
Definition div (a b : JSNum) : JSNum :=
  match a, b with
  | NaN, _ | _, NaN => NaN
  | Fin x, Fin y =>
      if Qeq_bool y 0 then signed_inf true x else round64 (x / y)
  | Fin _, PInf | Fin _, NInf => Fin 0
  | PInf, Fin y => if Qle_bool 0 y then PInf else NInf
  | NInf, Fin y => if Qle_bool 0 y then NInf else PInf
  | _, _ => NaN
  end.

(** [Math.floor] and [Math.round] return an integer, which needs no
    rounding: a binary64 number of [2^52] or more is an integer already. *)
Definition floor (a : JSNum) : JSNum :=
  match a with
  | Fin q => Fin (inject_Z (Math_floor q))
  | other => other
  end.

Definition round (a : JSNum) : JSNum :=
  match a with
  | Fin q => Fin (inject_Z (Math_round q))
  | other => other
  end.

(** [Math.abs]. *)
Definition abs (a : JSNum) : JSNum :=
  match a with
  | Fin q => Fin (Qabs q)
  | PInf | NInf => PInf
  | NaN => NaN
  end.

Definition isNaN (a : JSNum) : bool :=
  match a with NaN => true | _ => false end.

(** An infinity or [NaN]. *)
Definition not_finite (a : JSNum) : Prop :=
  match a with Fin _ => False | _ => True end.

(** [a <= b]; every comparison with [NaN] is false. *)
Definition le (a b : JSNum) : bool :=
  match a, b with
  | NaN, _ | _, NaN => false
  | Fin x, Fin y => Qle_bool x y
  | NInf, _ => true
  | _, PInf => true
  | _, _ => false
  end.

(** [a < b]. *)
Definition lt (a b : JSNum) : bool :=
  match a, b with
  | NaN, _ | _, NaN => false
  | Fin x, Fin y => negb (Qle_bool y x)
  | NInf, NInf | PInf, _ => false
  | NInf, _ => true
  | Fin _, PInf => true
  | Fin _, NInf => false
  end.

(** Truthiness of a number: [0] and [NaN] are falsy. *)
Definition truthy_num (a : JSNum) : bool :=
  match a with
  | Fin q => negb (Qeq_bool q 0)
  | NaN => false
  | PInf | NInf => true
  end.

(** [x + y] where [y] may be [null] ([null] converts to [0]). *)
Definition add_nullable (x : JSNum) (y : option JSNum) : JSNum :=
  match y with Some y => add x y | None => add x (Fin 0) end.

(** [x.toFixed(2)] converted back to a number.  For a magnitude below
    [10^21] the string is the decimal [n / 100] with [n] the integer
    nearest to [100 x], the larger in magnitude on a tie; otherwise, and for
    an infinity or [NaN], it is the string of the number itself. *)
Definition toFixed2 (a : JSNum) : JSNum :=
  match a with
  | Fin q =>
      if Qle_bool (10 ^ 21) (Qabs q) then Fin q
      else if Qle_bool 0 q
      then num (inject_Z (Qfloor (q * 100 + (1 # 2))) / 100)
      else neg (num (inject_Z (Qfloor (- q * 100 + (1 # 2))) / 100))
  | other => other
  end.

(** The exception a property access on [null] or [undefined] throws. *)
Inductive Error : Type :=
  | TypeError (what : string).

(** The same number: rationals up to [Qeq]. *)
Definition same (a b : JSNum) : Prop :=
  match a, b with
  | Fin x, Fin y => x == y
  | PInf, PInf | NInf, NInf | NaN, NaN => True
  | _, _ => False
  end.

End JS.

(** The binary64 numbers of the kernel ([PrimFloat], computed by the
    machine), read as [JS.JSNum]: they serve to compare [JS.round64] with
    the machine's arithmetic on the figures used below. *)
Module Kernel64.

Definition of_spec (f : SpecFloat.spec_float) : JS.JSNum :=
  match f with
  | SpecFloat.S754_zero _ => JS.Fin 0
  | SpecFloat.S754_infinity false => JS.PInf
  | SpecFloat.S754_infinity true => JS.NInf
  | SpecFloat.S754_nan => JS.NaN
  | SpecFloat.S754_finite s m e =>
      JS.Fin (Qred (inject_Z (if s then Z.neg m else Z.pos m) * JS.pow2 e))
  end.

Definition of_float (f : PrimFloat.float) : JS.JSNum :=
  of_spec (FloatOps.Prim2SF f).

End Kernel64.

(* ===================================================================== *)
(** ** Persistent entities and the persistence collaborator               *)
(* ===================================================================== *)

Definition Id : Type := nat.

(** The delivery statuses of [config/constants]. *)
Inductive DeliveryStatus : Type :=
| PENDING
| ON_TRANSIT
| DELIVERED
| CANCELED.

(** A GeoJSON point: [coordinates = [longitude, latitude]]. *)
Record Point : Type := mkPoint {
  longitude : Q;
  latitude : Q
}.

Record Delivery : Type := mkDelivery {
  delivery_id : Id;
  delivery_status : DeliveryStatus;
  deliveryFee : JS.JSNum;
  delivery_rider : option Id;
  delivery_customer : Id;
  senderLocation : Point;
  delivery_refNumber : string
}.

(** The attributes of [IRider] that the engine reads or writes. *)
Record Rider : Type := mkRider {
  rider_id : Id;
  rider_status : string;
  rider_active : option bool;
  rider_busy : bool;
  rider_phone : string;
  rider_firstName : string
}.

Record RiderWallet : Type := mkRiderWallet {
  wallet_id : Id;
  wallet_rider : Id;
  wallet_balance : option JS.JSNum
}.

Record AdminFee : Type := mkAdminFee {
  adminFee_refNumber : string;
  adminFee_rider : Id;
  adminFee_amount : option JS.JSNum
}.

Record Notification : Type := mkNotification {
  notif_refNumber : string;
  notif_riderAvailabilityStatus : bool;
  notif_rider : Id;
  notif_customer : Id;
  notif_delivery : Id
}.

Record Vehicle : Type := mkVehicle {
  vehicle_rider : Id;
  vehicleType : string
}.

(** A rider location document; [distance] is the field [$geoNear] adds. *)
Record RiderLocation : Type := mkRiderLocation {
  loc_rider : Id;
  loc_point : Point;
  distance : Q
}.

Record Database : Type := mkDatabase {
  deliveries : list Delivery;
  riders : list Rider;
  riderWallets : list RiderWallet;
  adminFees : list AdminFee;
  notifications : list Notification;
  vehicles : list Vehicle;
  riderLocations : list RiderLocation;
  nextId : Id
}.

Module Dao.

(** Modelled from the spec: the entity-scoped CRUD services
    ([services/dao] is not part of the sources).  [findById],
    [findByAny(filter)] return the first matching document or [null];
    [findAll(filter)] returns the array of matching documents;
    [update(filter, patch)] and [updateByAny(filter, patch)] patch the first
    matching document and return it, or return [null] and change nothing
    when no document matches; [create(value)] appends a document under a
    fresh [_id]. *)
Fixpoint patch_first {A : Type} (p : A -> bool) (f : A -> A) (l : list A)
  : option A * list A :=
  match l with
  | [] => (None, [])
  | x :: rest =>
      if p x then (Some (f x), f x :: rest)
      else let (r, rest') := patch_first p f rest in (r, x :: rest')
  end.

Definition findAll {A : Type} (p : A -> bool) (l : list A) : list A :=
  filter p l.

Definition findByAny {A : Type} (p : A -> bool) (l : list A) : option A :=
  find p l.

Definition set_status (s : DeliveryStatus) (d : Delivery) : Delivery :=
  mkDelivery (delivery_id d) s (deliveryFee d) (delivery_rider d)
             (delivery_customer d) (senderLocation d) (delivery_refNumber d).

Definition set_rider (r : Id) (d : Delivery) : Delivery :=
  mkDelivery (delivery_id d) (delivery_status d) (deliveryFee d) (Some r)
             (delivery_customer d) (senderLocation d) (delivery_refNumber d).

Definition set_busy (b : bool) (r : Rider) : Rider :=
  mkRider (rider_id r) (rider_status r) (rider_active r) b
          (rider_phone r) (rider_firstName r).

Definition set_balance (b : option JS.JSNum) (w : RiderWallet) : RiderWallet :=
  mkRiderWallet (wallet_id w) (wallet_rider w) b.

Definition with_deliveries (l : list Delivery) (db : Database) : Database :=
  mkDatabase l (riders db) (riderWallets db) (adminFees db)
             (notifications db) (vehicles db) (riderLocations db) (nextId db).

Definition with_riders (l : list Rider) (db : Database) : Database :=
  mkDatabase (deliveries db) l (riderWallets db) (adminFees db)
             (notifications db) (vehicles db) (riderLocations db) (nextId db).

Definition with_riderWallets (l : list RiderWallet) (n : Id) (db : Database)
  : Database :=
  mkDatabase (deliveries db) (riders db) l (adminFees db)
             (notifications db) (vehicles db) (riderLocations db) n.

Definition with_adminFees (l : list AdminFee) (db : Database) : Database :=
  mkDatabase (deliveries db) (riders db) (riderWallets db) l
             (notifications db) (vehicles db) (riderLocations db) (nextId db).

Definition with_notifications (l : list Notification) (db : Database)
  : Database :=
  mkDatabase (deliveries db) (riders db) (riderWallets db) (adminFees db)
             l (vehicles db) (riderLocations db) (nextId db).

(** Modelled from the spec:
    [deliveryDAOService.updateByAny({_id: id}, patch)]. *)
Definition delivery_updateByAny (id : Id) (patch : Delivery -> Delivery)
           (db : Database) : option Delivery * Database :=
  let (r, l) := patch_first (fun d => Nat.eqb (delivery_id d) id) patch
                            (deliveries db) in
  (r, with_deliveries l db).

(** Modelled from the spec: [deliveryDAOService.findAll({customer: c})]. *)
Definition delivery_findAll_customer (c : Id) (db : Database)
  : list Delivery :=
  findAll (fun d => Nat.eqb (delivery_customer d) c) (deliveries db).

(** Modelled from the spec: [riderDAOService.updateByAny({_id: id}, patch)]. *)
Definition rider_updateByAny (id : Id) (patch : Rider -> Rider)
           (db : Database) : option Rider * Database :=
  let (r, l) := patch_first (fun x => Nat.eqb (rider_id x) id) patch
                            (riders db) in
  (r, with_riders l db).

(** Modelled from the spec: [riderDAOService.findById(id)]. *)
Definition rider_findById (id : Id) (db : Database) : option Rider :=
  findByAny (fun x => Nat.eqb (rider_id x) id) (riders db).

(** Modelled from the spec: [riderWalletDAOService.findByAny({rider: id})]. *)
Definition riderWallet_findByAny_rider (id : Id) (db : Database)
  : option RiderWallet :=
  findByAny (fun w => Nat.eqb (wallet_rider w) id) (riderWallets db).

(** Modelled from the spec: [riderWalletDAOService.update({_id: id}, patch)]. *)
Definition riderWallet_update_id (id : Id)
           (patch : RiderWallet -> RiderWallet) (db : Database)
  : option RiderWallet * Database :=
  let (r, l) := patch_first (fun w => Nat.eqb (wallet_id w) id) patch
                            (riderWallets db) in
  (r, with_riderWallets l (nextId db) db).

(** Modelled from the spec: [riderWalletDAOService.create({rider, balance})]. *)
Definition riderWallet_create (rider : Id) (balance : option JS.JSNum)
           (db : Database) : Database :=
  with_riderWallets
    (riderWallets db ++ [mkRiderWallet (nextId db) rider balance])
    (S (nextId db)) db.

(** Modelled from the spec: [adminFeeDAOService.create(value)]. *)
Definition adminFee_create (v : AdminFee) (db : Database) : Database :=
  with_adminFees (adminFees db ++ [v]) db.

(** Modelled from the spec: [notificationDAOService.create(value)]. *)
Definition notification_create (v : Notification) (db : Database)
  : Database :=
  with_notifications (notifications db ++ [v]) db.

(** Modelled from the spec: [vehicleDAOService.findByAny({rider: id})]. *)
Definition vehicle_findByAny_rider (id : Id) (db : Database)
  : option Vehicle :=
  findByAny (fun v => Nat.eqb (vehicle_rider v) id) (vehicles db).

(** Modelled from the spec: [riderLocationDAOService.findByAny({rider: id})]. *)
Definition riderLocation_findByAny_rider (id : Id) (db : Database)
  : option RiderLocation :=
  findByAny (fun l => Nat.eqb (loc_rider l) id) (riderLocations db).

End Dao.

(* ===================================================================== *)
(** ** RabbitMqService: connection registry, response relay, lifecycle    *)
(* ===================================================================== *)

Module RabbitMqService.

(** A live duplex connection; [socket_id] is socket.io's [socket.id]. *)
Record Socket : Type := mkSocket {
    socket_id : string
  }.

(** The match record kept under the key [PACKAGE_REQUEST_INFO]. *)
Record MatchRecord : Type := mkMatchRecord {
    deliveryId : Id;
    riderId : Id;
    customerId : Id;
    estimatedDeliveryTime : string;
    deliveryRefNumber : string
  }.

(** The payload of the [startDelivery] and [endDelivery] signals. *)
Record SignalData : Type := mkSignalData {
    data_customerId : Id;
    data_body : string
  }.

(** [{...data, deliveryRefNumber, estimatedDeliveryTime}]. *)
Record DeliveryData : Type := mkDeliveryData {
    dd_data : SignalData;
    dd_deliveryRefNumber : string;
    dd_estimatedDeliveryTime : string
  }.

Record DriverResponse : Type := mkDriverResponse {
    availability : bool;
    response_riderId : Id;
    response_customerId : Id;
    arrivalTime : string
  }.

(** The [notification] object relayed to the customer. *)
Record ResponseNotification : Type := mkResponseNotification {
  notification_title : string;
  notification_availability : bool;
  notification_riderId : Id;
  notification_arrivalTime : string
}.

(** What [socket.emit(event, payload)] sends. *)
Inductive Event : Type :=
  | riderResponse (notification : ResponseNotification)
  | riderDeclined (message : string)
  | startDeliveryNotificationEvent (d : DeliveryData)
  | endDeliveryNotificationEvent (d : DeliveryData).

(** The two kinds of value [findRiderIdBySocketId] compares. *)
Inductive JSValue : Type :=
  | VString (s : string)
  | VSocket (s : Socket).

(** [a === b]: a string and an object are never strictly equal; two
    sockets are the same object when they are the same connection. *)
Definition strict_equal (a b : JSValue) : bool :=
  match a, b with
  | VString x, VString y => String.eqb x y
  | VSocket x, VSocket y => String.eqb (socket_id x) (socket_id y)
  | _, _ => false
  end.

(** The service's state together with the stores it talks to. *)
Record State : Type := mkState {
    socketMap : list (Id * Socket);
    matchCache : option MatchRecord;
    db : Database;
    emitted : list (Socket * Event)
  }.

(** *** [Map] operations on [socketMap] (insertion order kept) *)

Fixpoint Map_get (m : list (Id * Socket)) (k : Id) : option Socket :=
  match m with
  | [] => None
  | (k', v) :: rest => if Nat.eqb k' k then Some v else Map_get rest k
  end.

Fixpoint Map_set (m : list (Id * Socket)) (k : Id) (v : Socket)
  : list (Id * Socket) :=
  match m with
  | [] => [(k, v)]
  | (k', v') :: rest =>
      if Nat.eqb k' k then (k', v) :: rest else (k', v') :: Map_set rest k v
  end.

(** *** Promises over the state: a small state and exception monad *)

Inductive Completion (A : Type) : Type :=
  | Fulfilled (a : A)
  | Rejected (e : JS.Error).
Arguments Fulfilled {A} a.
Arguments Rejected {A} e.

Definition M (A : Type) : Type := State -> Completion A * State.

Definition ret {A : Type} (a : A) : M A := fun s => (Fulfilled a, s).

Definition bind {A B : Type} (m : M A) (k : A -> M B) : M B :=
  fun s =>
    match m s with
    | (Fulfilled a, s') => k a s'
    | (Rejected e, s') => (Rejected e, s')
    end.

Definition throw {A : Type} (e : JS.Error) : M A := fun s => (Rejected e, s).

(** An [async] call that is not awaited: its effects happen, its
    rejection is not seen by the caller. *)
Definition detached (m : M unit) : M unit :=
  fun s => (Fulfilled tt, snd (m s)).

Notation "x <- c ;; k" := (bind c (fun x => k))
  (at level 61, c at next level, right associativity).
Notation "c ;;; k" := (bind c (fun _ => k))
  (at level 61, right associativity).

Definition socketMap_get (k : Id) : M (option Socket) :=
  fun s => (Fulfilled (Map_get (socketMap s) k), s).

Definition socketMap_set (k : Id) (v : Socket) : M unit :=
  fun s => (Fulfilled tt,
            mkState (Map_set (socketMap s) k v) (matchCache s) (db s)
                    (emitted s)).

(** Modelled from the spec: [redisService.getToken(PACKAGE_REQUEST_INFO)],
  the cache collaborator's [get(key)]; [null] when the key is absent. *)
Definition getToken : M (option MatchRecord) :=
  fun s => (Fulfilled (matchCache s), s).

(** Modelled from the spec:
  [redisService.deleteRedisKey(PACKAGE_REQUEST_INFO)], the cache
  collaborator's [delete(key)]. *)
Definition deleteRedisKey : M unit :=
  fun s => (Fulfilled tt, mkState (socketMap s) None (db s) (emitted s)).

(** [socket.emit(event, payload)]. *)
Definition emit (sock : Socket) (ev : Event) : M unit :=
  fun s => (Fulfilled tt,
            mkState (socketMap s) (matchCache s) (db s)
                    (emitted s ++ [(sock, ev)])).

Definition query {A : Type} (f : Database -> A) : M A :=
  fun s => (Fulfilled (f (db s)), s).

Definition command {A : Type} (f : Database -> A * Database) : M A :=
  fun s => let (a, d) := f (db s) in
           (Fulfilled a, mkState (socketMap s) (matchCache s) d (emitted s)).

Definition command_ (f : Database -> Database) : M unit :=
  fun s => (Fulfilled tt,
            mkState (socketMap s) (matchCache s) (f (db s)) (emitted s)).

(** [const {...} = redisData]: destructuring [null] throws. *)
Definition destructure (redisData : option MatchRecord) : M MatchRecord :=
  match redisData with
  | Some r => ret r
  | None => throw (JS.TypeError "Cannot destructure null")
  end.

Section Service.

(** [ADMIN_CHARGES] of [config/constants]: the platform's percentage. *)
Variable ADMIN_CHARGES : Q.

(** [riderAvailability(availabilityStatus)]. *)
Definition riderAvailability (availabilityStatus : bool) : M unit :=
  redisData <- getToken ;;
  r <- destructure redisData ;;
  command_ (Dao.notification_create
              (mkNotification (deliveryRefNumber r) availabilityStatus
                              (riderId r) (customerId r) (deliveryId r))).

(** [notifyUserAboutDriverResponse(driverResponse)]. *)
Definition notifyUserAboutDriverResponse (driverResponse : DriverResponse)
  : M unit :=
  let notification :=
    mkResponseNotification "Rider response"
                           (availability driverResponse)
                           (response_riderId driverResponse)
                           (arrivalTime driverResponse) in
  customerSocket <- socketMap_get (response_customerId driverResponse) ;;
  match customerSocket with
  | Some customerSocket =>
      if availability driverResponse then
        emit customerSocket (riderResponse notification) ;;;
        detached (riderAvailability (availability driverResponse)) ;;;
        redisData <- getToken ;;
        r <- destructure redisData ;;
        _ <- command (Dao.delivery_updateByAny
                        (deliveryId r) (Dao.set_rider (riderId r))) ;;
        ret tt
      else
        detached (riderAvailability (availability driverResponse)) ;;;
        emit customerSocket
             (riderDeclined "Rider declined your request") ;;;
        deleteRedisKey
  | None => ret tt
  end.

(** [startDeliveryNotification(data)]. *)
Definition startDeliveryNotification (data : SignalData) : M unit :=
  customerSocket <- socketMap_get (data_customerId data) ;;
  match customerSocket with
  | Some customerSocket =>
      redisData <- getToken ;;
      r <- destructure redisData ;;
      let deliveryData :=
        mkDeliveryData data (deliveryRefNumber r)
                       (estimatedDeliveryTime r) in
      emit customerSocket (startDeliveryNotificationEvent deliveryData) ;;;
      _ <- command (Dao.delivery_updateByAny
                      (deliveryId r) (Dao.set_status ON_TRANSIT)) ;;
      _ <- command (Dao.rider_updateByAny
                      (riderId r) (Dao.set_busy true)) ;;
      ret tt
  | None => ret tt
  end.

(** [delivery && ADMIN_CHARGES/100 * delivery.deliveryFee]: the quotient
    is rounded, then the product. *)
Definition adminFee_of (delivery : option Delivery) : option JS.JSNum :=
  match delivery with
  | Some d =>
      Some (JS.mul (JS.div (JS.num ADMIN_CHARGES) (JS.Fin 100))
                   (deliveryFee d))
  | None => None
  end.

(** [Math.round(adminFee as number)]; [Math.round(null)] is [0]. *)
Definition round_adminFee (adminFee : option JS.JSNum) : JS.JSNum :=
  match adminFee with
  | Some a => JS.round a
  | None => JS.Fin 0
  end.

(** [delivery && delivery.deliveryFee - Math.round(adminFee)]. *)
Definition riderFee_of (delivery : option Delivery)
           (adminFee : option JS.JSNum) : option JS.JSNum :=
  match delivery with
  | Some d => Some (JS.sub (deliveryFee d) (round_adminFee adminFee))
  | None => None
  end.

(** [riderFee && riderFee + riderWallet.balance]: [null], [0] and [NaN]
    are falsy and are the value of the expression themselves. *)
Definition new_balance (riderFee : option JS.JSNum)
           (riderWallet : RiderWallet) : option JS.JSNum :=
  match riderFee with
  | None => None
  | Some f =>
      if JS.truthy_num f
      then Some (JS.add_nullable f (wallet_balance riderWallet))
      else Some f
  end.

(** [endDeliveryNotification(data)]. *)
Definition endDeliveryNotification (data : SignalData) : M unit :=
  customerSocket <- socketMap_get (data_customerId data) ;;
  match customerSocket with
  | Some customerSocket =>
      redisData <- getToken ;;
      r <- destructure redisData ;;
      let deliveryData :=
        mkDeliveryData data (deliveryRefNumber r)
                       (estimatedDeliveryTime r) in
      emit customerSocket (endDeliveryNotificationEvent deliveryData) ;;;
      delivery <- command (Dao.delivery_updateByAny
                             (deliveryId r) (Dao.set_status DELIVERED)) ;;
      _ <- command (Dao.rider_updateByAny
                      (riderId r) (Dao.set_busy false)) ;;
      riderWallet <- query (Dao.riderWallet_findByAny_rider (riderId r)) ;;
      let adminFee := adminFee_of delivery in
      let riderFee := riderFee_of delivery adminFee in
      match riderWallet with
      | Some riderWallet =>
          _ <- command (Dao.riderWallet_update_id
                          (riderId r)
                          (Dao.set_balance
                             (new_balance riderFee riderWallet))) ;;
          ret tt
      | None =>
          command_ (Dao.riderWallet_create (riderId r) riderFee)
      end ;;;
      command_ (Dao.adminFee_create
                  (mkAdminFee (deliveryRefNumber r) (riderId r)
                              adminFee)) ;;;
      deleteRedisKey
  | None => ret tt
  end.

End Service.

(** [findRiderIdBySocketId(socketId)]: the loop over
    [socketMap.entries()], which yields [[riderId, id]] with [id] the
    stored socket. *)
Fixpoint findRiderIdBySocketId_entries (entries : list (Id * Socket))
         (socketId : string) : option Id :=
  match entries with
  | [] => None
  | (riderId, id) :: rest =>
      if strict_equal (VSocket id) (VString socketId)
      then Some riderId
      else findRiderIdBySocketId_entries rest socketId
  end.

Definition findRiderIdBySocketId (s : State) (socketId : string)
  : option Id :=
  findRiderIdBySocketId_entries (socketMap s) socketId.

(** [findSocketIdByRiderId(riderId)]. *)
Definition findSocketIdByRiderId (s : State) (riderId : Id)
  : option Socket :=
  Map_get (socketMap s) riderId.

(** The handlers of the [riderId] and [customerId] events of a
    connection; a falsy identity is [None]. *)
Definition on_riderId (socket : Socket) (riderId : option Id) : M unit :=
  match riderId with
  | Some riderId => socketMap_set riderId socket
  | None => ret tt
  end.

Definition on_customerId (socket : Socket) (customerId : option Id)
  : M unit :=
  match customerId with
  | Some customerId => socketMap_set customerId socket
  | None => ret tt
  end.

(** The end of the [connection] handler: a rider found by reverse lookup
  of the new connection's id is bound to the new connection. *)
Definition on_connection (socket : Socket) : M unit :=
  fun s =>
    match findRiderIdBySocketId s (socket_id socket) with
    | Some riderId => socketMap_set riderId socket s
    | None => ret tt s
    end.

(** The handlers of [startDelivery] and [endDelivery]: [if (data)]. *)
Definition on_startDelivery (data : option SignalData) : M unit :=
  match data with
  | Some data => startDeliveryNotification data
  | None => ret tt
  end.

Definition on_endDelivery (ADMIN_CHARGES : Q) (data : option SignalData)
  : M unit :=
  match data with
  | Some data => endDeliveryNotification ADMIN_CHARGES data
  | None => ret tt
  end.

End RabbitMqService.

(* ===================================================================== *)
(** ** DeliveryController.findRiders: rider discovery                     *)
(* ===================================================================== *)

Module DeliveryController.

Inductive HttpStatus : Type :=
  | OK
  | NOT_FOUND
  | BAD_REQUEST.

(** [CustomAPIError.response(message, code)]. *)
Record CustomAPIError : Type := mkCustomAPIError {
  error_message : string;
  error_code : HttpStatus
}.

(** How the body of the [async] method ends, before the [TryCatch]
    decorator sees it: a resolved promise, [Promise.reject(...)], or an
    exception thrown by the body. *)
Inductive Outcome (A : Type) : Type :=
  | Resolve (a : A)
  | Reject (e : CustomAPIError)
  | Throw (e : JS.Error).
Arguments Resolve {A} a.
Arguments Reject {A} e.
Arguments Throw {A} e.

(** The snapshot of the chosen rider; both coordinates are [undefined]
    when the rider has no location document. *)
Record RiderData : Type := mkRiderData {
  rd_location : option Point;
  rd_phone : string;
  rd_id : Id;
  rd_status : string;
  rd_firstName : string
}.

(** The response; [response_arrivalTime] is the number printed in
    [message] (Rider will arrive in ...min).  [result] is also what is
    saved in the cache under [riderInfo] for 3600 seconds. *)
Record HttpResponse : Type := mkHttpResponse {
  response_code : HttpStatus;
  response_arrivalTime : JS.JSNum;
  result : RiderData
}.

(** [_rider?.status === 'online' && _rider?.active]. *)
Definition online_and_active (_rider : option Rider) : bool :=
  match _rider with
  | Some r => String.eqb (rider_status r) "online"
              && JS.truthy_bool (rider_active r)
  | None => false
  end.

(** The loop over [riders] that looks each rider up and stops at the
    first one that is online and active; [null] when there is none. *)
Fixpoint select_rider (db : Database) (riders : list RiderLocation)
  : option Rider :=
  match riders with
  | [] => None
  | riderLoc :: rest =>
      let _rider := Dao.rider_findById (loc_rider riderLoc) db in
      if online_and_active _rider then _rider else select_rider db rest
  end.

(** [hours], [minutes] and the clamp of [arrivalTime]: the difference and
    the product are rounded to binary64, [Math.round] then gives an
    integer. *)
Definition minutes_of (estimatedTimeToSender : JS.JSNum) : JS.JSNum :=
  let hours := JS.floor estimatedTimeToSender in
  JS.round (JS.mul (JS.sub estimatedTimeToSender hours) (JS.Fin 60)).

Definition arrivalTime_of (minutes : JS.JSNum) : JS.JSNum :=
  if JS.le minutes (JS.Fin 2)
  then JS.add (JS.Fin 0) (JS.Fin 2)
  else JS.add (JS.Fin 0) minutes.

Section Discovery.

(** Constants of [config/constants]. *)
Variables MAX_DISTANCE BIKE_SPEED CAR_SPEED BUS_SPEED AVERAGE_SPEED : Q.

(** The aggregation on [RiderLocation]: [$geoNear] around a point within
    [maxDistance], then [$sort] by [distance] ascending.  It is the
    database engine's; its result is taken as given. *)
Variable RiderLocation_aggregate : Point -> Q -> list RiderLocation.

(** The speed chosen from the vehicle of the rider; it stays [0] when the
    rider has no vehicle. *)
Definition speedInKmPerHour_of (vehicle : option Vehicle) : JS.JSNum :=
  match vehicle with
  | Some v =>
      if String.eqb (vehicleType v) "bike"
      then JS.add (JS.Fin 0) (JS.num BIKE_SPEED)
      else if String.eqb (vehicleType v) "car"
      then JS.add (JS.Fin 0) (JS.num CAR_SPEED)
      else if String.eqb (vehicleType v) "bus"
      then JS.add (JS.Fin 0) (JS.num BUS_SPEED)
      else JS.add (JS.Fin 0) (JS.num AVERAGE_SPEED)
  | None => JS.Fin 0
  end.

(** The [forEach] that adds up [distanceKm / speedInKmPerHour] over all
    the riders returned; each quotient and each sum is rounded. *)
Definition estimatedTimeToSender_of (riders : list RiderLocation)
           (speedInKmPerHour : JS.JSNum) : JS.JSNum :=
  fold_left
    (fun acc elem =>
       let distanceKm := JS.div (JS.num (distance elem)) (JS.Fin 1000) in
       JS.add acc (JS.div distanceKm speedInKmPerHour))
    riders (JS.Fin 0).

Definition findRiders (customerId : Id) (db : Database)
  : Outcome HttpResponse :=
  let delivery := Dao.delivery_findAll_customer customerId db in
  if negb (JS.truthy_array delivery)
  then Reject (mkCustomAPIError "Delivery does not exist" NOT_FOUND)
  else
    match JS.last_elem delivery with
    | None =>
        Throw (JS.TypeError "Cannot read properties of undefined")
    | Some lastDelivery =>
        let riders :=
          RiderLocation_aggregate (senderLocation lastDelivery)
                                  MAX_DISTANCE in
        if Nat.eqb (List.length riders) 0
        then Reject (mkCustomAPIError "No riders available at the moment"
                                      NOT_FOUND)
        else
          match select_rider db riders with
          | None =>
              Reject (mkCustomAPIError "No rider is currently online"
                                       NOT_FOUND)
          | Some rider =>
              let vehicle := Dao.vehicle_findByAny_rider (rider_id rider) db in
              let speedInKmPerHour := speedInKmPerHour_of vehicle in
              let estimatedTimeToSender :=
                estimatedTimeToSender_of riders speedInKmPerHour in
              let minutes := minutes_of estimatedTimeToSender in
              let pinRiderLoc :=
                Dao.riderLocation_findByAny_rider (rider_id rider) db in
              let riderData :=
                mkRiderData (option_map loc_point pinRiderLoc)
                            (rider_phone rider) (rider_id rider)
                            (rider_status rider) (rider_firstName rider) in
              let arrivalTime := arrivalTime_of minutes in
              Resolve (mkHttpResponse OK arrivalTime riderData)
          end
    end.

End Discovery.

End DeliveryController.

(* ===================================================================== *)
(** ** Definitions used to state the properties                           *)
(* ===================================================================== *)

Module Lifecycle.
Import RabbitMqService.

(** The database [endDeliveryNotification] leaves behind when the customer
    is connected and a match record [r] is cached: the steps of the method
    on the stores, in the order of the code. *)
Definition endDelivery_database (ADMIN_CHARGES : Q) (r : MatchRecord)
           (d0 : Database) : Database :=
  let updated := Dao.delivery_updateByAny (deliveryId r)
                                          (Dao.set_status DELIVERED) d0 in
  let delivery := fst updated in
  let d1 := snd updated in
  let d2 := snd (Dao.rider_updateByAny (riderId r) (Dao.set_busy false) d1) in
  let adminFee := adminFee_of ADMIN_CHARGES delivery in
  let riderFee := riderFee_of delivery adminFee in
  let d3 :=
    match Dao.riderWallet_findByAny_rider (riderId r) d2 with
    | Some riderWallet =>
        snd (Dao.riderWallet_update_id
               (riderId r)
               (Dao.set_balance (new_balance riderFee riderWallet)) d2)
    | None => Dao.riderWallet_create (riderId r) riderFee d2
    end in
  Dao.adminFee_create
    (mkAdminFee (deliveryRefNumber r) (riderId r) adminFee) d3.

(** The database [startDeliveryNotification] leaves behind, likewise. *)
Definition startDelivery_database (r : MatchRecord) (d0 : Database)
  : Database :=
  let d1 := snd (Dao.delivery_updateByAny (deliveryId r)
                                          (Dao.set_status ON_TRANSIT) d0) in
  snd (Dao.rider_updateByAny (riderId r) (Dao.set_busy true) d1).

(** The filter [{_id: id}] on deliveries. *)
Definition has_delivery_id (id : Id) (d : Delivery) : bool :=
  Nat.eqb (delivery_id d) id.

(** A delivery after a lifecycle step: untouched, or the one named by the
    match record with only its status overwritten by [s]. *)
Definition untouched_or_set (id : Id) (s : DeliveryStatus)
           (before after : Delivery) : Prop :=
  after = before
  \/ (delivery_id before = id /\ after = Dao.set_status s before).

(** *** The chain of stages as the specification words it

    Following the specification: [pending], then [assigned] (a pending
    delivery whose [rider] field is set), then [on_transit], then
    [delivered]; a step of the chain goes from one stage to the next, or
    stays where it is. *)
Inductive Stage : Type :=
  | Stage_pending
  | Stage_assigned
  | Stage_on_transit
  | Stage_delivered
  | Stage_canceled.

Definition stage_of (d : Delivery) : Stage :=
  match delivery_status d with
  | PENDING =>
      match delivery_rider d with
      | Some _ => Stage_assigned
      | None => Stage_pending
      end
  | ON_TRANSIT => Stage_on_transit
  | DELIVERED => Stage_delivered
  | CANCELED => Stage_canceled
  end.

Definition spec_chain_step (a b : Stage) : bool :=
  match a, b with
  | Stage_pending, Stage_pending
  | Stage_pending, Stage_assigned
  | Stage_assigned, Stage_assigned
  | Stage_assigned, Stage_on_transit
  | Stage_on_transit, Stage_on_transit
  | Stage_on_transit, Stage_delivered
  | Stage_delivered, Stage_delivered
  | Stage_canceled, Stage_canceled => true
  | _, _ => false
  end.

(** Every delivery moves by a step of the chain between two states. *)
Definition follows_spec_chain (before after : State) : Prop :=
  Forall2 (fun d d' => spec_chain_step (stage_of d) (stage_of d') = true)
          (deliveries (db before)) (deliveries (db after)).

(** *** A small world: customer 2, rider 3, delivery 1 with a fee of 100 *)

Definition customer_socket : Socket := mkSocket "socket-of-customer-2".

Definition sample_match : MatchRecord :=
  mkMatchRecord 1%nat 3%nat 2%nat "0hrs:10min" "REF-0001".

Definition sample_rider : Rider :=
  mkRider 3%nat "online" (Some true) true "08030000000" "Ada".

Definition sample_delivery (s : DeliveryStatus) (rider : option Id)
  : Delivery :=
  mkDelivery 1%nat s (JS.Fin 100) rider 2%nat (mkPoint (3 # 1) (6 # 1))
             "REF-0001".

(** Delivery 1 on its way with rider 3, with another fee. *)
Definition delivery_with_fee (fee : JS.JSNum) : Delivery :=
  mkDelivery 1%nat ON_TRANSIT fee (Some 3%nat) 2%nat (mkPoint (3 # 1) (6 # 1))
             "REF-0001".

Definition sample_database (d : Delivery) (wallets : list RiderWallet)
  : Database :=
  mkDatabase [d] [sample_rider] wallets [] [] [] [] 10%nat.

(** The customer is connected and the match record is cached. *)
Definition connected_state (d : Delivery) (wallets : list RiderWallet)
  : State :=
  mkState [(2%nat, customer_socket)] (Some sample_match)
          (sample_database d wallets) [].

(** Nobody is connected; the match record is cached. *)
Definition disconnected_state (d : Delivery) (wallets : list RiderWallet)
  : State :=
  mkState [] (Some sample_match) (sample_database d wallets) [].

Definition sample_signal : SignalData :=
  mkSignalData 2%nat "package handed over".

Definition decline : DriverResponse := mkDriverResponse false 3%nat 2%nat "".

(** The rider's wallet as the store holds it: its own [_id] is 7. *)
Definition wallet_of_rider_3 : RiderWallet :=
  mkRiderWallet 7%nat 3%nat (Some (JS.Fin 50)).

(** The state after a first delivery of rider 3 was ended with no wallet
    yet (a 10 percent charge), and the same state once the next match
    record of rider 3 is cached. *)
Definition after_first_delivery : State :=
  snd (endDeliveryNotification
         10 sample_signal
         (connected_state (sample_delivery ON_TRANSIT (Some 3%nat)) [])).

Definition second_delivery_state : State :=
  mkState (socketMap after_first_delivery) (Some sample_match)
          (db after_first_delivery) (emitted after_first_delivery).

(** The registry after rider 5 announced itself on connection [abc]. *)
Definition registry_with_rider_5 : State :=
  snd (on_riderId (mkSocket "abc") (Some 5%nat)
                  (mkState [] None (mkDatabase [] [] [] [] [] [] [] 0%nat) [])).

End Lifecycle.

Module Discovery.
Import DeliveryController.

(** The result of the aggregation is in ascending order of [distance]. *)
Definition sorted_by_distance (l : list RiderLocation) : Prop :=
  StronglySorted (fun a b => distance a <= distance b) l.

(** A rider location whose rider is not online and active. *)
Definition not_eligible (db : Database) (l : RiderLocation) : Prop :=
  online_and_active (Dao.rider_findById (loc_rider l) db) = false.

(** [findRiders] up to the point where the rider is chosen: the customer's
    last delivery and the riders the aggregation returns around it. *)
Definition riders_around (MAX_DISTANCE : Q)
           (RiderLocation_aggregate : Point -> Q -> list RiderLocation)
           (lastDelivery : Delivery) : list RiderLocation :=
  RiderLocation_aggregate (senderLocation lastDelivery) MAX_DISTANCE.

(** *** A small world: customer 2 with one delivery; riders 11, 12, 13 *)

Definition rider_11_offline : Rider :=
  mkRider 11%nat "offline" (Some true) false "0811" "Bola".

Definition rider_12 : Rider :=
  mkRider 12%nat "online" (Some true) false "0812" "Chidi".

Definition rider_13 : Rider :=
  mkRider 13%nat "online" (Some true) false "0813" "Dayo".

Definition here : Point := mkPoint (3 # 1) (6 # 1).

Definition customer_delivery : Delivery :=
  mkDelivery 1%nat PENDING (JS.Fin 100) None 2%nat here "REF-0001".

(** Rider 11 at 1 km, rider 12 at 2 km, rider 13 at 5 km. *)
Definition three_riders (_ : Point) (_ : Q) : list RiderLocation :=
  [mkRiderLocation 11%nat here 1000;
   mkRiderLocation 12%nat here 2000;
   mkRiderLocation 13%nat here 5000].

(** Six riders, 12 to 17, each 7.5 km away. *)
Definition six_riders (_ : Point) (_ : Q) : list RiderLocation :=
  map (fun id => mkRiderLocation id here 7500)
      [12; 13; 14; 15; 16; 17]%nat.

Definition rider_online (id : Id) : Rider :=
  mkRider id "online" (Some true) false "0800" "Rider".

Definition discovery_database (vs : list Vehicle) : Database :=
  mkDatabase [customer_delivery] [rider_11_offline; rider_12; rider_13]
             [] [] [] vs [] 20%nat.

Definition bike_of_rider_12 : Vehicle := mkVehicle 12%nat "bike".

(** Customer 2 with one delivery; riders 12 to 17 online and active, rider
    12 on a bike. *)
Definition crowded_database : Database :=
  mkDatabase [customer_delivery]
             (map rider_online [12; 13; 14; 15; 16; 17]%nat)
             [] [] [] [bike_of_rider_12] [] 20%nat.

Definition data_of_online_rider_12 : RiderData :=
  mkRiderData None "0800" 12%nat "online" "Rider".

Definition data_of_rider_12 : RiderData :=
  mkRiderData None "0812" 12%nat "online" "Chidi".

(** [findRiders] with a radius of 10 km and speeds of 30 (bike), 50 (car),
    40 (bus) and 35 (any other vehicle) km/h. *)
Definition findRiders_sample
           (aggregate : Point -> Q -> list RiderLocation)
           (customerId : Id) (db : Database) : Outcome HttpResponse :=
  findRiders 10000 30 50 40 35 aggregate customerId db.

End Discovery.

(* ===================================================================== *)
(** ** More definitions used to state properties                          *)
(* ===================================================================== *)

Module Statements.
Import RabbitMqService DeliveryController Lifecycle Discovery.

(** The filter [{_id: id}] on riders. *)
Definition has_rider_id (id : Id) (x : Rider) : bool :=
  Nat.eqb (rider_id x) id.

(** A rider's acceptance as it arrives on [driver_responses]. *)
Definition accept (riderId customerId : Id) : DriverResponse :=
  mkDriverResponse true riderId customerId "5min".

(** The customer is connected and no match record is cached. *)
Definition unmatched_state (d : Delivery) : State :=
  mkState [(2%nat, customer_socket)] None (sample_database d []) [].

(** A rider location whose rider is online and active. *)
Definition eligible (db : Database) (l : RiderLocation) : Prop :=
  online_and_active (Dao.rider_findById (loc_rider l) db) = true.

(** A number that is zero or more: a finite one or [Infinity]. *)
Definition nonneg (a : JS.JSNum) : Prop := JS.le (JS.Fin 0) a = true.

(** The database with the [busy] flag of every rider set to [b]. *)
Definition everyone_busy (b : bool) (db : Database) : Database :=
  Dao.with_riders (map (Dao.set_busy b) (riders db)) db.

End Statements.

(* ===================================================================== *)
(** ** RabbitMqService: the message bus and the socket handlers           *)
(* ===================================================================== *)

Module Dispatch.

(** A package request is whatever the client sent ([any]); [null] is
    [None], anything else is kept as its JSON text. *)
Definition PackageRequest : Type := option string.

(** The fanout exchanges: the constants [PACKAGE_REQUEST] and
    [DRIVER_RESPONSES], and the literal [assigned_package_requests]. *)
Inductive Exchange : Type :=
  | PACKAGE_REQUEST
  | DRIVER_RESPONSES
  | assigned_package_requests.

(** What is serialised and published: the request itself, the request
    with [assignedTo], or a driver response. *)
Inductive Message : Type :=
  | request_message (packageRequest : PackageRequest)
  | assigned_message (packageRequest : PackageRequest) (assignedTo : Id)
  | response_message (driverResponse : RabbitMqService.DriverResponse).

Record Publication : Type := mkPublication {
  pub_exchange : Exchange;
  pub_message : Message;
  pub_expiration : option Z
}.

(** The [notification] object sent to the rider.  The strings copied from
    the cached record (the body naming the sender and the two addresses)
    are not carried by the cached record of this model and are left
    out. *)
Record DriverNotification : Type := mkDriverNotification {
  dn_title : string;
  dn_customerId : Id
}.

(** The payload of the [arrived] signal. *)
Record ArrivedData : Type := mkArrivedData {
  arrived_customerId : Id;
  riderArrived : string
}.

(** The events the handlers emit besides those of the relay and of the
    lifecycle. *)
Inductive Outgoing : Type :=
  | notification (n : DriverNotification)
  | riderArrivalNotification (riderArrived : string)
  | requestAlreadySent (message : string).

(** The service with its broker session: [channel] and [connection] tell
    whether the fields are non-null; [sent] logs the [Outgoing] events
    ([emitted] of [service] logs the others). *)
Record Server : Type := mkServer {
  service : RabbitMqService.State;
  connection : bool;
  channel : bool;
  published : list Publication;
  pendingRequests : list PackageRequest;
  sent : list (RabbitMqService.Socket * Outgoing)
}.

Definition SM (A : Type) : Type :=
  Server -> RabbitMqService.Completion A * Server.

Definition sret {A : Type} (a : A) : SM A :=
  fun sv => (RabbitMqService.Fulfilled a, sv).

Definition sbind {A B : Type} (m : SM A) (k : A -> SM B) : SM B :=
  fun sv =>
    match m sv with
    | (RabbitMqService.Fulfilled a, sv') => k a sv'
    | (RabbitMqService.Rejected e, sv') => (RabbitMqService.Rejected e, sv')
    end.

(** An [async] call that is not awaited. *)
Definition sdetached (m : SM unit) : SM unit :=
  fun sv => (RabbitMqService.Fulfilled tt, snd (m sv)).

Local Notation "x <- c ;; k" := (sbind c (fun x => k))
  (at level 61, c at next level, right associativity).
Local Notation "c ;;; k" := (sbind c (fun _ => k))
  (at level 61, right associativity).

Definition with_service (s : RabbitMqService.State) (sv : Server) : Server :=
  mkServer s (connection sv) (channel sv) (published sv)
           (pendingRequests sv) (sent sv).

(** A method of the service that only touches the registry, the cache,
    the stores and the relay's events. *)
Definition lift {A : Type} (m : RabbitMqService.M A) : SM A :=
  fun sv => let (c, s) := m (service sv) in (c, with_service s sv).

(** [socket.emit(event, payload)] for the [Outgoing] events. *)
Definition send (sock : RabbitMqService.Socket) (ev : Outgoing) : SM unit :=
  fun sv => (RabbitMqService.Fulfilled tt,
             mkServer (service sv) (connection sv) (channel sv)
                      (published sv) (pendingRequests sv)
                      (sent sv ++ [(sock, ev)])).

(** [this.channel!.assertExchange(...)]: a property access on [null] when
    there is no channel. *)
Definition assertExchange (exchange : Exchange) : SM unit :=
  fun sv =>
    if channel sv then (RabbitMqService.Fulfilled tt, sv)
    else (RabbitMqService.Rejected
            (JS.TypeError "Cannot read properties of null"), sv).

(** [this.channel!.publish(exchange, '', Buffer.from(message), options)]. *)
Definition publish (exchange : Exchange) (message : Message)
           (expiration : option Z) : SM unit :=
  fun sv =>
    if channel sv then
      (RabbitMqService.Fulfilled tt,
       mkServer (service sv) (connection sv) (channel sv)
                (published sv ++ [mkPublication exchange message expiration])
                (pendingRequests sv) (sent sv))
    else (RabbitMqService.Rejected
            (JS.TypeError "Cannot read properties of null"), sv).

(** [connectToRabbitMQ()], the broker being reachable. *)
Definition connectToRabbitMQ : SM unit :=
  fun sv => (RabbitMqService.Fulfilled tt,
             mkServer (service sv) true true (published sv)
                      (pendingRequests sv) (sent sv)).

(** [disconnectFromRabbitMQ()]. *)
Definition disconnectFromRabbitMQ : SM unit :=
  fun sv =>
    let sv1 :=
      if channel sv
      then mkServer (service sv) (connection sv) false (published sv)
                    (pendingRequests sv) (sent sv)
      else sv in
    let sv2 :=
      if connection sv1
      then mkServer (service sv1) false (channel sv1) (published sv1)
                    (pendingRequests sv1) (sent sv1)
      else sv1 in
    (RabbitMqService.Fulfilled tt, sv2).

(** [getAvailableDriver()]. *)
Definition getAvailableDriver : SM (option RabbitMqService.MatchRecord) :=
  lift RabbitMqService.getToken.

(** [sendNotificationToDriver(riderId, notification)]. *)
Definition sendNotificationToDriver (riderId : Id)
           (n : DriverNotification) : SM unit :=
  driverSocket <- lift (RabbitMqService.socketMap_get riderId) ;;
  match driverSocket with
  | Some driverSocket => send driverSocket (notification n)
  | None => sret tt
  end.

(** [assignPackageToDriver(packageRequest)].  With no cached driver the
    [CustomAPIError] is built and dropped. *)
Definition assignPackageToDriver (packageRequest : PackageRequest)
  : SM unit :=
  driver <- getAvailableDriver ;;
  match driver with
  | Some driver =>
      let riderId := RabbitMqService.riderId driver in
      let n :=
        mkDriverNotification "New Delivery Request"
                             (RabbitMqService.customerId driver) in
      sendNotificationToDriver riderId n ;;;
      assertExchange assigned_package_requests ;;;
      publish assigned_package_requests
              (assigned_message packageRequest riderId) None
  | None => sret tt
  end.

(** The [notification] event a rider gets, when the rider has a
    connection in the registry. *)
Definition notified (m : list (Id * RabbitMqService.Socket)) (riderId : Id)
           (n : DriverNotification)
  : list (RabbitMqService.Socket * Outgoing) :=
  match RabbitMqService.Map_get m riderId with
  | Some driverSocket => [(driverSocket, notification n)]
  | None => []
  end.

Section Bus.

(** [EXPIRATION_AMQP_MESSAGE] and [ADMIN_CHARGES] of [config/constants]. *)
Variable EXPIRATION_AMQP_MESSAGE : Z.
Variable ADMIN_CHARGES : Q.

(** [submitPackageRequest(packageRequest, socket)]. *)
Definition submitPackageRequest (packageRequest : PackageRequest)
  : SM unit :=
  assertExchange PACKAGE_REQUEST ;;;
  publish PACKAGE_REQUEST (request_message packageRequest)
          (Some EXPIRATION_AMQP_MESSAGE) ;;;
  sdetached (assignPackageToDriver packageRequest) ;;;
  fun sv => (RabbitMqService.Fulfilled tt,
             mkServer (service sv) (connection sv) (channel sv)
                      (published sv)
                      (pendingRequests sv ++ [packageRequest]) (sent sv)).

(** [sendDriverResponse(driverResponse)]. *)
Definition sendDriverResponse
           (driverResponse : RabbitMqService.DriverResponse) : SM unit :=
  assertExchange DRIVER_RESPONSES ;;;
  publish DRIVER_RESPONSES (response_message driverResponse) None.

(** The consumer of [listenForPackageRequests]: [content] is the parsed
    content of the message, [None] when the message has none. *)
Definition consume_package_request (content : option PackageRequest)
  : SM unit :=
  match content with
  | Some packageRequest => sdetached (assignPackageToDriver packageRequest)
  | None => sret tt
  end.

(** The consumer of [listenForDriverResponses]. *)
Definition consume_driver_response
           (content : option RabbitMqService.DriverResponse) : SM unit :=
  match content with
  | Some driverResponse =>
      sdetached
        (lift (RabbitMqService.notifyUserAboutDriverResponse driverResponse))
  | None => sret tt
  end.

(** What a connected client can send. *)
Inductive Inbound : Type :=
  | ev_packageRequest (request : PackageRequest)
  | ev_riderId (riderId : option Id)
  | ev_customerId (customerId : option Id)
  | ev_arrived (data : option ArrivedData)
  | ev_startDelivery (data : option RabbitMqService.SignalData)
  | ev_endDelivery (data : option RabbitMqService.SignalData)
  | ev_notificationAck
  | ev_riderResponseNotificationAck
  | ev_disconnect.

(** The handlers registered by [setupSocketIO] on a connection. *)
Definition handle (socket : RabbitMqService.Socket) (ev : Inbound)
  : SM unit :=
  match ev with
  | ev_packageRequest None =>
      send socket (requestAlreadySent "Request has already been sent.")
  | ev_packageRequest request => sdetached (submitPackageRequest request)
  | ev_riderId riderId => lift (RabbitMqService.on_riderId socket riderId)
  | ev_customerId customerId =>
      lift (RabbitMqService.on_customerId socket customerId)
  | ev_arrived (Some data) =>
      customerSocket <-
        lift (RabbitMqService.socketMap_get (arrived_customerId data)) ;;
      match customerSocket with
      | Some customerSocket =>
          send customerSocket (riderArrivalNotification (riderArrived data))
      | None => sret tt
      end
  | ev_arrived None => sret tt
  | ev_startDelivery data =>
      sdetached (lift (RabbitMqService.on_startDelivery data))
  | ev_endDelivery data =>
      sdetached (lift (RabbitMqService.on_endDelivery ADMIN_CHARGES data))
  | ev_notificationAck => sret tt
  | ev_riderResponseNotificationAck => sret tt
  | ev_disconnect => sret tt
  end.

(** Everything that can happen to the server: a new connection, an event
    of a connected client, a message delivered by the broker. *)
Inductive Input : Type :=
  | new_connection (socket : RabbitMqService.Socket)
  | from_client (socket : RabbitMqService.Socket) (ev : Inbound)
  | package_request_delivered (content : option PackageRequest)
  | driver_response_delivered
      (content : option RabbitMqService.DriverResponse).

Definition step (sv : Server) (i : Input) : Server :=
  match i with
  | new_connection socket =>
      snd (lift (RabbitMqService.on_connection socket) sv)
  | from_client socket ev => snd (handle socket ev sv)
  | package_request_delivered content =>
      snd (consume_package_request content sv)
  | driver_response_delivered content =>
      snd (consume_driver_response content sv)
  end.

Definition run (sv : Server) (inputs : list Input) : Server :=
  fold_left step inputs sv.

(** [new] is [old] with elements appended. *)
Definition extends {A : Type} (old new : list A) : Prop :=
  exists suffix, new = old ++ suffix.

(** The same for the service alone: the registry, the admin-fee records
    and the relay's events. *)
Definition keeps_service (st st' : RabbitMqService.State) : Prop :=
  (forall id : Id,
      RabbitMqService.Map_get (RabbitMqService.socketMap st) id <> None ->
      RabbitMqService.Map_get (RabbitMqService.socketMap st') id <> None)
  /\ extends (adminFees (RabbitMqService.db st))
             (adminFees (RabbitMqService.db st'))
  /\ extends (RabbitMqService.emitted st) (RabbitMqService.emitted st').

(** A server state [sv'] keeps what [sv] had: every identity of the
    registry is still registered, and the pending requests, the
    publications, the admin-fee records and the two logs of events only
    got longer; the channel is as it was. *)
Definition keeps (sv sv' : Server) : Prop :=
  (forall id : Id,
      RabbitMqService.Map_get (RabbitMqService.socketMap (service sv)) id
      <> None ->
      RabbitMqService.Map_get (RabbitMqService.socketMap (service sv')) id
      <> None)
  /\ extends (pendingRequests sv) (pendingRequests sv')
  /\ extends (published sv) (published sv')
  /\ extends (adminFees (RabbitMqService.db (service sv)))
             (adminFees (RabbitMqService.db (service sv')))
  /\ extends (sent sv) (sent sv')
  /\ extends (RabbitMqService.emitted (service sv))
             (RabbitMqService.emitted (service sv'))
  /\ channel sv' = channel sv.

End Bus.

End Dispatch.


Module DispatchSamples.
Import RabbitMqService Lifecycle Dispatch.

Definition rider_socket : Socket := mkSocket "socket-of-rider-3".

(** Customer 2 and rider 3 are connected and the match record of
    delivery 1 is cached. *)
Definition matched_state : State :=
  mkState [(2%nat, customer_socket); (3%nat, rider_socket)]
          (Some sample_match)
          (sample_database (sample_delivery PENDING None) []) [].

Definition server_of (st : State) (connected : bool) : Server :=
  mkServer st connected connected [] [] [].

Definition a_request : PackageRequest := Some "parcel-1"%string.

End DispatchSamples.

(** *** Live connections

    The server does not record which connections are live; for the
    properties that speak of a live connection it is read off the inputs:
    a connection is live from its [connection] event (or from its first
    event) until its [disconnect] event. *)
Module Connections.
Import RabbitMqService Lifecycle Dispatch DispatchSamples.

Definition same_connection (a b : Socket) : bool :=
  String.eqb (socket_id a) (socket_id b).

Definition live_step (live : list Socket) (i : Input) : list Socket :=
  match i with
  | new_connection socket => socket :: live
  | from_client socket ev_disconnect =>
      filter (fun x => negb (same_connection x socket)) live
  | from_client socket _ =>
      if existsb (same_connection socket) live then live else socket :: live
  | _ => live
  end.

(** The connections that are live once the server has seen [inputs]. *)
Definition live_connections (inputs : list Input) : list Socket :=
  fold_left live_step inputs [].

(** The identity has a live connection in the registry: the registry
    holds a connection for it, and that connection is live. *)
Definition has_live_connection (registry : list (Id * Socket))
           (live : list Socket) (id : Id) : bool :=
  match Map_get registry id with
  | Some socket => existsb (same_connection socket) live
  | None => false
  end.

(** Nobody is registered; delivery 1 is on its way with rider 3 and its
    match record is cached. *)
Definition server_with_match : Server :=
  server_of (disconnected_state (sample_delivery ON_TRANSIT (Some 3%nat)) [])
            true.

(** Customer 2 connects, announces itself and disconnects. *)
Definition customer_comes_and_goes : list Input :=
  [new_connection customer_socket;
   from_client customer_socket (ev_customerId (Some 2%nat));
   from_client customer_socket ev_disconnect].

(** Rider 3 is registered, customer 2 is not; the match record is cached. *)
Definition rider_only_state : State :=
  mkState [(3%nat, rider_socket)] (Some sample_match)
          (sample_database (sample_delivery ON_TRANSIT (Some 3%nat))
                           [wallet_of_rider_3]) [].

End Connections.

(* ===================================================================== *)
(** ** DeliveryController.doDelivery and doEditDelivery                   *)
(* ===================================================================== *)

Module DeliveryOrders.
Import DeliveryController.

(** The customer's wallet ([walletDAOService]). *)
Record CustomerWallet : Type := mkCustomerWallet {
  cwallet_id : Id;
  cwallet_customer : Id;
  cwallet_balance : JS.JSNum
}.

(** The validated body of the request ([value]): the attributes the
    method reads. *)
Record DeliveryRequest : Type := mkDeliveryRequest {
  vehicle : string;
  senderLat : Q;
  senderLon : Q;
  recipientLat : Q;
  recipientLon : Q
}.

(** What [Generic.location_difference] returns. *)
Record Distance : Type := mkDistance {
  dist_distance : Q;
  dist_hours : Z;
  dist_minutes : Z
}.

(** The stores the two methods use: the database and the customers'
    wallets. *)
Record Books : Type := mkBooks {
  books_db : Database;
  customerWallets : list CustomerWallet
}.

Definition has_customer (c : Id) (w : CustomerWallet) : bool :=
  Nat.eqb (cwallet_customer w) c.

Definition has_wallet_id (id : Id) (w : CustomerWallet) : bool :=
  Nat.eqb (cwallet_id w) id.

Definition set_cwallet_balance (b : JS.JSNum) (w : CustomerWallet)
  : CustomerWallet :=
  mkCustomerWallet (cwallet_id w) (cwallet_customer w) b.

(** Modelled from the spec: [walletDAOService.update({_id: id}, {balance})]. *)
Definition wallet_update_id (id : Id) (balance : JS.JSNum) (b : Books)
  : Books :=
  mkBooks (books_db b)
          (snd (Dao.patch_first (has_wallet_id id)
                                (set_cwallet_balance balance)
                                (customerWallets b))).

(** Modelled from the spec: [deliveryDAOService.findById(id)]. *)
Definition delivery_findById (id : Id) (db : Database) : option Delivery :=
  Dao.findByAny (fun d => Nat.eqb (delivery_id d) id) (deliveries db).

Section Orders.

(** Constants of [config/constants]. *)
Variables BIKE_SPEED CAR_SPEED BUS_SPEED AVERAGE_SPEED : Q.
Variables PRICE_PER_KM_BIKE PRICE_PER_KM_CAR PRICE_PER_KM_BUS
          AVERAGE_PRICE_PER_KM : Q.

(** [Generic.location_difference(lat1, lon1, lat2, lon2, speed)], which is
    not part of the sources: taken as given, with a finite distance. *)
Variable location_difference : Q -> Q -> Q -> Q -> JS.JSNum -> Distance.

(** The reference number a new delivery gets from the store. *)
Variable deliveryRefNumber_of : Id -> string.

(** [speed] and [fee] from the vehicle selected: [0 + constant]. *)
Definition speed_and_fee (vehicle : string) : JS.JSNum * JS.JSNum :=
  if String.eqb vehicle "bike"
  then (JS.add (JS.Fin 0) (JS.num BIKE_SPEED),
        JS.add (JS.Fin 0) (JS.num PRICE_PER_KM_BIKE))
  else if String.eqb vehicle "car"
  then (JS.add (JS.Fin 0) (JS.num CAR_SPEED),
        JS.add (JS.Fin 0) (JS.num PRICE_PER_KM_CAR))
  else if String.eqb vehicle "bus"
  then (JS.add (JS.Fin 0) (JS.num BUS_SPEED),
        JS.add (JS.Fin 0) (JS.num PRICE_PER_KM_BUS))
  else (JS.add (JS.Fin 0) (JS.num AVERAGE_SPEED),
        JS.add (JS.Fin 0) (JS.num AVERAGE_PRICE_PER_KM)).

(** [_deliveryFee = +distance.distance.toFixed(2) * fee]: the distance
    rounded to two decimals is read back as a number, and the product is
    rounded. *)
Definition _deliveryFee_of (value : DeliveryRequest) : JS.JSNum :=
  let (speed, fee) := speed_and_fee (vehicle value) in
  let distance :=
    location_difference (senderLat value) (senderLon value)
                        (recipientLat value) (recipientLon value) speed in
  JS.mul (JS.toFixed2 (JS.num (dist_distance distance))) fee.

(** Modelled from the spec: [deliveryDAOService.create(deliveryValue)]; the
    document gets a fresh [_id] and is returned.  The fee, given as the
    string of [toFixed(2)], is stored as the number it denotes. *)
Definition delivery_create (status : DeliveryStatus) (fee : JS.JSNum)
           (customer : Id) (sender : Point) (db : Database)
  : Delivery * Database :=
  let d := mkDelivery (nextId db) status fee None customer sender
                      (deliveryRefNumber_of (nextId db)) in
  (d, mkDatabase (deliveries db ++ [d]) (riders db) (riderWallets db)
                 (adminFees db) (notifications db) (vehicles db)
                 (riderLocations db) (S (nextId db))).

(** [doDelivery(req)]: [customerId] is [req.user._id] and [validated] the
    result of the validation of [req.body], an error message or the
    value. *)
Definition doDelivery (customerId : Id)
           (validated : string + DeliveryRequest) (b : Books)
  : Outcome Delivery * Books :=
  match validated with
  | inl message => (Reject (mkCustomAPIError message BAD_REQUEST), b)
  | inr value =>
      let _deliveryFee := _deliveryFee_of value in
      match Dao.findByAny (has_customer customerId) (customerWallets b) with
      | None =>
          (Reject (mkCustomAPIError
                     "Add funds to wallet before initiating a delivery"
                     NOT_FOUND), b)
      | Some wallet =>
          if JS.lt (cwallet_balance wallet) _deliveryFee
          then (Reject (mkCustomAPIError
                          "Wallet is low on cash, please fund wallet."
                          BAD_REQUEST), b)
          else
            let (delivery, db') :=
              delivery_create PENDING (JS.toFixed2 _deliveryFee) customerId
                              (mkPoint (senderLon value) (senderLat value))
                              (books_db b) in
            let amount :=
              JS.sub (cwallet_balance wallet) (deliveryFee delivery) in
            (Resolve delivery,
             wallet_update_id (cwallet_id wallet) amount
                              (mkBooks db' (customerWallets b)))
      end
  end.

(** The patch of [doEditDelivery]: the location, the fee and the status
    are overwritten; [customer] is written with the value it had. *)
Definition edit_patch (fee : JS.JSNum) (sender : Point) (d : Delivery)
  : Delivery :=
  mkDelivery (delivery_id d) PENDING fee (delivery_rider d)
             (delivery_customer d) sender (delivery_refNumber d).

Definition status_eqb (a b : DeliveryStatus) : bool :=
  match a, b with
  | PENDING, PENDING | ON_TRANSIT, ON_TRANSIT
  | DELIVERED, DELIVERED | CANCELED, CANCELED => true
  | _, _ => false
  end.

(** [doEditDelivery(req)]: [deliveryId] is [req.params.deliveryId]; the
    method returns what [updateByAny] returned, a document or [null]. *)
Definition doEditDelivery (deliveryId : Id)
           (validated : string + DeliveryRequest) (b : Books)
  : Outcome (option Delivery) * Books :=
  match validated with
  | inl message => (Reject (mkCustomAPIError message BAD_REQUEST), b)
  | inr value =>
      match delivery_findById deliveryId (books_db b) with
      | None =>
          (Reject (mkCustomAPIError "Delivery does not exist" NOT_FOUND), b)
      | Some _delivery =>
          if negb (status_eqb (delivery_status _delivery) PENDING)
          then (Reject (mkCustomAPIError "Delivery can not be edited"
                                         BAD_REQUEST), b)
          else
            let _deliveryFee := _deliveryFee_of value in
            match Dao.findByAny (has_customer (delivery_customer _delivery))
                                (customerWallets b) with
            | None =>
                (Reject (mkCustomAPIError
                           "Add funds to wallet before initiating a delivery"
                           NOT_FOUND), b)
            | Some wallet =>
                let deliveryDiff :=
                  if JS.lt _deliveryFee (deliveryFee _delivery)
                  then JS.add (JS.Fin 0)
                              (JS.sub (deliveryFee _delivery) _deliveryFee)
                  else JS.add (JS.Fin 0)
                              (JS.sub (deliveryFee _delivery) _deliveryFee)
                in
                let isNegative :=
                  negb (JS.isNaN deliveryDiff)
                  && JS.lt deliveryDiff (JS.Fin 0) in
                if isNegative
                   && JS.lt (cwallet_balance wallet) (JS.abs deliveryDiff)
                then (Reject (mkCustomAPIError
                                "Wallet is low on cash, please fund wallet"
                                BAD_REQUEST), b)
                else
                  let (delivery, db') :=
                    Dao.delivery_updateByAny
                      (delivery_id _delivery)
                      (edit_patch (JS.toFixed2 _deliveryFee)
                                  (mkPoint (senderLon value)
                                           (senderLat value)))
                      (books_db b) in
                  match delivery with
                  | Some _ =>
                      let amount :=
                        JS.add (cwallet_balance wallet) deliveryDiff in
                      (Resolve delivery,
                       wallet_update_id (cwallet_id wallet)
                                        (JS.toFixed2 amount)
                                        (mkBooks db' (customerWallets b)))
                  | None => (Resolve delivery, mkBooks db' (customerWallets b))
                  end
            end
      end
  end.

End Orders.

End DeliveryOrders.


Module OrderSamples.
Import DeliveryController DeliveryOrders.

(** Every trip is 2.5 km long and takes five minutes. *)
Definition flat_distance (_ _ _ _ : Q) (_ : JS.JSNum) : Distance :=
  mkDistance (5 # 2) 0 5.

Definition ref_of (id : Id) : string := "REF-NEW".

(** Speeds of 30, 50, 40 and 35 km/h; prices of 100, 150, 200 and 120 per
    kilometre. *)
Definition fee_sample (value : DeliveryRequest) : JS.JSNum :=
  _deliveryFee_of 30 50 40 35 100 150 200 120 flat_distance value.

Definition doDelivery_sample :=
  doDelivery 30 50 40 35 100 150 200 120 flat_distance ref_of.

Definition doEditDelivery_sample :=
  doEditDelivery 30 50 40 35 100 150 200 120 flat_distance.

Definition by_bike : DeliveryRequest :=
  mkDeliveryRequest "bike" (6 # 1) (3 # 1) (7 # 1) (4 # 1).

Definition by_car : DeliveryRequest :=
  mkDeliveryRequest "car" (6 # 1) (3 # 1) (7 # 1) (4 # 1).

Definition wallet_of_customer_2 : CustomerWallet :=
  mkCustomerWallet 21%nat 2%nat (JS.Fin 1000).

(** Customer 2 holds 1000 and has no delivery yet. *)
Definition fresh_books : Books :=
  mkBooks (mkDatabase [] [] [] [] [] [] [] 30%nat) [wallet_of_customer_2].

(** Customer 2 holds 750 after ordering delivery 30 by bike for 250. *)
Definition books_with_order : Books :=
  snd (doDelivery_sample 2%nat (inr by_bike) fresh_books).

(** A trip of 4.15 km, and a price of 15 per kilometre by bike. *)
Definition distance_of_4150_metres (_ _ _ _ : Q) (_ : JS.JSNum) : Distance :=
  mkDistance (415 # 100) 0 8.

Definition doDelivery_at_15 :=
  doDelivery 30 50 40 35 15 150 200 120 distance_of_4150_metres ref_of.

Definition doEditDelivery_at_15 :=
  doEditDelivery 30 50 40 35 15 150 200 120 distance_of_4150_metres.

(** Customer 2 with a wallet holding [balance], and no delivery yet. *)
Definition books_with_balance (balance : Q) : Books :=
  mkBooks (mkDatabase [] [] [] [] [] [] [] 30%nat)
          [mkCustomerWallet 21%nat 2%nat (JS.num balance)].

(** Customer 2 with an empty wallet and delivery 30, pending, whose fee
    is 62.25. *)
Definition books_with_order_of_62_25 : Books :=
  mkBooks (mkDatabase
             [mkDelivery 30%nat PENDING (JS.num (6225 # 100)) None 2%nat
                         (mkPoint (3 # 1) (6 # 1)) "REF-NEW"]
             [] [] [] [] [] [] 31%nat)
          [mkCustomerWallet 21%nat 2%nat (JS.Fin 0)].

End OrderSamples.

(* ===================================================================== *)
(** ** Rounding to binary64: monotone, exact on representable numbers     *)
(* ===================================================================== *)

Module Binary64.
Import JS.

Lemma pow2_pos (e : Z) : 0 < pow2 e.
Proof. unfold pow2. apply Qpower_0_lt. reflexivity. Qed.

Lemma pow2_add (a b : Z) : pow2 (a + b) == pow2 a * pow2 b.
Proof. unfold pow2. apply Qpower_plus. discriminate. Qed.

Lemma pow2_sub (a b : Z) : pow2 (a - b) == pow2 a / pow2 b.
Proof. unfold pow2. apply Qpower_minus. discriminate. Qed.

Lemma pow2_le (a b : Z) : (a <= b)%Z -> pow2 a <= pow2 b.
Proof. intros H. unfold pow2. apply Qpower_le_compat_l; [exact H | discriminate]. Qed.

Lemma pow2_lt (a b : Z) : (a < b)%Z -> pow2 a < pow2 b.
Proof. intros H. unfold pow2. apply Qpower_lt_compat_l; [exact H | reflexivity]. Qed.

Lemma pow2_lt_inv (a b : Z) : pow2 a < pow2 b -> (a < b)%Z.
Proof. intros H. apply (Qpower_lt_compat_l_inv 2); [exact H | reflexivity]. Qed.

Lemma pow2_Z (e : Z) : (0 <= e)%Z -> pow2 e == inject_Z (2 ^ e).
Proof. intros H. unfold pow2. symmetry. apply (Zpower_Qpower 2 e H). Qed.

Lemma pow2_succ (e : Z) : pow2 (e + 1) == 2 * pow2 e.
Proof. rewrite pow2_add. unfold pow2 at 2. simpl. ring. Qed.


Lemma ilog2_spec (x : Q) :
  0 < x -> pow2 (ilog2 x) <= x /\ x < pow2 (ilog2 x + 1).
Proof.
  intros Hx. destruct x as [n d].
  assert (Hn : (0 < n)%Z) by (unfold Qlt in Hx; simpl in Hx; lia).
  unfold ilog2. cbn [Qnum Qden].
  set (a := Z.log2 n). set (b := Z.log2 (Z.pos d)).
  assert (Ha := Z.log2_spec n Hn). fold a in Ha.
  assert (Hb := Z.log2_spec (Z.pos d) (Pos2Z.is_pos d)). fold b in Hb.
  assert (Ha0 : (0 <= a)%Z) by apply Z.log2_nonneg.
  assert (Hb0 : (0 <= b)%Z) by apply Z.log2_nonneg.
  assert (Hxd : (n # d) * inject_Z (Z.pos d) == inject_Z n).
  { unfold Qeq, Qmult, inject_Z. simpl. rewrite Pos.mul_1_r. ring. }
  assert (HN1 : pow2 a <= inject_Z n).
  { rewrite pow2_Z by exact Ha0. rewrite <- Zle_Qle. lia. }
  assert (HN2 : inject_Z n < pow2 (a + 1)).
  { rewrite pow2_Z by lia. rewrite <- Zlt_Qlt. unfold Z.succ in Ha. lia. }
  assert (HD1 : pow2 b <= inject_Z (Z.pos d)).
  { rewrite pow2_Z by exact Hb0. rewrite <- Zle_Qle. lia. }
  assert (HD2 : inject_Z (Z.pos d) < pow2 (b + 1)).
  { rewrite pow2_Z by lia. rewrite <- Zlt_Qlt. unfold Z.succ in Hb. lia. }
  set (X := n # d) in *. set (D := inject_Z (Z.pos d)) in *.
  set (N := inject_Z n) in *.
  assert (HD0 : 0 < D) by (pose proof (pow2_pos b); lra).
  destruct (Qle_bool (pow2 (a - b)) X) eqn:Hk.
  - apply Qle_bool_iff in Hk. split; [exact Hk |].
    apply (Qmult_lt_r _ _ D HD0). rewrite Hxd.
    assert (E : pow2 (a + 1) == pow2 (a - b + 1) * pow2 b).
    { rewrite <- pow2_add. replace (a - b + 1 + b)%Z with (a + 1)%Z by ring.
      reflexivity. }
    pose proof (pow2_pos (a - b + 1)) as Hp.
    assert (pow2 (a - b + 1) * pow2 b <= pow2 (a - b + 1) * D).
    { apply Qmult_le_l; assumption. }
    lra.
  - assert (Hlt : X < pow2 (a - b)).
    { apply Qnot_le_lt. intro H. apply Qle_bool_iff in H. congruence. }
    replace (a - b - 1 + 1)%Z with (a - b)%Z by ring.
    split; [| exact Hlt].
    apply (Qmult_le_r _ _ D HD0). rewrite Hxd.
    assert (E : pow2 a == pow2 (a - b - 1) * pow2 (b + 1)).
    { rewrite <- pow2_add. replace (a - b - 1 + (b + 1))%Z with a by ring.
      reflexivity. }
    pose proof (pow2_pos (a - b - 1)) as Hp.
    assert (pow2 (a - b - 1) * D <= pow2 (a - b - 1) * pow2 (b + 1)).
    { apply Qmult_le_l; [assumption | lra]. }
    lra.
Qed.

Lemma ilog2_unique (x : Q) (l : Z) :
  pow2 l <= x -> x < pow2 (l + 1) -> ilog2 x = l.
Proof.
  intros H1 H2.
  assert (Hx : 0 < x) by (pose proof (pow2_pos l); lra).
  destruct (ilog2_spec x Hx) as [S1 S2].
  assert ((ilog2 x < l + 1)%Z) by (apply pow2_lt_inv; lra).
  assert ((l < ilog2 x + 1)%Z) by (apply pow2_lt_inv; lra).
  lia.
Qed.

Lemma ilog2_monotone (x y : Q) : 0 < x -> x <= y -> (ilog2 x <= ilog2 y)%Z.
Proof.
  intros Hx Hxy.
  destruct (ilog2_spec x Hx) as [S1 _].
  destruct (ilog2_spec y) as [_ S2]; [lra |].
  assert ((ilog2 x < ilog2 y + 1)%Z) by (apply pow2_lt_inv; lra).
  lia.
Qed.

(** *** Rounding to the nearest integer, ties to even *)

Lemma rne_floor_or_succ (x : Q) : rne x = Qfloor x \/ rne x = (Qfloor x + 1)%Z.
Proof.
  unfold rne. destruct (Qcompare _ _); [destruct (Z.even _) | |]; auto.
Qed.

Lemma rne_Z (z : Z) : rne (inject_Z z) = z.
Proof.
  unfold rne. rewrite Qfloor_Z.
  assert (E : inject_Z z - inject_Z z == 0) by ring.
  rewrite E. reflexivity.
Qed.

#[global] Instance rne_comp : Proper (Qeq ==> eq) rne.
Proof.
  intros x y E. unfold rne. cbv zeta. rewrite (Qfloor_comp x y E).
  assert (H : Qcompare (x - inject_Z (Qfloor y)) (1 # 2)
              = Qcompare (y - inject_Z (Qfloor y)) (1 # 2)).
  { apply Qcompare_comp; [rewrite E |]; reflexivity. }
  rewrite H. reflexivity.
Qed.

Lemma rne_monotone (x y : Q) : x <= y -> (rne x <= rne y)%Z.
Proof.
  intros Hxy.
  pose proof (Qfloor_resp_le _ _ Hxy) as Hf.
  destruct (Z.eq_dec (Qfloor x) (Qfloor y)) as [E | NE].
  - unfold rne. rewrite E.
    destruct (Qcompare_spec (x - inject_Z (Qfloor y)) (1 # 2));
      destruct (Qcompare_spec (y - inject_Z (Qfloor y)) (1 # 2));
      try destruct (Z.even (Qfloor y)); try lia; lra.
  - destruct (rne_floor_or_succ x) as [Ex | Ex];
      destruct (rne_floor_or_succ y) as [Ey | Ey]; lia.
Qed.

Lemma rne_nonneg (x : Q) : 0 <= x -> (0 <= rne x)%Z.
Proof.
  intros H. rewrite <- (rne_Z 0) at 1. apply rne_monotone. exact H.
Qed.


(** *** The grid of a given exponent *)

Lemma Qdiv_pow2_le (x y : Q) (e : Z) : x <= y -> x / pow2 e <= y / pow2 e.
Proof.
  intros H. unfold Qdiv. apply Qmult_le_compat_r; [exact H |].
  apply Qlt_le_weak, Qinv_lt_0_compat, pow2_pos.
Qed.

Lemma grid_div (n : Z) (e : Z) : inject_Z n * pow2 e / pow2 e == inject_Z n.
Proof.
  field. pose proof (pow2_pos e). lra.
Qed.

Lemma rne_grid_le (x : Q) (e n : Z) :
  x <= inject_Z n * pow2 e ->
  inject_Z (rne (x / pow2 e)) * pow2 e <= inject_Z n * pow2 e.
Proof.
  intros H. apply Qmult_le_compat_r; [| apply Qlt_le_weak, pow2_pos].
  rewrite <- Zle_Qle.
  pose proof (rne_monotone _ _ (Qdiv_pow2_le _ _ e H)) as Hr.
  rewrite (rne_comp _ _ (grid_div n e)), rne_Z in Hr. exact Hr.
Qed.

Lemma rne_grid_ge (x : Q) (e n : Z) :
  inject_Z n * pow2 e <= x ->
  inject_Z n * pow2 e <= inject_Z (rne (x / pow2 e)) * pow2 e.
Proof.
  intros H. apply Qmult_le_compat_r; [| apply Qlt_le_weak, pow2_pos].
  rewrite <- Zle_Qle.
  pose proof (rne_monotone _ _ (Qdiv_pow2_le _ _ e H)) as Hr.
  rewrite (rne_comp _ _ (grid_div n e)), rne_Z in Hr. exact Hr.
Qed.

Lemma rne_grid_eq (x : Q) (e n : Z) :
  x == inject_Z n * pow2 e ->
  inject_Z (rne (x / pow2 e)) * pow2 e == x.
Proof.
  intros H. apply Qle_antisym.
  - rewrite H at 2. apply rne_grid_le. rewrite H. apply Qle_refl.
  - rewrite H at 1. apply rne_grid_ge. rewrite H. apply Qle_refl.
Qed.

(** A power of two on a finer grid. *)
Lemma pow2_on_grid (k e : Z) :
  (e <= k)%Z -> pow2 k == inject_Z (2 ^ (k - e)) * pow2 e.
Proof.
  intros H. rewrite <- pow2_Z by lia. rewrite <- pow2_add.
  replace (k - e + e)%Z with k by ring. reflexivity.
Qed.

Lemma grid_coarser (m e e' : Z) :
  (e' <= e)%Z ->
  inject_Z m * pow2 e == inject_Z (m * 2 ^ (e - e')) * pow2 e'.
Proof.
  intros H. rewrite inject_Z_mult, (pow2_on_grid e e' H). ring.
Qed.

Lemma expo_monotone (x y : Q) : 0 < x -> x <= y -> (expo x <= expo y)%Z.
Proof.
  intros Hx Hxy. unfold expo.
  pose proof (ilog2_monotone x y Hx Hxy). lia.
Qed.

Lemma nearest_nonneg (x : Q) : 0 < x -> 0 <= nearest x.
Proof.
  intros Hx. unfold nearest. cbv zeta.
  apply Qmult_le_0_compat; [| apply Qlt_le_weak, pow2_pos].
  change 0 with (inject_Z 0). rewrite <- Zle_Qle. apply rne_nonneg.
  unfold Qdiv. apply Qmult_le_0_compat; [lra |].
  apply Qlt_le_weak, Qinv_lt_0_compat, pow2_pos.
Qed.

Lemma nearest_monotone (x y : Q) :
  0 < x -> x <= y -> nearest x <= nearest y.
Proof.
  intros Hx Hxy.
  assert (Hy : 0 < y) by lra.
  pose proof (expo_monotone x y Hx Hxy) as HE.
  unfold nearest. cbv zeta.
  destruct (Z.eq_dec (expo x) (expo y)) as [E | NE].
  - rewrite E. apply Qmult_le_compat_r; [| apply Qlt_le_weak, pow2_pos].
    rewrite <- Zle_Qle. apply rne_monotone, Qdiv_pow2_le, Hxy.
  - assert (Hlt : (expo x < expo y)%Z) by lia. clear NE HE.
    destruct (ilog2_spec x Hx) as [_ X2].
    destruct (ilog2_spec y Hy) as [Y1 _].
    unfold expo in Hlt.
    assert (Hl : (ilog2 x + 1 <= ilog2 y)%Z) by lia.
    assert (Ey : expo y = (ilog2 y - 52)%Z) by (unfold expo; lia).
    assert (Ex : (expo x <= ilog2 y)%Z) by (unfold expo; lia).
    pose proof (pow2_le _ _ Hl) as Hp.
    apply Qle_trans with (pow2 (ilog2 y)).
    + rewrite (pow2_on_grid (ilog2 y) (expo x) Ex).
      apply rne_grid_le. rewrite <- (pow2_on_grid (ilog2 y) (expo x) Ex). lra.
    + assert (Ey' : (expo y <= ilog2 y)%Z) by lia.
      rewrite (pow2_on_grid (ilog2 y) (expo y) Ey') at 1.
      apply rne_grid_ge. rewrite <- (pow2_on_grid (ilog2 y) (expo y) Ey').
      exact Y1.
Qed.

(** A value with a significand below [2^53] and an exponent of at least
    [-1074] is on its own grid: rounding leaves it as it is. *)
Lemma nearest_id (x : Q) (m e : Z) :
  0 < x -> x == inject_Z m * pow2 e -> (m < 2 ^ 53)%Z -> (-1074 <= e)%Z ->
  nearest x == x.
Proof.
  intros Hx Hm Hb He.
  destruct (ilog2_spec x Hx) as [X1 _].
  assert (HE : (expo x <= e)%Z).
  { assert (Hlt : pow2 (ilog2 x) < pow2 (53 + e)).
    { apply Qle_lt_trans with x; [exact X1 |]. rewrite Hm, pow2_add.
      apply Qmult_lt_compat_r; [apply pow2_pos |].
      rewrite pow2_Z by lia. rewrite <- Zlt_Qlt. exact Hb. }
    apply pow2_lt_inv in Hlt. unfold expo. lia. }
  unfold nearest. cbv zeta.
  apply (rne_grid_eq x (expo x) (m * 2 ^ (e - expo x))).
  transitivity (inject_Z m * pow2 e);
    [exact Hm | apply grid_coarser; exact HE].
Qed.


(** *** Rounding to binary64 *)

Lemma round_pos_cases (x : Q) :
  (pow2 1024 <= nearest x /\ round_pos x = PInf)
  \/ (nearest x < pow2 1024 /\ round_pos x = Fin (Qred (nearest x))).
Proof.
  unfold round_pos. cbv zeta.
  destruct (Qle_bool (pow2 1024) (nearest x)) eqn:H.
  - left. split; [apply Qle_bool_iff; exact H | reflexivity].
  - right. split; [| reflexivity].
    apply Qnot_le_lt. intro H'. apply Qle_bool_iff in H'. congruence.
Qed.

Lemma le_Fin (x y : Q) : le (Fin x) (Fin y) = true <-> x <= y.
Proof. apply Qle_bool_iff. Qed.

Lemma le_neg (a b : JSNum) : le a b = true -> le (neg b) (neg a) = true.
Proof.
  destruct a, b; simpl; try congruence.
  rewrite !Qle_bool_iff. intros H. lra.
Qed.

Lemma round_pos_monotone (x y : Q) :
  0 < x -> x <= y -> le (round_pos x) (round_pos y) = true.
Proof.
  intros Hx Hxy. pose proof (nearest_monotone x y Hx Hxy) as Hn.
  destruct (round_pos_cases x) as [[Hvx Ex] | [Hvx Ex]];
    destruct (round_pos_cases y) as [[Hvy Ey] | [Hvy Ey]];
    rewrite Ex, Ey; try reflexivity.
  - lra.
  - apply le_Fin. rewrite !Qred_correct. exact Hn.
Qed.

Lemma round_pos_nonneg (x : Q) :
  0 < x -> le (Fin 0) (round_pos x) = true.
Proof.
  intros Hx. pose proof (nearest_nonneg x Hx) as Hn.
  destruct (round_pos_cases x) as [[_ E] | [_ E]]; rewrite E;
    [reflexivity |].
  apply le_Fin. rewrite Qred_correct. exact Hn.
Qed.

Lemma round64_pos (x : Q) : 0 < x -> round64 x = round_pos x.
Proof.
  intros H. unfold round64. destruct (Qcompare_spec x 0); try lra.
  reflexivity.
Qed.

Lemma round64_neg (x : Q) : x < 0 -> round64 x = neg (round_pos (- x)).
Proof.
  intros H. unfold round64. destruct (Qcompare_spec x 0); try lra.
  reflexivity.
Qed.

Lemma round64_zero (x : Q) : x == 0 -> round64 x = Fin 0.
Proof.
  intros H. unfold round64. destruct (Qcompare_spec x 0); try lra.
  reflexivity.
Qed.

Lemma le_trans (a b c : JSNum) :
  le a b = true -> le b c = true -> le a c = true.
Proof.
  destruct a, b, c; simpl; try congruence.
  rewrite !Qle_bool_iff. intros; lra.
Qed.

(** Rounding is monotone. *)
Lemma round64_monotone (x y : Q) :
  x <= y -> le (round64 x) (round64 y) = true.
Proof.
  intros Hxy.
  destruct (Qcompare_spec x 0) as [X | X | X];
    destruct (Qcompare_spec y 0) as [Y | Y | Y]; try lra.
  - rewrite (round64_zero x X), (round64_zero y Y). reflexivity.
  - rewrite (round64_zero x X), (round64_pos y Y).
    apply round_pos_nonneg, Y.
  - rewrite (round64_neg x X), (round64_zero y Y).
    change (Fin 0) with (neg (Fin 0)). apply le_neg, round_pos_nonneg. lra.
  - rewrite (round64_neg x X), (round64_neg y Y).
    apply le_neg, round_pos_monotone; lra.
  - rewrite (round64_neg x X), (round64_pos y Y).
    apply le_trans with (Fin 0).
    + change (Fin 0) with (neg (Fin 0)). apply le_neg, round_pos_nonneg. lra.
    + apply round_pos_nonneg, Y.
  - rewrite (round64_pos x X), (round64_pos y Y).
    apply round_pos_monotone; lra.
Qed.

(** Rounding never yields [NaN]. *)
Lemma round64_not_NaN (x : Q) : round64 x <> NaN.
Proof.
  pose proof (round64_monotone x x (Qle_refl x)) as H.
  destruct (round64 x); simpl in H; congruence.
Qed.

(** Between two numbers that round to finite values, a number rounds to a
    finite value between them. *)
Lemma round64_between (lo hi lo' hi' x : Q) :
  round64 lo = Fin lo' -> round64 hi = Fin hi' -> lo <= x -> x <= hi ->
  exists r, round64 x = Fin r /\ lo' <= r /\ r <= hi'.
Proof.
  intros Elo Ehi H1 H2.
  pose proof (round64_monotone lo x H1) as L.
  pose proof (round64_monotone x hi H2) as U.
  rewrite Elo in L. rewrite Ehi in U.
  destruct (round64 x) as [r | | |]; simpl in L, U; try congruence.
  exists r. rewrite !Qle_bool_iff in *. auto.
Qed.

(** *** Representable numbers *)

Lemma representable_0 : representable 0.
Proof. reflexivity. Qed.

Lemma Qopp_opp_eq (x : Q) : - - x = x.
Proof.
  destruct x as [n d]. unfold Qopp. cbn [Qnum Qden].
  rewrite Z.opp_involutive. reflexivity.
Qed.

Lemma representable_opp (x : Q) : representable x -> representable (- x).
Proof.
  unfold representable. intros H.
  destruct (Qcompare_spec x 0) as [X | X | X].
  - rewrite round64_zero by lra. f_equal.
    change 0 with (Qred 0). apply Qred_complete. lra.
  - rewrite (round64_neg x X) in H. rewrite round64_pos by lra.
    destruct (round_pos (- x)) as [r | | |]; simpl in H; try discriminate.
    injection H as H. f_equal. rewrite Qred_opp, <- H.
    rewrite Qopp_opp_eq. reflexivity.
  - rewrite (round64_pos x X) in H. rewrite round64_neg by lra.
    rewrite Qopp_opp_eq, H. cbn [neg]. rewrite Qred_opp. reflexivity.
Qed.

(** A significand below [2^53] in absolute value, an exponent of at least
    [-1074], a magnitude below [2^1024]: such a number is representable. *)
Lemma representable_criterion_pos (x : Q) (m e : Z) :
  0 < x -> x == inject_Z m * pow2 e -> (m < 2 ^ 53)%Z -> (-1074 <= e)%Z ->
  x < pow2 1024 -> representable x.
Proof.
  intros Hx Hm Hb He Hmax. unfold representable.
  rewrite (round64_pos x Hx).
  pose proof (nearest_id x m e Hx Hm Hb He) as Hid.
  destruct (round_pos_cases x) as [[Hv _] | [_ E]]; [lra |].
  rewrite E. f_equal. apply Qred_complete, Hid.
Qed.

Lemma representable_criterion (x : Q) (m e : Z) :
  x == inject_Z m * pow2 e -> (Z.abs m < 2 ^ 53)%Z -> (-1074 <= e)%Z ->
  Qabs x < pow2 1024 -> representable x.
Proof.
  intros Hm Hb He Hmax.
  destruct (Qcompare_spec x 0) as [X | X | X].
  - unfold representable. rewrite (round64_zero x X). f_equal.
    change 0 with (Qred 0). apply Qred_complete. lra.
  - rewrite <- (Qopp_opp_eq x). apply (representable_opp (- x)).
    apply (representable_criterion_pos (- x) (- m) e); try lia; try lra.
    + rewrite Hm, inject_Z_opp. ring.
    + rewrite Qabs_neg in Hmax by lra. exact Hmax.
  - apply (representable_criterion_pos x m e); try lia; try lra.
    rewrite Qabs_pos in Hmax by lra. exact Hmax.
Qed.


Lemma ilog2_comp (x y : Q) : 0 < x -> x == y -> ilog2 x = ilog2 y.
Proof.
  intros Hx E. destruct (ilog2_spec x Hx) as [S1 S2].
  symmetry. apply ilog2_unique; rewrite <- E; assumption.
Qed.

Lemma nearest_comp (x y : Q) : 0 < x -> x == y -> nearest x = nearest y.
Proof.
  intros Hx E. unfold nearest, expo. cbv zeta.
  rewrite (ilog2_comp x y Hx E).
  set (e := Z.max (ilog2 y - 52) (-1074)).
  assert (R : rne (x / pow2 e) = rne (y / pow2 e)).
  { apply rne_comp. rewrite E. reflexivity. }
  rewrite R. reflexivity.
Qed.

Lemma round_pos_comp (x y : Q) : 0 < x -> x == y -> round_pos x = round_pos y.
Proof.
  intros Hx E. unfold round_pos. rewrite (nearest_comp x y Hx E). reflexivity.
Qed.

(** Rounding does not depend on how the rational is written. *)
Lemma round64_comp (x y : Q) : x == y -> round64 x = round64 y.
Proof.
  intros E. destruct (Qcompare_spec x 0) as [X | X | X].
  - rewrite (round64_zero x X), (round64_zero y); [reflexivity | lra].
  - rewrite (round64_neg x X), (round64_neg y) by lra.
    f_equal. apply round_pos_comp; lra.
  - rewrite (round64_pos x X), (round64_pos y) by lra.
    apply round_pos_comp; lra.
Qed.

Lemma representable_comp (x y : Q) :
  x == y -> representable x -> representable y.
Proof.
  unfold representable. intros E H.
  rewrite <- (round64_comp x y E), H. f_equal. apply Qred_complete, E.
Qed.

Lemma representable_Qred (x : Q) : representable x -> representable (Qred x).
Proof.
  apply representable_comp. symmetry. apply Qred_correct.
Qed.

(** The significand and the exponent of a representable positive number. *)
Lemma representable_decomposition (x : Q) :
  representable x -> 0 < x ->
  exists m : Z,
    x == inject_Z m * pow2 (expo x) /\ (0 < m < 2 ^ 53)%Z /\ x < pow2 1024.
Proof.
  unfold representable. intros H Hx.
  rewrite (round64_pos x Hx) in H.
  destruct (round_pos_cases x) as [[_ E] | [Hmax E]];
    rewrite E in H; [discriminate |].
  assert (Hid : nearest x == x).
  { apply Qred_eq_iff. congruence. }
  set (m := rne (x / pow2 (expo x))).
  assert (Hm : x == inject_Z m * pow2 (expo x)).
  { symmetry. exact Hid. }
  exists m. split; [exact Hm |]. split; [| lra].
  destruct (ilog2_spec x Hx) as [_ S2].
  pose proof (pow2_pos (expo x)) as Hp.
  split.
  - assert (0 < inject_Z m).
    { apply (Qmult_lt_r _ _ (pow2 (expo x)) Hp). lra. }
    rewrite Zlt_Qlt. assumption.
  - assert (HE : (ilog2 x + 1 <= 53 + expo x)%Z) by (unfold expo; lia).
    pose proof (pow2_le _ _ HE) as Hle. rewrite (pow2_add 53) in Hle.
    assert (inject_Z m < pow2 53).
    { apply (Qmult_lt_r _ _ (pow2 (expo x)) Hp). lra. }
    rewrite Zlt_Qlt. rewrite <- pow2_Z by lia. assumption.
Qed.

(** Whatever rounding returns is representable. *)
Lemma round_pos_representable (x r : Q) :
  0 < x -> round_pos x = Fin r -> representable r.
Proof.
  intros Hx H.
  destruct (round_pos_cases x) as [[_ E] | [Hmax E]];
    rewrite E in H; [discriminate |].
  assert (Hr : r = Qred (nearest x)) by congruence.
  clear H. subst r. apply representable_Qred.
  destruct (ilog2_spec x Hx) as [S1 S2].
  pose proof (pow2_pos (expo x)) as Hp.
  set (m := rne (x / pow2 (expo x))).
  assert (Hn : nearest x == inject_Z m * pow2 (expo x)) by reflexivity.
  assert (HE : (ilog2 x + 1 <= 53 + expo x)%Z) by (unfold expo; lia).
  assert (Hm : (0 <= m <= 2 ^ 53)%Z).
  { split.
    - apply rne_nonneg. unfold Qdiv. apply Qmult_le_0_compat; [lra |].
      apply Qlt_le_weak, Qinv_lt_0_compat, pow2_pos.
    - assert (Hx2 : x <= inject_Z (2 ^ 53) * pow2 (expo x)).
      { rewrite <- pow2_Z by lia. rewrite <- pow2_add.
        pose proof (pow2_le _ _ HE). lra. }
      pose proof (rne_grid_le x (expo x) (2 ^ 53) Hx2) as G.
      fold m in G.
      assert (inject_Z m <= inject_Z (2 ^ 53)).
      { apply (Qmult_le_r _ _ (pow2 (expo x)) Hp). exact G. }
      rewrite Zle_Qle. assumption. }
  assert (HE0 : (-1074 <= expo x)%Z) by (unfold expo; lia).
  destruct (Z.eq_dec m (2 ^ 53)) as [Em | Nm].
  - apply (representable_criterion _ (2 ^ 52) (expo x + 1)).
    + rewrite Hn, Em, pow2_succ. change (2 ^ 53)%Z with (2 * 2 ^ 52)%Z.
      rewrite inject_Z_mult. change (inject_Z 2) with 2. ring.
    + reflexivity.
    + lia.
    + rewrite Qabs_pos; [exact Hmax | apply nearest_nonneg, Hx].
  - apply (representable_criterion _ m (expo x)).
    + exact Hn.
    + lia.
    + exact HE0.
    + rewrite Qabs_pos; [exact Hmax | apply nearest_nonneg, Hx].
Qed.

Lemma round64_representable (x r : Q) : round64 x = Fin r -> representable r.
Proof.
  intros H. destruct (Qcompare_spec x 0) as [X | X | X].
  - rewrite (round64_zero x X) in H. injection H as H. subst r. reflexivity.
  - rewrite (round64_neg x X) in H.
    destruct (round_pos (- x)) as [v | | |] eqn:E; simpl in H;
      try discriminate.
    injection H as H. subst r. apply representable_opp.
    apply (round_pos_representable (- x)); [lra | exact E].
  - rewrite (round64_pos x X) in H.
    apply (round_pos_representable x); assumption.
Qed.

(** Integers below [2^53] in absolute value are representable. *)
Lemma representable_Z (z : Z) :
  (Z.abs z < 2 ^ 53)%Z -> representable (inject_Z z).
Proof.
  intros H. apply (representable_criterion _ z 0).
  - unfold pow2. simpl. ring.
  - exact H.
  - lia.
  - apply Qlt_trans with (pow2 53); [| apply pow2_lt; lia].
    rewrite pow2_Z by lia.
    assert (E : Qabs (inject_Z z) == inject_Z (Z.abs z)).
    { unfold inject_Z. rewrite <- Zabs_Qabs. reflexivity. }
    rewrite E, <- Zlt_Qlt. exact H.
Qed.

(** Subtracting an integer from a representable number below [2^53] is
    exact as long as the difference is not larger than the number. *)
Lemma sub_integer_representable (f : Q) (r : Z) :
  representable f -> 0 < f -> f < pow2 53 ->
  Qabs (f - inject_Z r) <= f ->
  representable (f - inject_Z r).
Proof.
  intros Hf H0 H53 Habs.
  destruct (representable_decomposition f Hf H0) as (m & Hm & Hb & Hmax).
  destruct (ilog2_spec f H0) as [S1 _].
  assert (HL : (ilog2 f < 53)%Z) by (apply pow2_lt_inv; lra).
  assert (HE : (expo f <= 0)%Z) by (unfold expo; lia).
  assert (HE0 : (-1074 <= expo f)%Z) by (unfold expo; lia).
  pose proof (pow2_pos (expo f)) as Hp.
  set (m' := (m - r * 2 ^ (0 - expo f))%Z).
  assert (Hm' : f - inject_Z r == inject_Z m' * pow2 (expo f)).
  { unfold m'. rewrite Hm at 1. unfold Zminus at 1.
    rewrite inject_Z_plus, inject_Z_opp, inject_Z_mult.
    assert (E1 : 1 == inject_Z (2 ^ (0 - expo f)) * pow2 (expo f)).
    { rewrite <- (pow2_on_grid 0 (expo f) HE). reflexivity. }
    setoid_replace (inject_Z r) with (inject_Z r * 1) at 1 by ring.
    rewrite E1 at 1. ring. }
  apply (representable_criterion _ m' (expo f)).
  - exact Hm'.
  - assert (Ha : Qabs (inject_Z m' * pow2 (expo f))
                 <= inject_Z m * pow2 (expo f)).
    { rewrite <- Hm', <- Hm. exact Habs. }
    rewrite Qabs_Qmult, (Qabs_pos (pow2 (expo f))) in Ha by lra.
    assert (Hz : Qabs (inject_Z m') == inject_Z (Z.abs m')).
    { unfold inject_Z. rewrite <- Zabs_Qabs. reflexivity. }
    rewrite Hz in Ha.
    assert (inject_Z (Z.abs m') <= inject_Z m).
    { apply (Qmult_le_r _ _ (pow2 (expo f)) Hp). exact Ha. }
    assert ((Z.abs m' <= m)%Z) by (rewrite Zle_Qle; assumption).
    lia.
  - exact HE0.
  - apply Qle_lt_trans with f; [exact Habs | lra].
Qed.

(** A representable number of at least [2^53] is an integer. *)
Lemma representable_large_integer (t : Q) :
  representable t -> pow2 53 <= t -> inject_Z (Qfloor t) == t.
Proof.
  intros Ht H53.
  assert (H0 : 0 < t) by (pose proof (pow2_pos 53); lra).
  destruct (representable_decomposition t Ht H0) as (m & Hm & Hb & Hmax).
  destruct (ilog2_spec t H0) as [_ S2].
  assert (HL : (53 < ilog2 t + 1)%Z) by (apply pow2_lt_inv; lra).
  assert (HE : (0 <= expo t)%Z) by (unfold expo; lia).
  assert (Hz : t == inject_Z (m * 2 ^ expo t)).
  { rewrite Hm at 1. rewrite inject_Z_mult, <- pow2_Z by exact HE.
    reflexivity. }
  rewrite (Qfloor_comp _ _ Hz), Qfloor_Z. symmetry. exact Hz.
Qed.

(** The fractional part of a representable non-negative number is
    representable: [t - Math.floor(t)] is computed exactly. *)
Lemma frac_representable (t : Q) :
  representable t -> 0 <= t -> representable (t - inject_Z (Qfloor t)).
Proof.
  intros Ht H0.
  pose proof (Qfloor_le t) as F1. pose proof (Qlt_floor t) as F2.
  assert (F0 : (0 <= Qfloor t)%Z).
  { rewrite <- (Qfloor_Z 0). apply Qfloor_resp_le. exact H0. }
  assert (F0' : 0 <= inject_Z (Qfloor t)).
  { change 0 with (inject_Z 0). rewrite <- Zle_Qle. exact F0. }
  destruct (Qlt_le_dec t (pow2 53)) as [Hs | Hl].
  - destruct (Qeq_dec t 0) as [Z0 | NZ].
    + apply (representable_comp 0); [| reflexivity].
      rewrite (Qfloor_comp _ _ Z0). change (Qfloor 0) with 0%Z.
      rewrite Z0. reflexivity.
    + apply sub_integer_representable; try assumption; try lra.
      rewrite Qabs_pos by lra. lra.
  - apply (representable_comp 0); [| reflexivity].
    rewrite (representable_large_integer t Ht Hl). ring.
Qed.

(** *** [Math.round] *)

Lemma Math_round_bounds (a : Q) :
  a - (1 # 2) < inject_Z (Math_round a)
  /\ inject_Z (Math_round a) <= a + (1 # 2).
Proof.
  unfold Math_round. split.
  - pose proof (Qlt_floor (a + (1 # 2))) as H.
    rewrite inject_Z_plus in H. change (inject_Z 1) with 1 in H. lra.
  - apply Qfloor_le.
Qed.

Lemma Math_round_small (a : Q) :
  0 <= a -> a < 1 # 2 -> Math_round a = 0%Z.
Proof.
  intros H0 Ha. unfold Math_round.
  assert (H1 : (Qfloor (a + (1 # 2)) < 1)%Z).
  { rewrite Zlt_Qlt. apply Qle_lt_trans with (a + (1 # 2)).
    - apply Qfloor_le.
    - change (inject_Z 1) with 1. lra. }
  assert (H2 : (0 <= Qfloor (a + (1 # 2)))%Z).
  { rewrite <- (Qfloor_Z 0). apply Qfloor_resp_le.
    change (inject_Z 0) with 0. lra. }
  lia.
Qed.

Lemma Math_round_nonneg (a : Q) : 0 <= a -> (0 <= Math_round a)%Z.
Proof.
  intros H. unfold Math_round. rewrite <- (Qfloor_Z 0).
  apply Qfloor_resp_le. change (inject_Z 0) with 0. lra.
Qed.

Lemma Math_round_monotone (a b : Q) :
  a <= b -> (Math_round a <= Math_round b)%Z.
Proof.
  intros H. unfold Math_round. apply Qfloor_resp_le. lra.
Qed.

Lemma Qfloor_unique (x : Q) (z : Z) :
  inject_Z z <= x -> x < inject_Z (z + 1) -> Qfloor x = z.
Proof.
  intros H1 H2.
  assert (A : (z <= Qfloor x)%Z).
  { rewrite <- (Qfloor_Z z). apply Qfloor_resp_le. exact H1. }
  assert (B : (Qfloor x < z + 1)%Z).
  { rewrite Zlt_Qlt. apply Qle_lt_trans with x; [apply Qfloor_le | exact H2]. }
  lia.
Qed.

Lemma Math_round_Z (z : Z) : Math_round (inject_Z z) = z.
Proof.
  unfold Math_round. apply Qfloor_unique.
  - lra.
  - rewrite inject_Z_plus. change (inject_Z 1) with 1. lra.
Qed.

(** *** The operators on finite numbers *)

Lemma num_between (lo hi lo' hi' x : Q) :
  round64 lo = Fin lo' -> round64 hi = Fin hi' -> lo <= x -> x <= hi ->
  exists r, num x = Fin r /\ lo' <= r /\ r <= hi'.
Proof. apply round64_between. Qed.

Lemma num_representable (x : Q) : representable x -> num x = Fin (Qred x).
Proof. intros H. exact H. Qed.

Lemma add_0_l (x : Q) :
  representable x -> add (Fin 0) (Fin x) = Fin (Qred x).
Proof.
  intros H. cbn [add]. rewrite (round64_comp (0 + x) x) by ring. exact H.
Qed.

Lemma sub_Fin (x y : Q) : sub (Fin x) (Fin y) = round64 (x - y).
Proof. reflexivity. Qed.

Lemma Qred_inject_Z (z : Z) : Qred (inject_Z z) = inject_Z z.
Proof.
  unfold Qred, inject_Z. cbn [Qnum Qden].
  pose proof (Z.ggcd_gcd z 1) as G.
  pose proof (Z.ggcd_correct_divisors z 1) as D.
  destruct (Z.ggcd z 1) as [g [aa bb]]. cbn [fst snd] in *.
  rewrite Z.gcd_1_r in G. subst g. destruct D as [D1 D2].
  rewrite Z.mul_1_l in D1, D2. subst aa bb. reflexivity.
Qed.

(** [0 + z] for an integer below [2^53] in absolute value. *)
Lemma add_0_integer (z : Z) :
  (Z.abs z < 2 ^ 53)%Z ->
  add (Fin 0) (Fin (inject_Z z)) = Fin (inject_Z z).
Proof.
  intros H. rewrite add_0_l by (apply representable_Z; exact H).
  rewrite Qred_inject_Z. reflexivity.
Qed.

Lemma div_by_zero_not_finite (a : JSNum) : not_finite (div a (Fin 0)).
Proof.
  destruct a as [x | | |]; cbn [div not_finite]; try exact I.
  change (Qeq_bool 0 0) with true. cbv iota.
  unfold signed_inf. destruct (x ?= 0); exact I.
Qed.

Lemma add_not_finite_r (a b : JSNum) : not_finite b -> not_finite (add a b).
Proof.
  destruct a, b; cbn [add not_finite]; intros H; try exact I;
    contradiction.
Qed.

Lemma add_not_finite_l (a b : JSNum) : not_finite a -> not_finite (add a b).
Proof.
  destruct a, b; cbn [add not_finite]; intros H; try exact I;
    contradiction.
Qed.

Lemma same_refl (a : JSNum) : same a a.
Proof. destruct a; simpl; auto. reflexivity. Qed.

Lemma same_Qred (x : Q) : same (Fin (Qred x)) (Fin x).
Proof. simpl. apply Qred_correct. Qed.

(** *** The settlement of a fee: [f - Math.round(c / 100 * f)]

    For a representable fee [f] with [0 <= f < 2^53] and a percentage
    between 0 and 100, the admin fee computed is between 0 and [f] and the
    subtraction of its rounding from [f] is exact. *)
Lemma settlement_exact (c f : Q) :
  representable f -> 0 <= f -> f < pow2 53 -> 0 <= c -> c <= 100 ->
  exists a : Q,
    mul (div (num c) (Fin 100)) (Fin f) = Fin a
    /\ 0 <= a /\ a <= f
    /\ sub (Fin f) (round (Fin a))
       = Fin (Qred (f - inject_Z (Math_round a))).
Proof.
  intros Hf H0 H53 Hc0 Hc100.
  destruct (num_between 0 100 0 100 c) as (c' & Ec & Hc'0 & Hc'100);
    try reflexivity; try assumption.
  rewrite Ec. cbn [div].
  assert (N100 : Qeq_bool c' 0 = Qeq_bool c' 0) by reflexivity.
  change (Qeq_bool 100 0) with false. cbv iota.
  destruct (round64_between 0 1 0 1 (c' / 100)) as (q & Eq & Hq0 & Hq1);
    try reflexivity; try lra.
  { apply Qle_shift_div_l; lra. }
  { apply Qle_shift_div_r; lra. }
  rewrite Eq. cbn [mul].
  destruct (round64_between 0 f 0 (Qred f) (q * f)) as (a & Ea & Ha0 & Haf);
    try reflexivity; try exact Hf.
  { apply Qmult_le_0_compat; assumption. }
  { assert (q * f <= 1 * f) by (apply Qmult_le_compat_r; assumption). lra. }
  rewrite Qred_correct in Haf.
  exists a. split; [exact Ea |]. split; [exact Ha0 |]. split; [exact Haf |].
  cbn [round]. rewrite sub_Fin.
  pose proof (Math_round_nonneg a Ha0) as HR0.
  pose proof (Math_round_bounds a) as [_ HR1].
  assert (HR0' : 0 <= inject_Z (Math_round a)).
  { change 0 with (inject_Z 0). rewrite <- Zle_Qle. exact HR0. }
  destruct (Qlt_le_dec f (1 # 2)) as [Hsmall | Hbig].
  - rewrite (Math_round_small a Ha0) by lra.
    apply (representable_comp f); [| exact Hf].
    change (inject_Z 0) with 0. ring.
  - apply sub_integer_representable; try assumption; try lra.
    apply Qabs_Qle_condition. lra.
Qed.

End Binary64.

(** *** Agreement with the machine's binary64 arithmetic

    The expressions of the code at the figures used in this file, computed
    by the kernel's primitive floats and by the operators of [JS]. *)
Module Kernel64Facts.
Import PrimFloat Kernel64.
Local Open Scope float_scope.

(** [29 / 100 * 50], the admin fee of a fee of 50 at 29 percent. *)
Example admin_fee_of_50_at_29_percent :
  of_float (29 / 100 * 50)
  = JS.mul (JS.div (JS.num 29) (JS.Fin 100)) (JS.Fin 50).
Proof. vm_compute. reflexivity. Qed.

(** [10 / 100 * 100], the admin fee of a fee of 100 at 10 percent. *)
Example admin_fee_of_100_at_10_percent :
  of_float (10 / 100 * 100)
  = JS.mul (JS.div (JS.num 10) (JS.Fin 100)) (JS.Fin 100).
Proof. vm_compute. reflexivity. Qed.

(** [4.15 * 15], the fee of 4.15 km at 15 per kilometre. *)
Example fee_of_4150_metres_at_15 :
  of_float (415 / 100 * 15) = JS.mul (JS.num (415 # 100)) (JS.num 15).
Proof. vm_compute. reflexivity. Qed.

(** [(32250 / 1000 / 30 - 1) * 60], the minutes of one rider 32250 m away
    at 30 km/h. *)
Example minutes_of_32250_metres_at_30 :
  of_float ((32250 / 1000 / 30 - 1) * 60)
  = JS.mul (JS.sub (JS.div (JS.div (JS.num 32250) (JS.Fin 1000)) (JS.num 30))
                   (JS.Fin 1))
           (JS.Fin 60).
Proof. vm_compute. reflexivity. Qed.

(** The aggregate time of riders at 1000, 3000 and 6000 m at 30 km/h. *)
Example time_of_three_riders_at_30 :
  of_float (0 + 1000 / 1000 / 30 + 3000 / 1000 / 30 + 6000 / 1000 / 30)
  = JS.add
      (JS.add
         (JS.add (JS.Fin 0)
                 (JS.div (JS.div (JS.num 1000) (JS.Fin 1000)) (JS.Fin 30)))
         (JS.div (JS.div (JS.num 3000) (JS.Fin 1000)) (JS.Fin 30)))
      (JS.div (JS.div (JS.num 6000) (JS.Fin 1000)) (JS.Fin 30)).
Proof. vm_compute. reflexivity. Qed.

(** [62.26 - 62.25]. *)
Example balance_left_of_62_26 :
  of_float (6226 / 100 - 6225 / 100)
  = JS.sub (JS.num (6226 # 100)) (JS.num (6225 # 100)).
Proof. vm_compute. reflexivity. Qed.

(** Overflow and underflow: [2^1023 * 2] is [Infinity]; [2^-1074 / 2] is a
    tie between 0 and the least positive number and rounds to 0. *)
Example overflow_and_underflow :
  of_float (FloatOps.Z.ldexp 1 1023 * 2)
  = JS.mul (JS.Fin (JS.pow2 1023)) (JS.Fin 2)
  /\ of_float (FloatOps.Z.ldexp 1 (-1074) / 2)
     = JS.div (JS.Fin (JS.pow2 (-1074))) (JS.Fin 2).
Proof. split; vm_compute; reflexivity. Qed.

End Kernel64Facts.

(* ===================================================================== *)
(** ** Properties of the persistence helpers                              *)
(* ===================================================================== *)

Section DaoFacts.

Context {A : Type}.
Variables (p : A -> bool) (f : A -> A).

Lemma patch_first_found (l : list A) (x : A) :
  find p l = Some x ->
  fst (Dao.patch_first p f l) = Some (f x).
Proof.
  induction l as [|y l IH]; simpl; [discriminate|].
  destruct (p y) eqn:Hy.
  - intros [= ->]. reflexivity.
  - intros H. specialize (IH H).
    destruct (Dao.patch_first p f l). exact IH.
Qed.

Lemma patch_first_missing (l : list A) :
  find p l = None ->
  Dao.patch_first p f l = (None, l).
Proof.
  induction l as [|y l IH]; simpl; [reflexivity|].
  destruct (p y); [discriminate|].
  intros H. rewrite (IH H). reflexivity.
Qed.

Lemma patch_first_pointwise (l : list A) :
  Forall2 (fun a b => b = a \/ (p a = true /\ b = f a))
          l (snd (Dao.patch_first p f l)).
Proof.
  induction l as [|y l IH]; simpl; [constructor|].
  destruct (p y) eqn:Hy; simpl.
  - constructor; [right; auto|].
    clear. induction l; constructor; auto.
  - destruct (Dao.patch_first p f l); simpl in *.
    constructor; auto.
Qed.

Lemma patch_first_find_after (l : list A) (x : A) :
  find p l = Some x ->
  p (f x) = true ->
  find p (snd (Dao.patch_first p f l)) = Some (f x).
Proof.
  induction l as [|y l IH]; simpl; [discriminate|].
  destruct (p y) eqn:Hy.
  - intros [= ->] Hfx. simpl. rewrite Hfx. reflexivity.
  - intros H Hfx. specialize (IH H Hfx).
    destruct (Dao.patch_first p f l); simpl in *.
    rewrite Hy. exact IH.
Qed.

End DaoFacts.

Lemma command_run {A : Type} (g : Database -> A * Database)
      (s : RabbitMqService.State) :
  RabbitMqService.command g s =
  (RabbitMqService.Fulfilled (fst (g (RabbitMqService.db s))),
   RabbitMqService.mkState (RabbitMqService.socketMap s)
                           (RabbitMqService.matchCache s)
                           (snd (g (RabbitMqService.db s)))
                           (RabbitMqService.emitted s)).
Proof.
  unfold RabbitMqService.command. destruct (g (RabbitMqService.db s)).
  reflexivity.
Qed.

Lemma delivery_updateByAny_run (id : Id) (g : Delivery -> Delivery)
      (d : Database) :
  Dao.delivery_updateByAny id g d =
  (fst (Dao.patch_first (fun x => Nat.eqb (delivery_id x) id) g
                        (deliveries d)),
   Dao.with_deliveries
     (snd (Dao.patch_first (fun x => Nat.eqb (delivery_id x) id) g
                           (deliveries d))) d).
Proof.
  unfold Dao.delivery_updateByAny.
  destruct (Dao.patch_first _ g (deliveries d)). reflexivity.
Qed.

Lemma rider_updateByAny_run (id : Id) (g : Rider -> Rider) (d : Database) :
  Dao.rider_updateByAny id g d =
  (fst (Dao.patch_first (fun x => Nat.eqb (rider_id x) id) g (riders d)),
   Dao.with_riders
     (snd (Dao.patch_first (fun x => Nat.eqb (rider_id x) id) g (riders d)))
     d).
Proof.
  unfold Dao.rider_updateByAny.
  destruct (Dao.patch_first _ g (riders d)). reflexivity.
Qed.

Lemma riderWallet_update_id_run (id : Id) (g : RiderWallet -> RiderWallet)
      (d : Database) :
  Dao.riderWallet_update_id id g d =
  (fst (Dao.patch_first (fun x => Nat.eqb (wallet_id x) id) g
                        (riderWallets d)),
   Dao.with_riderWallets
     (snd (Dao.patch_first (fun x => Nat.eqb (wallet_id x) id) g
                           (riderWallets d))) (nextId d) d).
Proof.
  unfold Dao.riderWallet_update_id.
  destruct (Dao.patch_first _ g (riderWallets d)). reflexivity.
Qed.

(* ===================================================================== *)
(** ** The delivery lifecycle: guard on the customer's connection         *)
(* ===================================================================== *)

Module LifecycleFacts.
Import RabbitMqService Lifecycle Dispatch DispatchSamples Connections.

(** C9, as stated, fails: the registry is never pruned, so a customer who
    announced itself and then disconnected has no live connection but is
    still found in the registry, and the end of the delivery is carried
    out. *)
Lemma endDelivery_after_disconnect_settles :
  ~ (forall (sv : Server) (inputs : list Input) (data : SignalData),
        let st := service (run 5000 10 sv inputs) in
        has_live_connection (socketMap st) (live_connections inputs)
                            (data_customerId data) = false ->
        endDeliveryNotification 10 data st = (Fulfilled tt, st)).
Proof.
  intros H.
  specialize (H server_with_match customer_comes_and_goes sample_signal).
  cbv zeta in H. specialize (H eq_refl).
  vm_compute in H. discriminate H.
Qed.

(** What the end signal does after the customer has come and gone: the
    delivery is [DELIVERED], the rider is no longer busy, a wallet holding
    90 and an admin-fee record of 10 are written, the match record is
    deleted and the event is emitted on the dead connection. *)
Example endDelivery_after_disconnect_effects :
  let st := service (run 5000 10 server_with_match customer_comes_and_goes) in
  let st' := snd (endDeliveryNotification 10 sample_signal st) in
  live_connections customer_comes_and_goes = []
  /\ Map_get (socketMap st) 2%nat = Some customer_socket
  /\ deliveries (db st') = [sample_delivery DELIVERED (Some 3%nat)]
  /\ riders (db st') = [Dao.set_busy false sample_rider]
  /\ riderWallets (db st') = [mkRiderWallet 10%nat 3%nat (Some (JS.Fin 90))]
  /\ adminFees (db st') = [mkAdminFee "REF-0001" 3%nat (Some (JS.Fin 10))]
  /\ matchCache st' = None
  /\ emitted st' =
     [(customer_socket,
       endDeliveryNotificationEvent
         (mkDeliveryData sample_signal "REF-0001" "0hrs:10min"))].
Proof. vm_compute. repeat split. Qed.

(** C9, amended.  When the registry holds no connection for the customer
    named in the signal (the customer never announced itself),
    [endDeliveryNotification] leaves the whole state as it was: no status
    or busy-flag change, no wallet credited or created, no admin-fee
    record, nothing emitted and the match record kept; the same holds for
    [startDeliveryNotification].  A [disconnect] event changes nothing in
    the server, the registry included: it does not bring this guard
    back. *)
Theorem unregistered_customer_noop
        (EXPIRATION_AMQP_MESSAGE : Z) (ADMIN_CHARGES : Q)
        (data : SignalData) (sv : Server) :
  Map_get (socketMap (service sv)) (data_customerId data) = None ->
  endDeliveryNotification ADMIN_CHARGES data (service sv)
  = (Fulfilled tt, service sv)
  /\ startDeliveryNotification data (service sv) = (Fulfilled tt, service sv)
  /\ forall socket : Socket,
      step EXPIRATION_AMQP_MESSAGE ADMIN_CHARGES sv
           (from_client socket ev_disconnect) = sv.
Proof.
  intros Hget.
  unfold endDeliveryNotification, startDeliveryNotification, bind,
    socketMap_get.
  rewrite Hget. repeat split.
Qed.

Lemma unregistered_customer_noop_example :
  let sv := server_of rider_only_state true in
  endDeliveryNotification 10 sample_signal rider_only_state
  = (Fulfilled tt, rider_only_state)
  /\ startDeliveryNotification sample_signal rider_only_state
     = (Fulfilled tt, rider_only_state)
  /\ forall socket : Socket,
      step 5000 10 sv (from_client socket ev_disconnect) = sv.
Proof.
  exact (unregistered_customer_noop
           5000 10 sample_signal (server_of rider_only_state true) eq_refl).
Defined.

End LifecycleFacts.

(* ===================================================================== *)
(** ** Settlement at the end of a delivery                                *)
(* ===================================================================== *)

Module SettlementFacts.
Import RabbitMqService Lifecycle.

Lemma endDelivery_connected_run
      (ADMIN_CHARGES : Q) (data : SignalData) (st : State)
      (sock : Socket) (r : MatchRecord) :
  Map_get (socketMap st) (data_customerId data) = Some sock ->
  matchCache st = Some r ->
  endDeliveryNotification ADMIN_CHARGES data st =
  (Fulfilled tt,
   mkState (socketMap st) None
           (endDelivery_database ADMIN_CHARGES r (db st))
           (emitted st ++
              [(sock, endDeliveryNotificationEvent
                        (mkDeliveryData data (deliveryRefNumber r)
                                        (estimatedDeliveryTime r)))])).
Proof.
  intros Hget Hcache.
  unfold endDeliveryNotification, bind, socketMap_get, getToken.
  rewrite Hget, Hcache. cbn [destructure ret emit].
  rewrite command_run. cbn [db socketMap matchCache emitted].
  rewrite command_run. cbn [db socketMap matchCache emitted].
  unfold query. cbn [db socketMap matchCache emitted].
  unfold endDelivery_database. cbv zeta.
  destruct (Dao.riderWallet_findByAny_rider (riderId r) _) as [w|].
  - rewrite command_run. cbn [db socketMap matchCache emitted ret].
    unfold command_, deleteRedisKey. cbn [db socketMap matchCache emitted].
    reflexivity.
  - unfold command_, deleteRedisKey. cbn [db socketMap matchCache emitted].
    reflexivity.
Qed.

Lemma startDelivery_connected_run
      (data : SignalData) (st : State) (sock : Socket) (r : MatchRecord) :
  Map_get (socketMap st) (data_customerId data) = Some sock ->
  matchCache st = Some r ->
  startDeliveryNotification data st =
  (Fulfilled tt,
   mkState (socketMap st) (Some r)
           (startDelivery_database r (db st))
           (emitted st ++
              [(sock, startDeliveryNotificationEvent
                        (mkDeliveryData data (deliveryRefNumber r)
                                        (estimatedDeliveryTime r)))])).
Proof.
  intros Hget Hcache.
  unfold startDeliveryNotification, bind, socketMap_get, getToken.
  rewrite Hget, Hcache. cbn [destructure ret emit].
  rewrite command_run. cbn [db socketMap matchCache emitted].
  rewrite command_run. cbn [db socketMap matchCache emitted ret].
  rewrite Hcache. reflexivity.
Qed.

Lemma endDelivery_database_adminFees (ADMIN_CHARGES : Q) (r : MatchRecord)
      (d0 : Database) :
  adminFees (endDelivery_database ADMIN_CHARGES r d0) =
  adminFees d0 ++
  [mkAdminFee (deliveryRefNumber r) (riderId r)
     (adminFee_of ADMIN_CHARGES
        (fst (Dao.delivery_updateByAny (deliveryId r)
                                       (Dao.set_status DELIVERED) d0)))].
Proof.
  unfold endDelivery_database. cbv zeta.
  rewrite !delivery_updateByAny_run, !rider_updateByAny_run.
  cbn [fst snd].
  destruct (Dao.riderWallet_findByAny_rider _ _).
  - rewrite riderWallet_update_id_run. reflexivity.
  - reflexivity.
Qed.

Lemma endDelivery_database_riderWallets (ADMIN_CHARGES : Q) (r : MatchRecord)
      (d0 : Database) :
  let delivery := fst (Dao.delivery_updateByAny
                         (deliveryId r) (Dao.set_status DELIVERED) d0) in
  let riderFee := riderFee_of delivery (adminFee_of ADMIN_CHARGES delivery) in
  riderWallets (endDelivery_database ADMIN_CHARGES r d0) =
  match Dao.riderWallet_findByAny_rider (riderId r) d0 with
  | Some riderWallet =>
      snd (Dao.patch_first
             (fun w => Nat.eqb (wallet_id w) (riderId r))
             (Dao.set_balance (new_balance riderFee riderWallet))
             (riderWallets d0))
  | None =>
      riderWallets d0 ++ [mkRiderWallet (nextId d0) (riderId r) riderFee]
  end.
Proof.
  unfold endDelivery_database. cbv zeta.
  rewrite !delivery_updateByAny_run, !rider_updateByAny_run.
  cbn [fst snd].
  unfold Dao.riderWallet_findByAny_rider.
  cbn [riderWallets Dao.with_riders Dao.with_deliveries].
  destruct (Dao.findByAny _ (riderWallets d0)).
  - rewrite riderWallet_update_id_run. reflexivity.
  - reflexivity.
Qed.

(** C1.  For a completed delivery (customer connected, match record
    cached, delivery found), the admin-fee record appended by
    [endDeliveryNotification] carries [ADMIN_CHARGES / 100 * deliveryFee]
    and the amount used in the wallet step is
    [deliveryFee - Math.round(adminFee)], both as binary64 computes them.
    When the fee is a binary64 number [f] with [0 <= f < 2^53] and
    [ADMIN_CHARGES] is between 0 and 100, the subtraction is exact: the
    rider fee plus the rounded admin fee is [f], as rationals and as the
    JavaScript sum. *)
Theorem settlement_split
        (ADMIN_CHARGES : Q) (data : SignalData) (st : State)
        (sock : Socket) (r : MatchRecord) (d : Delivery) :
  Map_get (socketMap st) (data_customerId data) = Some sock ->
  matchCache st = Some r ->
  find (has_delivery_id (deliveryId r)) (deliveries (db st)) = Some d ->
  let adminFee :=
    JS.mul (JS.div (JS.num ADMIN_CHARGES) (JS.Fin 100)) (deliveryFee d) in
  let riderFee := JS.sub (deliveryFee d) (JS.round adminFee) in
  let st' := snd (endDeliveryNotification ADMIN_CHARGES data st) in
  adminFees (db st') =
    adminFees (db st) ++
    [mkAdminFee (deliveryRefNumber r) (riderId r) (Some adminFee)]
  /\ riderWallets (db st') =
     match Dao.riderWallet_findByAny_rider (riderId r) (db st) with
     | Some riderWallet =>
         snd (Dao.patch_first
                (fun w => Nat.eqb (wallet_id w) (riderId r))
                (Dao.set_balance (new_balance (Some riderFee) riderWallet))
                (riderWallets (db st)))
     | None =>
         riderWallets (db st) ++
         [mkRiderWallet (nextId (db st)) (riderId r) (Some riderFee)]
     end
  /\ (forall f : Q,
         deliveryFee d = JS.Fin f -> JS.representable f ->
         0 <= f -> f < JS.pow2 53 ->
         0 <= ADMIN_CHARGES -> ADMIN_CHARGES <= 100 ->
         exists a rf : Q,
           adminFee = JS.Fin a /\ riderFee = JS.Fin rf
           /\ rf + inject_Z (JS.Math_round a) == f
           /\ JS.same (JS.add riderFee (JS.round adminFee)) (JS.Fin f)).
Proof.
  intros Hget Hcache Hfind. cbv zeta.
  rewrite (endDelivery_connected_run _ _ _ _ _ Hget Hcache).
  cbn [snd db].
  assert (Hdel : fst (Dao.delivery_updateByAny
                        (deliveryId r) (Dao.set_status DELIVERED) (db st))
                 = Some (Dao.set_status DELIVERED d)).
  { rewrite delivery_updateByAny_run. cbn [fst].
    apply patch_first_found. exact Hfind. }
  split; [|split].
  - rewrite endDelivery_database_adminFees, Hdel. reflexivity.
  - pose proof (endDelivery_database_riderWallets ADMIN_CHARGES r (db st)) as H.
    cbv zeta in H. rewrite H, Hdel. reflexivity.
  - intros f Ef Hf H0 H53 Hc0 Hc100. rewrite Ef.
    destruct (Binary64.settlement_exact ADMIN_CHARGES f Hf H0 H53 Hc0 Hc100)
      as (a & Ea & Ha0 & Haf & Esub).
    exists a, (Qred (f - inject_Z (JS.Math_round a))).
    rewrite Ea, Esub. split; [reflexivity |]. split; [reflexivity |].
    split.
    + rewrite Qred_correct. ring.
    + cbn [JS.round JS.add].
      rewrite (Binary64.round64_comp _ f)
        by (rewrite Qred_correct; ring).
      rewrite Hf. apply Binary64.same_Qred.
Qed.

Lemma settlement_split_example :
  let d := delivery_with_fee (JS.Fin 50) in
  let st' := snd (endDeliveryNotification
                    29 sample_signal (connected_state d [])) in
  adminFees (db st') =
    [mkAdminFee "REF-0001" 3%nat
                (Some (JS.Fin (8162774324609023 # 562949953421312)))]
  /\ riderWallets (db st') = [mkRiderWallet 10%nat 3%nat (Some (JS.Fin 36))]
  /\ exists a rf : Q,
       JS.mul (JS.div (JS.num 29) (JS.Fin 100)) (JS.Fin 50) = JS.Fin a
       /\ JS.sub (JS.Fin 50) (JS.round (JS.Fin a)) = JS.Fin rf
       /\ rf + inject_Z (JS.Math_round a) == 50
       /\ JS.same (JS.add (JS.Fin rf) (JS.round (JS.Fin a))) (JS.Fin 50).
Proof.
  pose proof (settlement_split
                29 sample_signal
                (connected_state (delivery_with_fee (JS.Fin 50)) [])
                customer_socket sample_match
                (delivery_with_fee (JS.Fin 50))
                eq_refl eq_refl eq_refl) as H.
  cbv zeta in H. destruct H as (H1 & H2 & H3). cbv zeta.
  split; [| split].
  - rewrite H1. vm_compute. reflexivity.
  - rewrite H2. vm_compute. reflexivity.
  - assert (Hf : JS.representable 50) by reflexivity.
    assert (H53 : 50 < JS.pow2 53) by reflexivity.
    assert (H0 : 0 <= 50) by discriminate.
    assert (Hc0 : 0 <= 29) by discriminate.
    assert (Hc100 : 29 <= 100) by discriminate.
    destruct (H3 50 eq_refl Hf H0 H53 Hc0 Hc100)
      as (a & rf & Ea & Erf & Hsum & Hsame).
    change (deliveryFee (delivery_with_fee (JS.Fin 50))) with (JS.Fin 50)
      in Ea, Erf, Hsame.
    exists a, rf. rewrite Ea in Erf, Hsame. rewrite Erf in Hsame.
    repeat split; assumption.
Defined.

End SettlementFacts.

(* ===================================================================== *)
(** ** Status of a delivery along the lifecycle                           *)
(* ===================================================================== *)

Module StatusFacts.
Import RabbitMqService Lifecycle SettlementFacts.

Lemma endDelivery_database_deliveries (ADMIN_CHARGES : Q) (r : MatchRecord)
      (d0 : Database) :
  deliveries (endDelivery_database ADMIN_CHARGES r d0) =
  snd (Dao.patch_first (fun x => Nat.eqb (delivery_id x) (deliveryId r))
                       (Dao.set_status DELIVERED) (deliveries d0)).
Proof.
  unfold endDelivery_database. cbv zeta.
  rewrite !delivery_updateByAny_run, !rider_updateByAny_run.
  cbn [fst snd].
  destruct (Dao.riderWallet_findByAny_rider _ _).
  - rewrite riderWallet_update_id_run. reflexivity.
  - reflexivity.
Qed.

Lemma startDelivery_database_deliveries (r : MatchRecord) (d0 : Database) :
  deliveries (startDelivery_database r d0) =
  snd (Dao.patch_first (fun x => Nat.eqb (delivery_id x) (deliveryId r))
                       (Dao.set_status ON_TRANSIT) (deliveries d0)).
Proof.
  unfold startDelivery_database. cbv zeta.
  rewrite !delivery_updateByAny_run, !rider_updateByAny_run.
  reflexivity.
Qed.

Lemma patched_untouched_or_set (id : Id) (s : DeliveryStatus)
      (l : list Delivery) :
  Forall2 (untouched_or_set id s) l
          (snd (Dao.patch_first (fun x => Nat.eqb (delivery_id x) id)
                                (Dao.set_status s) l)).
Proof.
  eapply Forall2_impl; [|apply patch_first_pointwise].
  intros a b [H|[H1 H2]]; [left; exact H|right].
  split; [apply Nat.eqb_eq; exact H1|exact H2].
Qed.

(** C4, as stated, fails: ending a delivery that is still pending and has
    no rider takes it from [pending] straight to [delivered]. *)
Lemma lifecycle_skips_prior_stage :
  ~ (forall (ADMIN_CHARGES : Q) (data : SignalData) (st : State),
        follows_spec_chain
          st (snd (endDeliveryNotification ADMIN_CHARGES data st))).
Proof.
  intros H.
  specialize (H 10 sample_signal
                (connected_state (sample_delivery PENDING None) [])).
  unfold follows_spec_chain in H. vm_compute in H.
  inversion H as [|? ? ? ? Hstep _]. discriminate Hstep.
Qed.

(** C4, amended.  With the customer connected and a match record cached,
    [startDeliveryNotification] writes [ON_TRANSIT] and
    [endDeliveryNotification] writes [DELIVERED] on the delivery the match
    record names, whatever its status was, and leave every other delivery
    as it is. *)
Theorem lifecycle_overwrites_status
        (ADMIN_CHARGES : Q) (data : SignalData) (st : State)
        (sock : Socket) (r : MatchRecord) :
  Map_get (socketMap st) (data_customerId data) = Some sock ->
  matchCache st = Some r ->
  let started := snd (startDeliveryNotification data st) in
  let ended := snd (endDeliveryNotification ADMIN_CHARGES data st) in
  Forall2 (untouched_or_set (deliveryId r) ON_TRANSIT)
          (deliveries (db st)) (deliveries (db started))
  /\ Forall2 (untouched_or_set (deliveryId r) DELIVERED)
             (deliveries (db st)) (deliveries (db ended))
  /\ forall d : Delivery,
      find (has_delivery_id (deliveryId r)) (deliveries (db st)) = Some d ->
      find (has_delivery_id (deliveryId r)) (deliveries (db started))
      = Some (Dao.set_status ON_TRANSIT d)
      /\ find (has_delivery_id (deliveryId r)) (deliveries (db ended))
         = Some (Dao.set_status DELIVERED d).
Proof.
  intros Hget Hcache. cbv zeta.
  rewrite (endDelivery_connected_run _ _ _ _ _ Hget Hcache).
  rewrite (startDelivery_connected_run _ _ _ _ Hget Hcache).
  cbn [snd db].
  rewrite endDelivery_database_deliveries, startDelivery_database_deliveries.
  split; [apply patched_untouched_or_set|].
  split; [apply patched_untouched_or_set|].
  intros d Hd.
  assert (Hid : delivery_id d = deliveryId r).
  { apply find_some in Hd. destruct Hd as [_ Hd].
    apply Nat.eqb_eq. exact Hd. }
  split; apply patch_first_find_after; try exact Hd;
    unfold has_delivery_id; simpl; apply Nat.eqb_eq; exact Hid.
Qed.

Lemma lifecycle_overwrites_status_example :
  let st := connected_state (sample_delivery PENDING None) [] in
  find (has_delivery_id 1%nat)
       (deliveries (db (snd (startDeliveryNotification sample_signal st))))
  = Some (sample_delivery ON_TRANSIT None)
  /\ find (has_delivery_id 1%nat)
          (deliveries (db (snd (endDeliveryNotification 10 sample_signal st))))
     = Some (sample_delivery DELIVERED None).
Proof.
  exact (proj2 (proj2 (lifecycle_overwrites_status
                         10 sample_signal
                         (connected_state (sample_delivery PENDING None) [])
                         customer_socket sample_match eq_refl eq_refl))
               (sample_delivery PENDING None) eq_refl).
Defined.

End StatusFacts.

(* ===================================================================== *)
(** ** Crediting the rider wallet *)
(* ===================================================================== *)

Module WalletFacts.
Import RabbitMqService Lifecycle SettlementFacts.

(** With no wallet for the rider, one is created whose balance is the
    rider fee. *)
Lemma wallet_created_when_absent
      (ADMIN_CHARGES : Q) (data : SignalData) (st : State)
      (sock : Socket) (r : MatchRecord) (d : Delivery) :
  Map_get (socketMap st) (data_customerId data) = Some sock ->
  matchCache st = Some r ->
  find (has_delivery_id (deliveryId r)) (deliveries (db st)) = Some d ->
  Dao.riderWallet_findByAny_rider (riderId r) (db st) = None ->
  riderWallets (db (snd (endDeliveryNotification ADMIN_CHARGES data st))) =
  riderWallets (db st) ++
  [mkRiderWallet
     (nextId (db st)) (riderId r)
     (Some (JS.sub (deliveryFee d)
                   (JS.round
                      (JS.mul (JS.div (JS.num ADMIN_CHARGES) (JS.Fin 100))
                              (deliveryFee d)))))].
Proof.
  intros Hget Hcache Hfind Hnone.
  rewrite (endDelivery_connected_run _ _ _ _ _ Hget Hcache).
  cbn [snd db].
  pose proof (endDelivery_database_riderWallets ADMIN_CHARGES r (db st)) as H.
  cbv zeta in H. rewrite H, Hnone.
  rewrite delivery_updateByAny_run. cbn [fst].
  rewrite (patch_first_found _ _ _ _ Hfind). reflexivity.
Qed.

(** A fee of 100 with a 10 percent charge: the new wallet holds 90. *)
Lemma wallet_created_with_90 :
  riderWallets
    (db (snd (endDeliveryNotification
                10 sample_signal
                (connected_state (sample_delivery ON_TRANSIT (Some 3%nat))
                                 []))))
  = [mkRiderWallet 10%nat 3%nat (Some (JS.Fin 90))].
Proof. vm_compute. reflexivity. Qed.

(** When the rider has a wallet, the update is addressed to the wallet
    whose [_id] is the rider's id; if there is no such wallet, no balance
    changes. *)
Lemma wallet_update_misses_rider_wallet
      (ADMIN_CHARGES : Q) (data : SignalData) (st : State)
      (sock : Socket) (r : MatchRecord) (w : RiderWallet) :
  Map_get (socketMap st) (data_customerId data) = Some sock ->
  matchCache st = Some r ->
  Dao.riderWallet_findByAny_rider (riderId r) (db st) = Some w ->
  find (fun x => Nat.eqb (wallet_id x) (riderId r)) (riderWallets (db st))
  = None ->
  riderWallets (db (snd (endDeliveryNotification ADMIN_CHARGES data st))) =
  riderWallets (db st).
Proof.
  intros Hget Hcache Hw Hid.
  rewrite (endDelivery_connected_run _ _ _ _ _ Hget Hcache).
  cbn [snd db].
  pose proof (endDelivery_database_riderWallets ADMIN_CHARGES r (db st)) as H.
  cbv zeta in H. rewrite H, Hw.
  rewrite (patch_first_missing _ _ _ Hid). reflexivity.
Qed.

(** The wallet that the first settlement created for rider 3 (its [_id]
    is the fresh 10) holds 90; the second settlement of the same fee
    leaves it at 90. *)
Lemma second_settlement_not_credited :
  riderWallets (db after_first_delivery)
  = [mkRiderWallet 10%nat 3%nat (Some (JS.Fin 90))]
  /\ riderWallets
       (db (snd (endDeliveryNotification 10 sample_signal
                                         second_delivery_state)))
     = [mkRiderWallet 10%nat 3%nat (Some (JS.Fin 90))].
Proof. split; vm_compute; reflexivity. Qed.

(** A rider fee of [0] is falsy: the balance written is [0], not the old
    balance. *)
Lemma new_balance_of_zero_fee (w : RiderWallet) :
  new_balance (Some (JS.Fin 0)) w = Some (JS.Fin 0).
Proof. reflexivity. Qed.

(** C2 at a failing input.  Rider 3 has a wallet (its own [_id] is 7) holding
    50; the delivery fee is 100 and the charge 10 percent, so the rider fee
    is 90.  After [endDeliveryNotification] the wallet still holds 50. *)
Theorem existing_wallet_not_credited :
  let st := connected_state (sample_delivery ON_TRANSIT (Some 3%nat))
                            [wallet_of_rider_3] in
  let st' := snd (endDeliveryNotification 10 sample_signal st) in
  Dao.riderWallet_findByAny_rider 3%nat (db st) = Some wallet_of_rider_3
  /\ riderFee_of (Some (sample_delivery DELIVERED (Some 3%nat)))
                 (adminFee_of 10 (Some (sample_delivery DELIVERED
                                                        (Some 3%nat))))
     = Some (JS.Fin 90)
  /\ riderWallets (db st') = [mkRiderWallet 7%nat 3%nat (Some (JS.Fin 50))].
Proof. vm_compute. repeat split. Qed.

End WalletFacts.

(* ===================================================================== *)
(** ** The response relay on a decline *)
(* ===================================================================== *)

Module RelayFacts.
Import RabbitMqService Lifecycle SettlementFacts.

Lemma riderAvailability_run (availabilityStatus : bool) (st : State) :
  snd (riderAvailability availabilityStatus st) =
  mkState (socketMap st) (matchCache st)
          (match matchCache st with
           | Some r =>
               Dao.notification_create
                 (mkNotification (deliveryRefNumber r) availabilityStatus
                                 (riderId r) (customerId r) (deliveryId r))
                 (db st)
           | None => db st
           end)
          (emitted st).
Proof.
  unfold riderAvailability, bind, getToken, command_.
  destruct st as [m c d e]. cbn [matchCache].
  destruct c; reflexivity.
Qed.

(** C5, as stated, fails: when the customer of the response has no
    connection in the registry the relay does nothing, and the match
    record is still readable afterwards. *)
Lemma decline_without_connection_keeps_match :
  ~ (forall (driverResponse : DriverResponse) (st : State),
        availability driverResponse = false ->
        let st' := snd (notifyUserAboutDriverResponse driverResponse st) in
        matchCache st' = None
        /\ exists sock,
            In (sock, riderDeclined "Rider declined your request")
               (emitted st')).
Proof.
  intros H.
  destruct (H decline
              (disconnected_state (sample_delivery PENDING None) [])
              eq_refl) as [Hcache _].
  vm_compute in Hcache. discriminate Hcache.
Qed.

(** C5, amended.  For a response with [availability = false]: if the
    customer has a connection in the registry, [riderDeclined] is emitted
    on it and the match record is deleted; if not, the state is left as it
    was. *)
Theorem decline_relay (driverResponse : DriverResponse) (st : State) :
  availability driverResponse = false ->
  let st' := snd (notifyUserAboutDriverResponse driverResponse st) in
  match Map_get (socketMap st) (response_customerId driverResponse) with
  | Some customerSocket =>
      fst (notifyUserAboutDriverResponse driverResponse st) = Fulfilled tt
      /\ emitted st' =
         emitted st ++
         [(customerSocket, riderDeclined "Rider declined your request")]
      /\ matchCache st' = None
  | None => st' = st
  end.
Proof.
  intros Hav. cbv zeta.
  unfold notifyUserAboutDriverResponse, bind, socketMap_get.
  destruct (Map_get (socketMap st) (response_customerId driverResponse))
    as [sock|]; [|reflexivity].
  rewrite Hav. unfold detached.
  rewrite riderAvailability_run.
  unfold emit, deleteRedisKey. cbn [fst snd socketMap matchCache db emitted].
  repeat split.
Qed.

Lemma decline_relay_example :
  let st := connected_state (sample_delivery PENDING None) [] in
  let st' := snd (notifyUserAboutDriverResponse decline st) in
  fst (notifyUserAboutDriverResponse decline st) = Fulfilled tt
  /\ emitted st' =
     [(customer_socket, riderDeclined "Rider declined your request")]
  /\ matchCache st' = None.
Proof.
  exact (decline_relay decline
           (connected_state (sample_delivery PENDING None) []) eq_refl).
Defined.

End RelayFacts.

(* ===================================================================== *)
(** ** Reverse lookup in the connection registry *)
(* ===================================================================== *)

Module RegistryFacts.
Import RabbitMqService Lifecycle SettlementFacts.

(** The comparison in the loop is between a socket and a string, so it
    never succeeds. *)
Lemma findRiderIdBySocketId_entries_absent
      (entries : list (Id * Socket)) (socketId : string) :
  findRiderIdBySocketId_entries entries socketId = None.
Proof.
  induction entries as [|[riderId id] rest IH]; simpl; auto.
Qed.

Lemma findRiderIdBySocketId_absent (st : State) (socketId : string) :
  findRiderIdBySocketId st socketId = None.
Proof. apply findRiderIdBySocketId_entries_absent. Qed.

(** C8 at a failing input.  Rider 5 is registered with the connection
    whose id is [abc]; the lookup by identity finds that connection, the
    reverse lookup by [abc] finds nobody. *)
Theorem reverse_lookup_misses_registered :
  findSocketIdByRiderId registry_with_rider_5 5%nat = Some (mkSocket "abc")
  /\ findRiderIdBySocketId registry_with_rider_5 "abc" = None.
Proof. split; reflexivity. Qed.

End RegistryFacts.

(* ===================================================================== *)
(** ** Rider discovery: selection, failures and arrival time              *)
(* ===================================================================== *)

Module DiscoveryProperties.
Import DeliveryController Discovery.

Lemma online_and_active_true (o : option Rider) :
  online_and_active o = true ->
  exists r, o = Some r
            /\ rider_status r = "online"%string
            /\ rider_active r = Some true.
Proof.
  destruct o as [r|]; simpl; [|discriminate].
  intros H. apply andb_true_iff in H. destruct H as [Hs Ha].
  exists r. split; [reflexivity|]. split.
  - apply String.eqb_eq. exact Hs.
  - destruct (rider_active r) as [[|]|]; simpl in Ha;
      try discriminate; reflexivity.
Qed.

(** The loop returns the rider of the first location whose rider is online
    and active: everything before it in the list is not eligible. *)
Lemma select_rider_first (db : Database) (riders : list RiderLocation)
      (rider : Rider) :
  select_rider db riders = Some rider ->
  exists pre riderLoc post,
    riders = pre ++ riderLoc :: post
    /\ Forall (not_eligible db) pre
    /\ Dao.rider_findById (loc_rider riderLoc) db = Some rider
    /\ online_and_active (Some rider) = true.
Proof.
  induction riders as [|l rest IH]; simpl; [discriminate|].
  destruct (online_and_active (Dao.rider_findById (loc_rider l) db)) eqn:He.
  - intros Hsel. exists [], l, rest. rewrite Hsel in *.
    split; [reflexivity|]. split; [constructor|]. split; [reflexivity|].
    exact He.
  - intros Hsel. destruct (IH Hsel) as (pre & loc & post & -> & Hpre & Hf & Ho).
    exists (l :: pre), loc, post.
    split; [reflexivity|]. split; [|split; assumption].
    constructor; [exact He|exact Hpre].
Qed.

(** The loop finds nobody exactly when no location has an eligible rider. *)
Lemma select_rider_none (db : Database) (riders : list RiderLocation) :
  select_rider db riders = None <-> Forall (not_eligible db) riders.
Proof.
  induction riders as [|l rest IH]; simpl.
  - split; [constructor|reflexivity].
  - destruct (online_and_active (Dao.rider_findById (loc_rider l) db)) eqn:He.
    + split.
      * intros H. destruct (online_and_active_true _ He) as (r & Hr & _).
        rewrite Hr in H. discriminate.
      * intros H. inversion H as [|? ? Hl _]; subst.
        unfold not_eligible in Hl. rewrite He in Hl. discriminate.
    + rewrite IH. split.
      * intros H. constructor; [exact He|exact H].
      * intros H. inversion H; assumption.
Qed.

Lemma sorted_after_prefix (pre post : list RiderLocation)
      (x l : RiderLocation) :
  sorted_by_distance (pre ++ x :: post) ->
  In l post -> distance x <= distance l.
Proof.
  unfold sorted_by_distance.
  induction pre as [|a pre IH]; simpl; intros Hs Hin.
  - apply StronglySorted_inv in Hs. destruct Hs as [_ Hall].
    rewrite Forall_forall in Hall. apply Hall. exact Hin.
  - apply StronglySorted_inv in Hs. destruct Hs as [Hs _]. auto.
Qed.


Lemma arrivalTime_of_clamp (minutes : JS.JSNum) :
  (JS.le minutes (JS.Fin 2) = true ->
   arrivalTime_of minutes = JS.Fin (0 + 2))
  /\ (JS.le minutes (JS.Fin 2) = false ->
      arrivalTime_of minutes = JS.add (JS.Fin 0) minutes).
Proof.
  unfold arrivalTime_of. split; intros ->; reflexivity.
Qed.

(** The clamp on an integer number of minutes (below [2^53], so that
    [0 + minutes] is exact). *)
Lemma arrivalTime_of_integer (z : Z) :
  (z < 2 ^ 53)%Z ->
  arrivalTime_of (JS.Fin (inject_Z z)) = JS.Fin (inject_Z (Z.max 2 z)).
Proof.
  intros Hz. unfold arrivalTime_of. cbn [JS.le].
  destruct (Qle_bool (inject_Z z) 2) eqn:Hle.
  - apply Qle_bool_iff in Hle. change 2 with (inject_Z 2) in Hle.
    rewrite <- Zle_Qle in Hle.
    rewrite Z.max_l by lia. reflexivity.
  - assert (Hgt : (2 < z)%Z).
    { destruct (Z.le_gt_cases z 2) as [H|H]; [|lia].
      rewrite Zle_Qle in H. apply Qle_bool_iff in H.
      change (inject_Z 2) with 2 in H. congruence. }
    rewrite Z.max_r by lia. apply Binary64.add_0_integer. lia.
Qed.

Lemma Qfloor_of_fraction (q : Q) : Qfloor (q - inject_Z (Qfloor q)) = 0%Z.
Proof.
  assert (H0 : 0 <= q - inject_Z (Qfloor q)).
  { pose proof (Qfloor_le q). lra. }
  assert (H1 : q - inject_Z (Qfloor q) < 1).
  { pose proof (Qlt_floor q) as H. rewrite inject_Z_plus in H.
    change (inject_Z 1) with 1 in H. lra. }
  apply Z.le_antisymm.
  - assert (H : (Qfloor (q - inject_Z (Qfloor q)) < 1)%Z); [|lia].
    rewrite Zlt_Qlt. eapply Qle_lt_trans; [apply Qfloor_le|exact H1].
  - change 0%Z with (Qfloor 0). apply Qfloor_resp_le. exact H0.
Qed.

(** The minutes of a finite aggregate: the difference [t - hours] and the
    product by 60 are rounded, and the result is an integer from 0 to 60. *)
Lemma minutes_of_finite (q : Q) :
  exists m : Z,
    minutes_of (JS.Fin q) = JS.Fin (inject_Z m) /\ (0 <= m <= 60)%Z.
Proof.
  unfold minutes_of. cbn [JS.floor]. rewrite Binary64.sub_Fin.
  unfold JS.Math_floor.
  pose proof (Qfloor_le q) as F1. pose proof (Qlt_floor q) as F2.
  rewrite inject_Z_plus in F2. change (inject_Z 1) with 1 in F2.
  destruct (Binary64.round64_between 0 1 0 1 (q - inject_Z (Qfloor q)))
    as (r & Er & Hr0 & Hr1); try reflexivity; try lra.
  rewrite Er. cbn [JS.mul].
  destruct (Binary64.round64_between 0 60 0 60 (r * 60))
    as (p & Ep & Hp0 & Hp60); try reflexivity; try lra.
  rewrite Ep. cbn [JS.round].
  exists (JS.Math_round p). split; [reflexivity |]. split.
  - apply Binary64.Math_round_nonneg. exact Hp0.
  - rewrite <- (Binary64.Math_round_Z 60).
    apply Binary64.Math_round_monotone. exact Hp60.
Qed.

(** For a representable aggregate [q >= 0] the difference [q - hours] is
    exact: the minutes are the rounding of [frac(q) * 60], where the
    product is rounded once. *)
Lemma minutes_of_representable (q : Q) :
  JS.representable q -> 0 <= q ->
  minutes_of (JS.Fin q)
  = JS.round (JS.round64 ((q - inject_Z (Qfloor q)) * 60)).
Proof.
  intros Hq H0. unfold minutes_of. cbn [JS.floor].
  rewrite Binary64.sub_Fin. unfold JS.Math_floor.
  rewrite (Binary64.frac_representable q Hq H0). cbn [JS.mul].
  rewrite (Binary64.round64_comp
             (Qred (q - inject_Z (Qfloor q)) * 60)
             ((q - inject_Z (Qfloor q)) * 60))
    by (rewrite Qred_correct; reflexivity).
  reflexivity.
Qed.

(** The whole hours do not count: the minutes of [q] are the minutes of
    its fractional part. *)
Lemma minutes_of_fraction (q : Q) :
  JS.representable q -> 0 <= q ->
  minutes_of (JS.Fin q) = minutes_of (JS.Fin (q - inject_Z (Qfloor q))).
Proof.
  intros Hq H0.
  pose proof (Binary64.frac_representable q Hq H0) as Hfrac.
  assert (Hf0 : 0 <= q - inject_Z (Qfloor q)).
  { pose proof (Qfloor_le q). lra. }
  rewrite (minutes_of_representable q Hq H0).
  rewrite (minutes_of_representable _ Hfrac Hf0).
  rewrite Qfloor_of_fraction. f_equal. apply Binary64.round64_comp.
  change (inject_Z 0) with 0. ring.
Qed.

(** The reported time of a representable aggregate [q >= 0] is the rounded
    sub-hour remainder, not below 2; the whole hours of [q] do not count. *)
Lemma arrivalTime_of_finite_aggregate (q : Q) :
  JS.representable q -> 0 <= q ->
  exists p : Q,
    JS.round64 ((q - inject_Z (Qfloor q)) * 60) = JS.Fin p
    /\ arrivalTime_of (minutes_of (JS.Fin q))
       = JS.Fin (inject_Z (Z.max 2 (JS.Math_round p)))
    /\ arrivalTime_of (minutes_of (JS.Fin q))
       = arrivalTime_of (minutes_of (JS.Fin (q - inject_Z (Qfloor q)))).
Proof.
  intros Hq H0.
  destruct (minutes_of_finite q) as (m & Em & Hm).
  pose proof (minutes_of_representable q Hq H0) as Er.
  rewrite Em in Er.
  destruct (JS.round64 ((q - inject_Z (Qfloor q)) * 60)) as [p | | |];
    try discriminate.
  exists p. split; [reflexivity |]. split.
  - rewrite Em. cbn [JS.round] in Er. rewrite Er.
    apply arrivalTime_of_integer.
    assert (E : inject_Z m = inject_Z (JS.Math_round p)) by congruence.
    assert (E' : m = JS.Math_round p) by (injection E; auto).
    rewrite <- E'. lia.
  - rewrite (minutes_of_fraction q Hq H0). reflexivity.
Qed.

(** One hour and a half is reported as 30 minutes. *)
Example one_hour_thirty_is_reported_as_30 :
  arrivalTime_of (minutes_of (JS.num (3 # 2))) = JS.Fin 30.
Proof. vm_compute. reflexivity. Qed.

(** One rider 32250 m away at 30 km/h: the quotient is the double next
    below 1.075, the remainder times 60 is 4.4999999999999973, and 4
    minutes are reported. *)
Example remainder_below_four_and_a_half :
  let t := JS.div (JS.div (JS.num 32250) (JS.Fin 1000)) (JS.num 30) in
  t = JS.Fin (4841369599423283 # 4503599627370496)
  /\ JS.mul (JS.sub t (JS.floor t)) (JS.Fin 60)
     = JS.Fin (5066549580791805 # 1125899906842624)
  /\ arrivalTime_of (minutes_of t) = JS.Fin 4.
Proof. vm_compute. repeat split. Qed.

Section DiscoveryFacts.

Variables MAX_DISTANCE BIKE_SPEED CAR_SPEED BUS_SPEED AVERAGE_SPEED : Q.
Variable RiderLocation_aggregate : Point -> Q -> list RiderLocation.

Local Abbreviation discover :=
  (findRiders MAX_DISTANCE BIKE_SPEED CAR_SPEED BUS_SPEED AVERAGE_SPEED
              RiderLocation_aggregate).
Local Abbreviation speed_of :=
  (speedInKmPerHour_of BIKE_SPEED CAR_SPEED BUS_SPEED AVERAGE_SPEED).

Lemma findRiders_resolved (customerId : Id) (db : Database)
      (resp : HttpResponse) :
  discover customerId db = Resolve resp ->
  exists lastDelivery rider,
    let riders :=
      riders_around MAX_DISTANCE RiderLocation_aggregate lastDelivery in
    JS.last_elem (Dao.delivery_findAll_customer customerId db)
    = Some lastDelivery
    /\ select_rider db riders = Some rider
    /\ rd_id (result resp) = rider_id rider
    /\ response_arrivalTime resp =
       arrivalTime_of
         (minutes_of
            (estimatedTimeToSender_of
               riders
               (speed_of (Dao.vehicle_findByAny_rider (rider_id rider) db)))).
Proof.
  unfold findRiders. cbn [JS.truthy_array negb].
  destruct (JS.last_elem _) as [lastDelivery|]; [|discriminate].
  destruct (Nat.eqb _ 0); [discriminate|].
  destruct (select_rider db _) as [rider|] eqn:Hsel; [|discriminate].
  intros [= <-]. exists lastDelivery, rider. cbv zeta.
  unfold riders_around. repeat split; auto.
Qed.

(** A finite aggregate time is a binary64 number. *)
Lemma estimatedTimeToSender_representable
      (riders : list RiderLocation) (speed : JS.JSNum) (q : Q) :
  estimatedTimeToSender_of riders speed = JS.Fin q -> JS.representable q.
Proof.
  unfold estimatedTimeToSender_of.
  assert (G : forall acc : JS.JSNum,
             (forall x, acc = JS.Fin x -> JS.representable x) ->
             fold_left
               (fun acc elem =>
                  let distanceKm :=
                    JS.div (JS.num (distance elem)) (JS.Fin 1000) in
                  JS.add acc (JS.div distanceKm speed))
               riders acc = JS.Fin q ->
             JS.representable q).
  { induction riders as [| l rest IH]; intros acc Hacc; cbn [fold_left].
    - intros E. apply Hacc. exact E.
    - apply IH. intros x Ex. cbv zeta in Ex.
      destruct acc as [a | | |];
        destruct (JS.div (JS.div (JS.num (distance l)) (JS.Fin 1000)) speed)
        as [b | | |]; cbn [JS.add] in Ex; try discriminate.
      apply (Binary64.round64_representable (a + b)). exact Ex. }
  apply G. intros x [= <-]. reflexivity.
Qed.

(** C10.  The arrival time of a resolved [findRiders] is computed from the
    aggregate time [t] as [round((t - floor(t)) * 60)], clamped below at 2,
    in binary64.  For a finite [t >= 0] the difference [t - floor(t)] is
    exact, so the reported time is the rounding of the sub-hour remainder
    times 60 (that product rounded to binary64), at least 2, and it is the
    same as for the fractional part of [t] alone: the whole hours of [t]
    are dropped. *)
Theorem arrival_time_is_subhour_remainder
        (customerId : Id) (db : Database) (resp : HttpResponse) :
  discover customerId db = Resolve resp ->
  exists lastDelivery rider,
    let riders :=
      riders_around MAX_DISTANCE RiderLocation_aggregate lastDelivery in
    let t :=
      estimatedTimeToSender_of
        riders
        (speed_of (Dao.vehicle_findByAny_rider (rider_id rider) db)) in
    select_rider db riders = Some rider
    /\ response_arrivalTime resp
       = arrivalTime_of
           (JS.round (JS.mul (JS.sub t (JS.floor t)) (JS.Fin 60)))
    /\ forall q : Q,
        t = JS.Fin q -> 0 <= q ->
        exists p : Q,
          JS.round64 ((q - inject_Z (Qfloor q)) * 60) = JS.Fin p
          /\ response_arrivalTime resp
             = JS.Fin (inject_Z (Z.max 2 (JS.Math_round p)))
          /\ response_arrivalTime resp
             = arrivalTime_of
                 (minutes_of (JS.Fin (q - inject_Z (Qfloor q)))).
Proof.
  intros Hres.
  destruct (findRiders_resolved _ _ _ Hres)
    as (lastDelivery & rider & _ & Hsel & _ & Harr).
  exists lastDelivery, rider. cbv zeta.
  split; [exact Hsel|]. split; [exact Harr|].
  intros q Hq H0. rewrite Harr, Hq.
  apply arrivalTime_of_finite_aggregate; [| exact H0].
  apply (estimatedTimeToSender_representable _ _ _ Hq).
Qed.

(** A customer without any delivery: the guard on the array lets the empty
    array through and the read of the last delivery throws. *)
Lemma findRiders_without_delivery (customerId : Id) (db : Database) :
  Dao.delivery_findAll_customer customerId db = [] ->
  discover customerId db
  = Throw (JS.TypeError "Cannot read properties of undefined").
Proof.
  unfold findRiders. intros ->. reflexivity.
Qed.

(** Every rejection of [findRiders] is a [NOT_FOUND], and it happens when
    the aggregation returns nothing or no returned rider is online and
    active. *)
Lemma findRiders_rejected (customerId : Id) (db : Database)
      (e : CustomAPIError) :
  discover customerId db = Reject e ->
  error_code e = NOT_FOUND
  /\ exists lastDelivery,
      JS.last_elem (Dao.delivery_findAll_customer customerId db)
      = Some lastDelivery
      /\ (riders_around MAX_DISTANCE RiderLocation_aggregate lastDelivery = []
          \/ Forall (not_eligible db)
                    (riders_around MAX_DISTANCE RiderLocation_aggregate
                                   lastDelivery)).
Proof.
  unfold findRiders, riders_around. cbn [JS.truthy_array negb].
  destruct (JS.last_elem _) as [lastDelivery|]; [|discriminate].
  destruct (RiderLocation_aggregate _ _) as [|l rest] eqn:Hagg.
  - simpl. intros [= <-]. split; [reflexivity|].
    exists lastDelivery. split; [reflexivity|]. left. exact Hagg.
  - cbn [List.length Nat.eqb].
    destruct (select_rider db (l :: rest)) as [rider|] eqn:Hsel;
      [discriminate|].
    intros [= <-]. split; [reflexivity|].
    exists lastDelivery. split; [reflexivity|]. right.
    rewrite Hagg. apply select_rider_none. exact Hsel.
Qed.

(** C3.  The riders returned by the aggregation being in ascending order
    of distance, a resolved [findRiders] has chosen the rider of the first
    location in that order whose rider is online and active: every location
    before it holds a rider that is not, the chosen rider has
    [status = online] and [active = true], and no eligible rider is
    closer. *)
Theorem discovery_selects_first_online_active
        (customerId : Id) (db : Database) (resp : HttpResponse) :
  (forall p m, sorted_by_distance (RiderLocation_aggregate p m)) ->
  discover customerId db = Resolve resp ->
  exists lastDelivery pre riderLoc post rider,
    riders_around MAX_DISTANCE RiderLocation_aggregate lastDelivery
    = pre ++ riderLoc :: post
    /\ Dao.rider_findById (loc_rider riderLoc) db = Some rider
    /\ rd_id (result resp) = rider_id rider
    /\ rider_status rider = "online"%string
    /\ rider_active rider = Some true
    /\ Forall (not_eligible db) pre
    /\ forall l, In l (pre ++ riderLoc :: post) ->
                 ~ not_eligible db l ->
                 distance riderLoc <= distance l.
Proof.
  intros Hsorted Hres.
  destruct (findRiders_resolved _ _ _ Hres)
    as (lastDelivery & rider & _ & Hsel & Hid & _).
  destruct (select_rider_first _ _ _ Hsel)
    as (pre & loc & post & Heq & Hpre & Hfind & Hok).
  destruct (online_and_active_true _ Hok) as (r & [= <-] & Hst & Hac).
  exists lastDelivery, pre, loc, post, rider.
  repeat split; auto.
  intros l Hin Hel.
  apply in_app_or in Hin. destruct Hin as [Hin|[<-|Hin]].
  - rewrite Forall_forall in Hpre. elim Hel. apply Hpre. exact Hin.
  - apply Qle_refl.
  - eapply sorted_after_prefix; [|exact Hin].
    rewrite <- Heq. apply Hsorted.
Qed.

End DiscoveryFacts.

Lemma three_riders_sorted (p : Point) (m : Q) :
  sorted_by_distance (three_riders p m).
Proof.
  unfold sorted_by_distance, three_riders.
  repeat constructor; simpl; discriminate.
Qed.

Lemma discovery_selects_first_online_active_example :
  exists lastDelivery pre riderLoc post rider,
    riders_around 10000 three_riders lastDelivery = pre ++ riderLoc :: post
    /\ Dao.rider_findById (loc_rider riderLoc)
                          (discovery_database [bike_of_rider_12])
       = Some rider
    /\ rd_id (result (mkHttpResponse OK (JS.Fin 16) data_of_rider_12))
       = rider_id rider
    /\ rider_status rider = "online"%string
    /\ rider_active rider = Some true
    /\ Forall (not_eligible (discovery_database [bike_of_rider_12])) pre
    /\ forall l, In l (pre ++ riderLoc :: post) ->
                 ~ not_eligible (discovery_database [bike_of_rider_12]) l ->
                 distance riderLoc <= distance l.
Proof.
  apply (discovery_selects_first_online_active
           10000 30 50 40 35 three_riders 2%nat
           (discovery_database [bike_of_rider_12])
           (mkHttpResponse OK (JS.Fin 16) data_of_rider_12)).
  - exact three_riders_sorted.
  - vm_compute. reflexivity.
Defined.

(** With a speed of [0] every quotient is an infinity or [NaN], and so is
    the aggregate time of a non-empty list of riders. *)
Lemma estimatedTimeToSender_from_not_finite
      (riders : list RiderLocation) (acc : JS.JSNum) :
  JS.not_finite acc ->
  JS.not_finite
    (fold_left
       (fun acc elem =>
          JS.add acc (JS.div (JS.div (JS.num (distance elem)) (JS.Fin 1000))
                             (JS.Fin 0)))
       riders acc).
Proof.
  revert acc. induction riders as [| l rest IH]; intros acc Hacc;
    cbn [fold_left]; [exact Hacc |].
  apply IH. apply Binary64.add_not_finite_l. exact Hacc.
Qed.

Lemma estimatedTimeToSender_without_speed (riders : list RiderLocation) :
  riders <> [] ->
  JS.not_finite (estimatedTimeToSender_of riders (JS.Fin 0)).
Proof.
  intros Hne. destruct riders as [| l rest]; [congruence |].
  unfold estimatedTimeToSender_of. cbn [fold_left].
  apply estimatedTimeToSender_from_not_finite.
  apply Binary64.add_not_finite_r, Binary64.div_by_zero_not_finite.
Qed.

(** An aggregate time that is not finite is reported as [NaN]. *)
Lemma arrivalTime_of_not_finite (t : JS.JSNum) :
  JS.not_finite t -> arrivalTime_of (minutes_of t) = JS.NaN.
Proof.
  destruct t; cbn [JS.not_finite]; intros H; [contradiction | | |];
    reflexivity.
Qed.

(** The clamp keeps a finite number of minutes at 2 or above. *)
Lemma arrivalTime_of_finite_at_least_2 (m : Q) :
  JS.representable m ->
  exists a, arrivalTime_of (JS.Fin m) = JS.Fin a /\ 2 <= a.
Proof.
  intros Hm. unfold arrivalTime_of. cbn [JS.le].
  destruct (Qle_bool m 2) eqn:Hle.
  - exists (0 + 2). split; [reflexivity|]. lra.
  - exists (Qred m). split; [apply Binary64.add_0_l; exact Hm |].
    rewrite Qred_correct.
    destruct (Qlt_le_dec 2 m) as [H|H]; [lra|].
    apply Qle_bool_iff in H. congruence.
Qed.

(** When the chosen rider has no vehicle the reported time is [NaN]. *)
Lemma arrivalTime_without_vehicle
      (MAX_DISTANCE BIKE_SPEED CAR_SPEED BUS_SPEED AVERAGE_SPEED : Q)
      (RiderLocation_aggregate : Point -> Q -> list RiderLocation)
      (customerId : Id) (db : Database) (resp : HttpResponse) :
  findRiders MAX_DISTANCE BIKE_SPEED CAR_SPEED BUS_SPEED AVERAGE_SPEED
             RiderLocation_aggregate customerId db = Resolve resp ->
  vehicles db = [] ->
  response_arrivalTime resp = JS.NaN.
Proof.
  intros Hres Hveh.
  destruct (findRiders_resolved _ _ _ _ _ _ _ _ _ Hres)
    as (lastDelivery & rider & _ & Hsel & _ & Harr).
  rewrite Harr. unfold Dao.vehicle_findByAny_rider. rewrite Hveh.
  cbn [Dao.findByAny find speedInKmPerHour_of].
  apply arrivalTime_of_not_finite, estimatedTimeToSender_without_speed.
  intros Hnil. rewrite Hnil in Hsel. discriminate Hsel.
Qed.

(** C7 at a failing input.  Rider 12, online and active two kilometres
    away, is chosen but has no vehicle: the reported arrival time is [NaN],
    which is not at least 2. *)
Theorem arrival_time_without_vehicle_is_NaN :
  findRiders_sample three_riders 2%nat (discovery_database [])
  = Resolve (mkHttpResponse OK JS.NaN data_of_rider_12)
  /\ JS.le (JS.Fin 2) JS.NaN = false.
Proof. split; vm_compute; reflexivity. Qed.

(** C6 at a failing input.  Customer 99 has no delivery: discovery ends in
    a [TypeError], not in a [NOT_FOUND] rejection. *)
Theorem no_delivery_is_not_reported_as_NotFound :
  Dao.delivery_findAll_customer 99%nat (discovery_database [bike_of_rider_12])
  = []
  /\ findRiders_sample three_riders 99%nat
                       (discovery_database [bike_of_rider_12])
     = Throw (JS.TypeError "Cannot read properties of undefined").
Proof. split; vm_compute; reflexivity. Qed.

Lemma arrival_time_is_subhour_remainder_example :
  exists lastDelivery rider,
    let riders := riders_around 10000 six_riders lastDelivery in
    let t :=
      estimatedTimeToSender_of
        riders
        (speedInKmPerHour_of
           30 50 40 35
           (Dao.vehicle_findByAny_rider (rider_id rider) crowded_database)) in
    select_rider crowded_database riders = Some rider
    /\ response_arrivalTime
         (mkHttpResponse OK (JS.Fin 30) data_of_online_rider_12)
       = arrivalTime_of
           (JS.round (JS.mul (JS.sub t (JS.floor t)) (JS.Fin 60)))
    /\ forall q : Q,
        t = JS.Fin q -> 0 <= q ->
        exists p : Q,
          JS.round64 ((q - inject_Z (Qfloor q)) * 60) = JS.Fin p
          /\ response_arrivalTime
               (mkHttpResponse OK (JS.Fin 30) data_of_online_rider_12)
             = JS.Fin (inject_Z (Z.max 2 (JS.Math_round p)))
          /\ response_arrivalTime
               (mkHttpResponse OK (JS.Fin 30) data_of_online_rider_12)
             = arrivalTime_of
                 (minutes_of (JS.Fin (q - inject_Z (Qfloor q)))).
Proof.
  apply (arrival_time_is_subhour_remainder
           10000 30 50 40 35 six_riders 2%nat crowded_database
           (mkHttpResponse OK (JS.Fin 30) data_of_online_rider_12)).
  vm_compute. reflexivity.
Defined.

(** The six riders add up to an hour and a half, of which 30 minutes are
    reported. *)
Example six_riders_take_an_hour_and_a_half :
  estimatedTimeToSender_of (six_riders here 10000) (JS.Fin 30)
  = JS.Fin (3 # 2)
  /\ findRiders_sample six_riders 2%nat crowded_database
     = Resolve (mkHttpResponse OK (JS.Fin 30) data_of_online_rider_12).
Proof. split; vm_compute; reflexivity. Qed.

End DiscoveryProperties.

(* ===================================================================== *)
(** ** The connection registry: announce and look up *)
(* ===================================================================== *)

Module RegistryLaws.
Import RabbitMqService.

Lemma Map_get_set_same (m : list (Id * Socket)) (k : Id) (v : Socket) :
  Map_get (Map_set m k v) k = Some v.
Proof.
  induction m as [|[k' v'] m IH]; simpl.
  - rewrite Nat.eqb_refl. reflexivity.
  - destruct (Nat.eqb k' k) eqn:Hk; simpl; rewrite Hk; auto.
Qed.

Lemma Map_get_set_other (m : list (Id * Socket)) (k k' : Id) (v : Socket) :
  k' <> k ->
  Map_get (Map_set m k v) k' = Map_get m k'.
Proof.
  intros Hne.
  induction m as [|[k0 v0] m IH]; simpl.
  - destruct (Nat.eqb k k') eqn:Hk; [|reflexivity].
    apply Nat.eqb_eq in Hk. congruence.
  - destruct (Nat.eqb k0 k) eqn:Hk; simpl.
    + destruct (Nat.eqb k0 k') eqn:Hk'; [|reflexivity].
      apply Nat.eqb_eq in Hk, Hk'. congruence.
    + rewrite IH. reflexivity.
Qed.

(** X1.  Announcing an identity on a connection (as a rider or as a
    customer) makes the lookup of that identity return that connection,
    replacing any earlier one, and leaves the lookup of every other
    identity as it was. *)
Theorem register_then_lookup (st : State) (socket : Socket) (id : Id) :
  let as_rider := snd (on_riderId socket (Some id) st) in
  let as_customer := snd (on_customerId socket (Some id) st) in
  findSocketIdByRiderId as_rider id = Some socket
  /\ findSocketIdByRiderId as_customer id = Some socket
  /\ forall other : Id,
      other <> id ->
      findSocketIdByRiderId as_rider other = findSocketIdByRiderId st other
      /\ findSocketIdByRiderId as_customer other
         = findSocketIdByRiderId st other.
Proof.
  cbv zeta. unfold findSocketIdByRiderId. simpl.
  split; [apply Map_get_set_same|]. split; [apply Map_get_set_same|].
  intros other Hne. split; apply Map_get_set_other; exact Hne.
Qed.

End RegistryLaws.

(* ===================================================================== *)
(** ** The delivery lifecycle: edge cases and composition *)
(* ===================================================================== *)

Module LifecycleLaws.
Import RabbitMqService Lifecycle Statements SettlementFacts StatusFacts.

Lemma endDelivery_database_riders (ADMIN_CHARGES : Q) (r : MatchRecord)
      (d0 : Database) :
  riders (endDelivery_database ADMIN_CHARGES r d0) =
  snd (Dao.patch_first (has_rider_id (riderId r)) (Dao.set_busy false)
                       (riders d0)).
Proof.
  unfold endDelivery_database. cbv zeta.
  rewrite !delivery_updateByAny_run, !rider_updateByAny_run.
  cbn [fst snd].
  destruct (Dao.riderWallet_findByAny_rider _ _).
  - rewrite riderWallet_update_id_run. reflexivity.
  - reflexivity.
Qed.

Lemma startDelivery_database_riders (r : MatchRecord) (d0 : Database) :
  riders (startDelivery_database r d0) =
  snd (Dao.patch_first (has_rider_id (riderId r)) (Dao.set_busy true)
                       (riders d0)).
Proof.
  unfold startDelivery_database. cbv zeta.
  rewrite !delivery_updateByAny_run, !rider_updateByAny_run.
  reflexivity.
Qed.

(** What [startDeliveryNotification] leaves alone in the database. *)
Lemma startDelivery_database_frame (r : MatchRecord) (d0 : Database) :
  riderWallets (startDelivery_database r d0) = riderWallets d0
  /\ adminFees (startDelivery_database r d0) = adminFees d0
  /\ notifications (startDelivery_database r d0) = notifications d0
  /\ vehicles (startDelivery_database r d0) = vehicles d0
  /\ riderLocations (startDelivery_database r d0) = riderLocations d0
  /\ nextId (startDelivery_database r d0) = nextId d0.
Proof.
  unfold startDelivery_database. cbv zeta.
  rewrite !delivery_updateByAny_run, !rider_updateByAny_run.
  repeat split.
Qed.

(** X2.  A start or end signal for a connected customer while no match
    record is cached is rejected with a [TypeError] before anything is
    emitted or written: the state is unchanged. *)
Theorem lifecycle_signal_without_match
        (ADMIN_CHARGES : Q) (data : SignalData) (st : State)
        (sock : Socket) :
  Map_get (socketMap st) (data_customerId data) = Some sock ->
  matchCache st = None ->
  startDeliveryNotification data st
  = (Rejected (JS.TypeError "Cannot destructure null"), st)
  /\ endDeliveryNotification ADMIN_CHARGES data st
     = (Rejected (JS.TypeError "Cannot destructure null"), st).
Proof.
  intros Hget Hcache.
  unfold startDeliveryNotification, endDeliveryNotification, bind,
    socketMap_get, getToken.
  rewrite Hget, Hcache. split; reflexivity.
Qed.

Lemma lifecycle_signal_without_match_example :
  let st := mkState [(2%nat, customer_socket)] None
                    (sample_database (sample_delivery ON_TRANSIT (Some 3%nat))
                                     []) [] in
  startDeliveryNotification sample_signal st
  = (Rejected (JS.TypeError "Cannot destructure null"), st)
  /\ endDeliveryNotification 10 sample_signal st
     = (Rejected (JS.TypeError "Cannot destructure null"), st).
Proof.
  exact (lifecycle_signal_without_match
           10 sample_signal
           (mkState [(2%nat, customer_socket)] None
                    (sample_database (sample_delivery ON_TRANSIT (Some 3%nat))
                                     []) [])
           customer_socket eq_refl eq_refl).
Defined.

(** X3.  Once a delivery was ended, the same end signal again (no new
    match cached) is rejected and changes nothing: no second credit, no
    second admin-fee record. *)
Theorem repeated_endDelivery_changes_nothing
        (ADMIN_CHARGES : Q) (data : SignalData) (st : State)
        (sock : Socket) (r : MatchRecord) :
  Map_get (socketMap st) (data_customerId data) = Some sock ->
  matchCache st = Some r ->
  let once := snd (endDeliveryNotification ADMIN_CHARGES data st) in
  endDeliveryNotification ADMIN_CHARGES data once
  = (Rejected (JS.TypeError "Cannot destructure null"), once).
Proof.
  intros Hget Hcache. cbv zeta.
  rewrite (endDelivery_connected_run _ _ _ _ _ Hget Hcache). cbn [snd].
  unfold endDeliveryNotification at 1. unfold bind, socketMap_get, getToken.
  cbn [socketMap matchCache]. rewrite Hget. reflexivity.
Qed.

Lemma repeated_endDelivery_changes_nothing_example :
  let once :=
    snd (endDeliveryNotification
           10 sample_signal
           (connected_state (sample_delivery ON_TRANSIT (Some 3%nat)) [])) in
  endDeliveryNotification 10 sample_signal once
  = (Rejected (JS.TypeError "Cannot destructure null"), once).
Proof.
  exact (repeated_endDelivery_changes_nothing
           10 sample_signal
           (connected_state (sample_delivery ON_TRANSIT (Some 3%nat)) [])
           customer_socket sample_match eq_refl eq_refl).
Defined.

(** X4.  For a connected customer and a cached match,
    [startDeliveryNotification] sets the [busy] flag of the cached rider,
    emits one [startDeliveryNotification] event to the customer, keeps the
    match record and the registry, and leaves the wallets, the admin-fee
    records and the notifications alone. *)
Theorem startDelivery_marks_rider_busy
        (data : SignalData) (st : State) (sock : Socket) (r : MatchRecord)
        (x : Rider) :
  Map_get (socketMap st) (data_customerId data) = Some sock ->
  matchCache st = Some r ->
  find (has_rider_id (riderId r)) (riders (db st)) = Some x ->
  let st' := snd (startDeliveryNotification data st) in
  find (has_rider_id (riderId r)) (riders (db st'))
  = Some (Dao.set_busy true x)
  /\ matchCache st' = Some r
  /\ socketMap st' = socketMap st
  /\ emitted st' =
     emitted st ++
     [(sock, startDeliveryNotificationEvent
               (mkDeliveryData data (deliveryRefNumber r)
                               (estimatedDeliveryTime r)))]
  /\ riderWallets (db st') = riderWallets (db st)
  /\ adminFees (db st') = adminFees (db st)
  /\ notifications (db st') = notifications (db st).
Proof.
  intros Hget Hcache Hx. cbv zeta.
  rewrite (startDelivery_connected_run _ _ _ _ Hget Hcache).
  cbn [snd db matchCache socketMap emitted].
  destruct (startDelivery_database_frame r (db st))
    as (Hw & Ha & Hn & _).
  rewrite startDelivery_database_riders, Hw, Ha, Hn.
  split; [|repeat split].
  apply patch_first_find_after; [exact Hx|].
  apply find_some in Hx. exact (proj2 Hx).
Qed.

Lemma startDelivery_marks_rider_busy_example :
  let st := connected_state (sample_delivery PENDING (Some 3%nat))
                            [wallet_of_rider_3] in
  let st' := snd (startDeliveryNotification sample_signal st) in
  find (has_rider_id 3%nat) (riders (db st'))
  = Some (Dao.set_busy true sample_rider)
  /\ matchCache st' = Some sample_match
  /\ socketMap st' = socketMap st
  /\ emitted st' =
     emitted st ++
     [(customer_socket,
       startDeliveryNotificationEvent
         (mkDeliveryData sample_signal "REF-0001" "0hrs:10min"))]
  /\ riderWallets (db st') = riderWallets (db st)
  /\ adminFees (db st') = adminFees (db st)
  /\ notifications (db st') = notifications (db st).
Proof.
  exact (startDelivery_marks_rider_busy
           sample_signal
           (connected_state (sample_delivery PENDING (Some 3%nat))
                            [wallet_of_rider_3])
           customer_socket sample_match sample_rider
           eq_refl eq_refl eq_refl).
Defined.

(** X5.  Start followed by end, for a connected customer and a cached
    match: the end is fulfilled, the delivery is [DELIVERED], the rider is
    no longer busy, the match record is gone, the customer got the two
    events in order and one admin-fee record was appended, carrying
    [ADMIN_CHARGES / 100 * deliveryFee] as binary64 computes it. *)
Theorem start_then_end_delivery
        (ADMIN_CHARGES : Q) (data : SignalData) (st : State)
        (sock : Socket) (r : MatchRecord) (d : Delivery) (x : Rider) :
  Map_get (socketMap st) (data_customerId data) = Some sock ->
  matchCache st = Some r ->
  find (has_delivery_id (deliveryId r)) (deliveries (db st)) = Some d ->
  find (has_rider_id (riderId r)) (riders (db st)) = Some x ->
  let started := snd (startDeliveryNotification data st) in
  let ended := snd (endDeliveryNotification ADMIN_CHARGES data started) in
  let deliveryData :=
    mkDeliveryData data (deliveryRefNumber r) (estimatedDeliveryTime r) in
  fst (endDeliveryNotification ADMIN_CHARGES data started) = Fulfilled tt
  /\ find (has_delivery_id (deliveryId r)) (deliveries (db ended))
     = Some (Dao.set_status DELIVERED d)
  /\ find (has_rider_id (riderId r)) (riders (db ended))
     = Some (Dao.set_busy false x)
  /\ matchCache ended = None
  /\ emitted ended =
     emitted st ++
     [(sock, startDeliveryNotificationEvent deliveryData);
      (sock, endDeliveryNotificationEvent deliveryData)]
  /\ adminFees (db ended) =
     adminFees (db st) ++
     [mkAdminFee (deliveryRefNumber r) (riderId r)
                 (Some (JS.mul (JS.div (JS.num ADMIN_CHARGES) (JS.Fin 100))
                               (deliveryFee d)))].
Proof.
  intros Hget Hcache Hd Hx. cbv zeta.
  rewrite (startDelivery_connected_run _ _ _ _ Hget Hcache). cbn [snd].
  rewrite (endDelivery_connected_run _ _ _ sock r); [|exact Hget|reflexivity].
  cbn [fst snd db matchCache socketMap emitted].
  assert (Hd1 : find (has_delivery_id (deliveryId r))
                     (deliveries (startDelivery_database r (db st)))
                = Some (Dao.set_status ON_TRANSIT d)).
  { rewrite startDelivery_database_deliveries.
    apply patch_first_find_after; [exact Hd|].
    apply find_some in Hd. exact (proj2 Hd). }
  assert (Hx1 : find (has_rider_id (riderId r))
                     (riders (startDelivery_database r (db st)))
                = Some (Dao.set_busy true x)).
  { rewrite startDelivery_database_riders.
    apply patch_first_find_after; [exact Hx|].
    apply find_some in Hx. exact (proj2 Hx). }
  split; [reflexivity|]. split; [|split; [|split; [|split]]].
  - rewrite endDelivery_database_deliveries.
    rewrite (patch_first_find_after _ _ _ _ Hd1).
    + reflexivity.
    + apply find_some in Hd1. exact (proj2 Hd1).
  - rewrite endDelivery_database_riders.
    rewrite (patch_first_find_after _ _ _ _ Hx1).
    + reflexivity.
    + apply find_some in Hx1. exact (proj2 Hx1).
  - reflexivity.
  - rewrite <- app_assoc. reflexivity.
  - rewrite endDelivery_database_adminFees.
    rewrite delivery_updateByAny_run. cbn [fst].
    rewrite (patch_first_found _ _ _ _ Hd1).
    destruct (startDelivery_database_frame r (db st)) as (_ & Ha & _).
    rewrite Ha. reflexivity.
Qed.

Lemma start_then_end_delivery_example :
  let st := connected_state (sample_delivery PENDING (Some 3%nat)) [] in
  let started := snd (startDeliveryNotification sample_signal st) in
  let ended := snd (endDeliveryNotification 10 sample_signal started) in
  let deliveryData := mkDeliveryData sample_signal "REF-0001" "0hrs:10min" in
  fst (endDeliveryNotification 10 sample_signal started) = Fulfilled tt
  /\ find (has_delivery_id 1%nat) (deliveries (db ended))
     = Some (sample_delivery DELIVERED (Some 3%nat))
  /\ find (has_rider_id 3%nat) (riders (db ended))
     = Some (Dao.set_busy false sample_rider)
  /\ matchCache ended = None
  /\ emitted ended =
     [(customer_socket, startDeliveryNotificationEvent deliveryData);
      (customer_socket, endDeliveryNotificationEvent deliveryData)]
  /\ adminFees (db ended) =
     [mkAdminFee "REF-0001" 3%nat (Some (JS.Fin 10))].
Proof.
  exact (start_then_end_delivery
           10 sample_signal
           (connected_state (sample_delivery PENDING (Some 3%nat)) [])
           customer_socket sample_match
           (sample_delivery PENDING (Some 3%nat)) sample_rider
           eq_refl eq_refl eq_refl eq_refl).
Defined.

(** Half of a representable number is representable, unless the number is
    on the lowest grid (and then it is below [2^-1021]). *)
Lemma half_representable (f : Q) :
  JS.representable f -> 0 < f ->
  JS.representable (f / 2) \/ f < 1 # 2.
Proof.
  intros Hf H0.
  destruct (Binary64.representable_decomposition f Hf H0)
    as (m & Hm & Hb & Hmax).
  destruct (Z.eq_dec (JS.expo f) (-1074)) as [E | NE].
  - right. rewrite Hm, E.
    apply Qlt_trans with (inject_Z (2 ^ 53) * JS.pow2 (-1074)).
    + apply Qmult_lt_compat_r; [apply Binary64.pow2_pos |].
      rewrite <- Zlt_Qlt. lia.
    + reflexivity.
  - left. apply (Binary64.representable_criterion _ m (JS.expo f - 1)).
    + rewrite Hm at 1.
      rewrite <- (Z.sub_add 1 (JS.expo f)) at 1.
      rewrite Binary64.pow2_succ. field.
    + lia.
    + unfold JS.expo in *. lia.
    + assert (Hh : f / 2 == f * (1 # 2)) by field.
      rewrite Hh, Qabs_pos by lra. lra.
Qed.

(** X7.  For a representable fee [f] with [0 <= f < 2^53] and a charge
    between 0 and 100 percent, the admin fee computed is between 0 and [f],
    the rider fee is [f] less the rounded admin fee exactly, hence within
    half a unit of [f - adminFee]; it is not negative when the charge is at
    most 50 percent. *)
Theorem rider_fee_bounds (ADMIN_CHARGES : Q) (d : Delivery) (f : Q) :
  deliveryFee d = JS.Fin f -> JS.representable f ->
  0 <= f -> f < JS.pow2 53 ->
  0 <= ADMIN_CHARGES -> ADMIN_CHARGES <= 100 ->
  exists adminFee riderFee : Q,
    adminFee_of ADMIN_CHARGES (Some d) = Some (JS.Fin adminFee)
    /\ riderFee_of (Some d) (adminFee_of ADMIN_CHARGES (Some d))
       = Some (JS.Fin riderFee)
    /\ 0 <= adminFee /\ adminFee <= f
    /\ riderFee == f - inject_Z (JS.Math_round adminFee)
    /\ f - adminFee - (1 # 2) <= riderFee
    /\ riderFee < f - adminFee + (1 # 2)
    /\ (ADMIN_CHARGES <= 50 -> 0 <= riderFee).
Proof.
  intros Ef Hf H0 H53 Hc0 Hc100.
  destruct (Binary64.settlement_exact ADMIN_CHARGES f Hf H0 H53 Hc0 Hc100)
    as (a & Ea & Ha0 & Haf & Esub).
  exists a, (Qred (f - inject_Z (JS.Math_round a))).
  cbn [adminFee_of riderFee_of round_adminFee]. rewrite Ef, Ea, Esub.
  split; [reflexivity |]. split; [reflexivity |].
  split; [exact Ha0 |]. split; [exact Haf |].
  rewrite Qred_correct.
  destruct (Binary64.Math_round_bounds a) as [Hlo Hhi].
  split; [reflexivity |]. split; [lra |]. split; [lra |].
  intros Hc50.
  (* the quotient is at most a half, so the admin fee is at most f / 2 *)
  destruct (Binary64.num_between 0 50 0 50 ADMIN_CHARGES)
    as (c' & Ec & Hc'0 & Hc'50); try reflexivity; try assumption.
  rewrite Ec in Ea. cbn [JS.div] in Ea.
  change (Qeq_bool 100 0) with false in Ea. cbv iota in Ea.
  destruct (Binary64.round64_between 0 (1 # 2) 0 (1 # 2) (c' / 100))
    as (q & Eq & Hq0 & Hq1); try reflexivity.
  { apply Qle_shift_div_l; lra. }
  { apply Qle_shift_div_r; lra. }
  rewrite Eq in Ea. cbn [JS.mul] in Ea.
  assert (Hqf : q * f <= f / 2).
  { assert (q * f <= (1 # 2) * f) by (apply Qmult_le_compat_r; assumption).
    assert ((1 # 2) * f == f / 2) by field. lra. }
  destruct (Qlt_le_dec f (1 # 2)) as [Hsmall | Hbig].
  - rewrite (Binary64.Math_round_small a Ha0) by lra.
    change (inject_Z 0) with 0. lra.
  - assert (Hfpos : 0 < f) by lra.
    destruct (half_representable f Hf Hfpos) as [Hhalf | Hlow]; [| lra].
    destruct (Binary64.round64_between 0 (f / 2) 0 (Qred (f / 2)) (q * f))
      as (a' & Ea' & _ & Ha'); try reflexivity; try assumption.
    { apply Qmult_le_0_compat; assumption. }
    rewrite Qred_correct in Ha'.
    assert (Hh : f / 2 == f * (1 # 2)) by field. rewrite Hh in Ha'.
    assert (a' = a) by congruence. subst a'.
    destruct (Qlt_le_dec f 1) as [H1 | H1].
    + rewrite (Binary64.Math_round_small a Ha0) by lra.
      change (inject_Z 0) with 0. lra.
    + lra.
Qed.

Lemma rider_fee_bounds_example :
  exists adminFee riderFee : Q,
    adminFee_of 29 (Some (delivery_with_fee (JS.Fin 50)))
    = Some (JS.Fin adminFee)
    /\ riderFee_of (Some (delivery_with_fee (JS.Fin 50)))
                   (adminFee_of 29 (Some (delivery_with_fee (JS.Fin 50))))
       = Some (JS.Fin riderFee)
    /\ 0 <= adminFee /\ adminFee <= 50
    /\ riderFee == 50 - inject_Z (JS.Math_round adminFee)
    /\ 50 - adminFee - (1 # 2) <= riderFee
    /\ riderFee < 50 - adminFee + (1 # 2)
    /\ (29 <= 50 -> 0 <= riderFee).
Proof.
  assert (Hf : JS.representable 50) by reflexivity.
  assert (H53 : 50 < JS.pow2 53) by reflexivity.
  assert (H0 : 0 <= 50) by discriminate.
  assert (Hc0 : 0 <= 29) by discriminate.
  assert (Hc100 : 29 <= 100) by discriminate.
  exact (rider_fee_bounds 29 (delivery_with_fee (JS.Fin 50)) 50
                          eq_refl Hf H0 H53 Hc0 Hc100).
Defined.

(** At 29 percent of a fee of 50 the product is the double next below 14.5:
    the admin fee is rounded to 14 and the rider fee is 36. *)
Example rider_fee_at_29_percent_of_50 :
  adminFee_of 29 (Some (delivery_with_fee (JS.Fin 50)))
  = Some (JS.Fin (8162774324609023 # 562949953421312))
  /\ riderFee_of (Some (delivery_with_fee (JS.Fin 50)))
                 (adminFee_of 29 (Some (delivery_with_fee (JS.Fin 50))))
     = Some (JS.Fin 36).
Proof. split; vm_compute; reflexivity. Qed.

(** X6.  When the rider has no wallet, ending a delivery appends exactly
    one wallet for that rider under the next fresh [_id], holding the
    rider fee [deliveryFee - Math.round(adminFee)] as binary64 computes
    it; it is the wallet later found for the rider. *)
Theorem first_settlement_creates_wallet
        (ADMIN_CHARGES : Q) (data : SignalData) (st : State)
        (sock : Socket) (r : MatchRecord) (d : Delivery) :
  Map_get (socketMap st) (data_customerId data) = Some sock ->
  matchCache st = Some r ->
  find (has_delivery_id (deliveryId r)) (deliveries (db st)) = Some d ->
  Dao.riderWallet_findByAny_rider (riderId r) (db st) = None ->
  let st' := snd (endDeliveryNotification ADMIN_CHARGES data st) in
  let adminFee :=
    JS.mul (JS.div (JS.num ADMIN_CHARGES) (JS.Fin 100)) (deliveryFee d) in
  let riderFee := JS.sub (deliveryFee d) (JS.round adminFee) in
  let wallet := mkRiderWallet (nextId (db st)) (riderId r) (Some riderFee) in
  riderWallets (db st') = riderWallets (db st) ++ [wallet]
  /\ Dao.riderWallet_findByAny_rider (riderId r) (db st') = Some wallet
  /\ nextId (db st') = S (nextId (db st)).
Proof.
  intros Hget Hcache Hfind Hnone. cbv zeta.
  rewrite (endDelivery_connected_run _ _ _ _ _ Hget Hcache).
  cbn [snd db].
  assert (Hw : riderWallets (endDelivery_database ADMIN_CHARGES r (db st))
               = riderWallets (db st) ++
                 [mkRiderWallet
                    (nextId (db st)) (riderId r)
                    (Some (JS.sub
                             (deliveryFee d)
                             (JS.round
                                (JS.mul
                                   (JS.div (JS.num ADMIN_CHARGES) (JS.Fin 100))
                                   (deliveryFee d)))))]).
  { pose proof (endDelivery_database_riderWallets ADMIN_CHARGES r (db st))
      as H.
    cbv zeta in H. rewrite H, Hnone.
    rewrite delivery_updateByAny_run. cbn [fst].
    rewrite (patch_first_found _ _ _ _ Hfind). reflexivity. }
  split; [exact Hw|]. split.
  - unfold Dao.riderWallet_findByAny_rider, Dao.findByAny in *.
    rewrite Hw. clear Hw.
    induction (riderWallets (db st)) as [|w ws IH]; simpl in *.
    + rewrite Nat.eqb_refl. reflexivity.
    + destruct (Nat.eqb (wallet_rider w) (riderId r)); [discriminate|].
      apply IH. exact Hnone.
  - unfold endDelivery_database. cbv zeta.
    rewrite !delivery_updateByAny_run, !rider_updateByAny_run.
    cbn [fst snd].
    unfold Dao.riderWallet_findByAny_rider in *.
    cbn [riderWallets Dao.with_riders Dao.with_deliveries].
    rewrite Hnone. reflexivity.
Qed.

Lemma first_settlement_creates_wallet_example :
  let st := connected_state (sample_delivery ON_TRANSIT (Some 3%nat)) [] in
  let st' := snd (endDeliveryNotification 10 sample_signal st) in
  let wallet := mkRiderWallet 10%nat 3%nat (Some (JS.Fin 90)) in
  riderWallets (db st') = [wallet]
  /\ Dao.riderWallet_findByAny_rider 3%nat (db st') = Some wallet
  /\ nextId (db st') = 11%nat.
Proof.
  exact (first_settlement_creates_wallet
           10 sample_signal
           (connected_state (sample_delivery ON_TRANSIT (Some 3%nat)) [])
           customer_socket sample_match
           (sample_delivery ON_TRANSIT (Some 3%nat))
           eq_refl eq_refl eq_refl eq_refl).
Defined.

End LifecycleLaws.

(* ===================================================================== *)
(** ** The response relay on an acceptance *)
(* ===================================================================== *)

Module RelayLaws.
Import RabbitMqService Lifecycle Statements SettlementFacts StatusFacts.

Lemma riderAvailability_detached_run (b : bool) (st : State) :
  detached (riderAvailability b) st =
  (Fulfilled tt,
   mkState (socketMap st) (matchCache st)
           (match matchCache st with
            | Some r =>
                Dao.notification_create
                  (mkNotification (deliveryRefNumber r) b
                                  (riderId r) (customerId r) (deliveryId r))
                  (db st)
            | None => db st
            end)
           (emitted st)).
Proof.
  unfold detached, riderAvailability, bind, getToken, command_.
  destruct st as [m c d e]. cbn [matchCache].
  destruct c; reflexivity.
Qed.

(** X8.  An acceptance relayed to a connected customer while a match is
    cached: the customer gets [riderResponse] with the rider named by the
    response, the delivery of the match gets the rider of the cached
    record (its status is not touched), one notification record is
    written and the match record is kept. *)
Theorem acceptance_assigns_cached_rider
        (driverResponse : DriverResponse) (st : State)
        (sock : Socket) (r : MatchRecord) (d : Delivery) :
  availability driverResponse = true ->
  Map_get (socketMap st) (response_customerId driverResponse) = Some sock ->
  matchCache st = Some r ->
  find (has_delivery_id (deliveryId r)) (deliveries (db st)) = Some d ->
  let st' := snd (notifyUserAboutDriverResponse driverResponse st) in
  fst (notifyUserAboutDriverResponse driverResponse st) = Fulfilled tt
  /\ find (has_delivery_id (deliveryId r)) (deliveries (db st'))
     = Some (Dao.set_rider (riderId r) d)
  /\ emitted st' =
     emitted st ++
     [(sock, riderResponse
               (mkResponseNotification
                  "Rider response" true
                  (response_riderId driverResponse)
                  (arrivalTime driverResponse)))]
  /\ notifications (db st') =
     notifications (db st) ++
     [mkNotification (deliveryRefNumber r) true (riderId r) (customerId r)
                     (deliveryId r)]
  /\ matchCache st' = Some r.
Proof.
  intros Hav Hget Hcache Hd. cbv zeta.
  unfold notifyUserAboutDriverResponse, bind, socketMap_get.
  rewrite Hget, Hav. cbn [emit].
  rewrite riderAvailability_detached_run.
  cbn [socketMap matchCache db emitted]. rewrite Hcache.
  unfold getToken. cbn [matchCache destructure ret].
  rewrite command_run. cbn [fst snd db socketMap matchCache emitted].
  rewrite delivery_updateByAny_run. cbn [fst snd].
  split; [reflexivity|]. split; [|repeat split].
  cbn [deliveries Dao.with_deliveries Dao.notification_create
       Dao.with_notifications].
  apply patch_first_find_after; [exact Hd|].
  apply find_some in Hd. exact (proj2 Hd).
Qed.

Lemma acceptance_assigns_cached_rider_example :
  let st := connected_state (sample_delivery PENDING None) [] in
  let st' := snd (notifyUserAboutDriverResponse (accept 8%nat 2%nat) st) in
  fst (notifyUserAboutDriverResponse (accept 8%nat 2%nat) st) = Fulfilled tt
  /\ find (has_delivery_id 1%nat) (deliveries (db st'))
     = Some (sample_delivery PENDING (Some 3%nat))
  /\ emitted st' =
     [(customer_socket,
       riderResponse
         (mkResponseNotification "Rider response" true 8%nat "5min"))]
  /\ notifications (db st') =
     [mkNotification "REF-0001" true 3%nat 2%nat 1%nat]
  /\ matchCache st' = Some sample_match.
Proof.
  exact (acceptance_assigns_cached_rider
           (accept 8%nat 2%nat)
           (connected_state (sample_delivery PENDING None) [])
           customer_socket sample_match (sample_delivery PENDING None)
           eq_refl eq_refl eq_refl eq_refl).
Defined.

(** X9.  An acceptance relayed to a connected customer while no match is
    cached: the customer still gets [riderResponse], then the relay is
    rejected with a [TypeError]; nothing is written to the stores. *)
Theorem acceptance_without_match
        (driverResponse : DriverResponse) (st : State) (sock : Socket) :
  availability driverResponse = true ->
  Map_get (socketMap st) (response_customerId driverResponse) = Some sock ->
  matchCache st = None ->
  notifyUserAboutDriverResponse driverResponse st =
  (Rejected (JS.TypeError "Cannot destructure null"),
   mkState (socketMap st) None (db st)
           (emitted st ++
            [(sock, riderResponse
                      (mkResponseNotification
                         "Rider response" true
                         (response_riderId driverResponse)
                         (arrivalTime driverResponse)))])).
Proof.
  intros Hav Hget Hcache.
  unfold notifyUserAboutDriverResponse, bind, socketMap_get.
  rewrite Hget, Hav. cbn [emit].
  rewrite riderAvailability_detached_run.
  cbn [socketMap matchCache db emitted]. rewrite Hcache.
  reflexivity.
Qed.

Lemma acceptance_without_match_example :
  notifyUserAboutDriverResponse
    (accept 3%nat 2%nat)
    (mkState [(2%nat, customer_socket)] None
             (sample_database (sample_delivery PENDING None) []) [])
  = (Rejected (JS.TypeError "Cannot destructure null"),
     mkState [(2%nat, customer_socket)] None
             (sample_database (sample_delivery PENDING None) [])
             [(customer_socket,
               riderResponse
                 (mkResponseNotification "Rider response" true 3%nat
                                         "5min"))]).
Proof.
  exact (acceptance_without_match
           (accept 3%nat 2%nat)
           (mkState [(2%nat, customer_socket)] None
                    (sample_database (sample_delivery PENDING None) []) [])
           customer_socket eq_refl eq_refl eq_refl).
Defined.

End RelayLaws.

(* ===================================================================== *)
(** ** Rider discovery: outcomes, aggregate time, bounds *)
(* ===================================================================== *)

Module DiscoveryLaws.
Import DeliveryController Discovery Statements DiscoveryProperties.

Lemma not_eligible_iff (db : Database) (l : RiderLocation) :
  not_eligible db l <-> ~ eligible db l.
Proof.
  unfold not_eligible, eligible.
  destruct (online_and_active _); split; intros H.
  - discriminate H.
  - elim H. reflexivity.
  - discriminate.
  - reflexivity.
Qed.

Lemma select_rider_some_iff (db : Database) (riders : list RiderLocation) :
  (exists rider, select_rider db riders = Some rider)
  <-> Exists (eligible db) riders.
Proof.
  split.
  - intros [rider Hsel].
    destruct (select_rider_first _ _ _ Hsel)
      as (pre & loc & post & -> & _ & Hfind & Hok).
    apply Exists_exists. exists loc. split.
    + apply in_or_app. right. left. reflexivity.
    + unfold eligible. rewrite Hfind. exact Hok.
  - intros Hex. destruct (select_rider db riders) as [rider|] eqn:Hsel.
    + exists rider. reflexivity.
    + apply select_rider_none in Hsel.
      apply Exists_exists in Hex. destruct Hex as (l & Hin & Hl).
      rewrite Forall_forall in Hsel. specialize (Hsel l Hin).
      apply not_eligible_iff in Hsel. contradiction.
Qed.

Section MoreDiscovery.

Variables MAX_DISTANCE BIKE_SPEED CAR_SPEED BUS_SPEED AVERAGE_SPEED : Q.
Variable RiderLocation_aggregate : Point -> Q -> list RiderLocation.

Local Abbreviation discover :=
  (findRiders MAX_DISTANCE BIKE_SPEED CAR_SPEED BUS_SPEED AVERAGE_SPEED
              RiderLocation_aggregate).
Local Abbreviation around :=
  (riders_around MAX_DISTANCE RiderLocation_aggregate).
Local Abbreviation speed_of :=
  (speedInKmPerHour_of BIKE_SPEED CAR_SPEED BUS_SPEED AVERAGE_SPEED).

(** X10.  [findRiders] resolves exactly when the customer has a delivery
    and some rider returned around the last one is online and active. *)
Theorem findRiders_resolves_iff (customerId : Id) (db : Database) :
  (exists resp, discover customerId db = Resolve resp)
  <-> exists lastDelivery,
      JS.last_elem (Dao.delivery_findAll_customer customerId db)
      = Some lastDelivery
      /\ Exists (eligible db) (around lastDelivery).
Proof.
  split.
  - intros [resp Hres].
    destruct (findRiders_resolved _ _ _ _ _ _ _ _ _ Hres)
      as (lastDelivery & rider & Hlast & Hsel & _).
    exists lastDelivery. split; [exact Hlast|].
    apply select_rider_some_iff. exists rider. exact Hsel.
  - intros (lastDelivery & Hlast & Hex).
    pose proof Hex as Hex'.
    apply select_rider_some_iff in Hex. destruct Hex as [rider Hsel].
    unfold findRiders. cbn [JS.truthy_array negb]. rewrite Hlast.
    unfold riders_around in *.
    destruct (RiderLocation_aggregate _ _) as [|l rest] eqn:Hagg.
    + inversion Hex'.
    + cbn [List.length Nat.eqb]. rewrite Hsel. eexists. reflexivity.
Qed.

(** X11.  [findRiders] rejects in exactly two situations, each with
    [NOT_FOUND]: the aggregation returns no rider, or it returns riders
    none of whom is online and active. *)
Theorem findRiders_rejects_iff (customerId : Id) (db : Database)
        (e : CustomAPIError) :
  discover customerId db = Reject e
  <-> exists lastDelivery,
      JS.last_elem (Dao.delivery_findAll_customer customerId db)
      = Some lastDelivery
      /\ ((around lastDelivery = []
           /\ e = mkCustomAPIError "No riders available at the moment"
                                   NOT_FOUND)
          \/ (around lastDelivery <> []
              /\ Forall (not_eligible db) (around lastDelivery)
              /\ e = mkCustomAPIError "No rider is currently online"
                                      NOT_FOUND)).
Proof.
  unfold findRiders, riders_around. cbn [JS.truthy_array negb].
  destruct (JS.last_elem _) as [lastDelivery|].
  - destruct (RiderLocation_aggregate _ _) as [|l rest] eqn:Hagg.
    + simpl. split.
      * intros [= <-]. exists lastDelivery. split; [reflexivity|].
        left. rewrite Hagg. auto.
      * intros (ld & [= <-] & [[_ ->]|[Hne _]]); [reflexivity|].
        rewrite Hagg in Hne. congruence.
    + cbn [List.length Nat.eqb].
      destruct (select_rider db (l :: rest)) as [rider|] eqn:Hsel.
      * split; [discriminate|].
        intros (ld & [= <-] & [[Hnil _]|[_ [Hall _]]]).
        -- rewrite Hagg in Hnil. discriminate.
        -- rewrite Hagg in Hall. apply select_rider_none in Hall.
           congruence.
      * split.
        -- intros [= <-]. exists lastDelivery. split; [reflexivity|].
           right. rewrite Hagg. split; [discriminate|]. split; [|reflexivity].
           apply select_rider_none. exact Hsel.
        -- intros (ld & [= <-] & [[Hnil _]|[_ [_ ->]]]); [|reflexivity].
           rewrite Hagg in Hnil. discriminate.
  - split; [discriminate|]. intros (ld & Hld & _). discriminate.
Qed.

End MoreDiscovery.

(** Numbers that are zero or more: a finite one or [Infinity]. *)
Lemma num_nonneg (d : Q) : 0 <= d -> nonneg (JS.num d).
Proof.
  intros H. unfold nonneg, JS.num.
  change (JS.Fin 0) with (JS.round64 0).
  apply Binary64.round64_monotone. exact H.
Qed.

Lemma div_nonneg (a : JS.JSNum) (s : Q) :
  nonneg a -> 0 < s -> nonneg (JS.div a (JS.Fin s)).
Proof.
  unfold nonneg. intros Ha Hs.
  destruct a as [x | | |]; cbn [JS.le] in Ha; try discriminate;
    cbn [JS.div].
  - apply Qle_bool_iff in Ha.
    destruct (Qeq_bool s 0) eqn:E.
    + apply Qeq_bool_iff in E. lra.
    + change (JS.Fin 0) with (JS.round64 0).
      apply Binary64.round64_monotone.
      apply Qle_shift_div_l; lra.
  - assert (E : Qle_bool 0 s = true) by (apply Qle_bool_iff; lra).
    rewrite E. reflexivity.
Qed.

Lemma add_nonneg (a b : JS.JSNum) :
  nonneg a -> nonneg b -> nonneg (JS.add a b).
Proof.
  unfold nonneg. intros Ha Hb.
  destruct a as [x | | |], b as [y | | |]; cbn [JS.le] in Ha, Hb;
    try discriminate; cbn [JS.add]; try reflexivity.
  apply Qle_bool_iff in Ha, Hb.
  change (JS.Fin 0) with (JS.round64 0).
  apply Binary64.round64_monotone. lra.
Qed.

(** Adding a number that is zero or more to a binary64 number does not
    make it smaller. *)
Lemma add_increases (a b : JS.JSNum) :
  (forall x, a = JS.Fin x -> JS.representable x) ->
  nonneg a -> nonneg b -> JS.le a (JS.add a b) = true.
Proof.
  unfold nonneg. intros Hrep Ha Hb.
  destruct a as [x | | |], b as [y | | |]; cbn [JS.le] in Ha, Hb;
    try discriminate; cbn [JS.add]; try reflexivity.
  apply Qle_bool_iff in Hb.
  assert (Hm : JS.le (JS.round64 x) (JS.round64 (x + y)) = true).
  { apply Binary64.round64_monotone. lra. }
  rewrite (Hrep x eq_refl) in Hm.
  destruct (JS.round64 (x + y)) as [r | | |]; cbn [JS.le] in *;
    try assumption.
  apply Qle_bool_iff in Hm. apply Qle_bool_iff.
  rewrite Qred_correct in Hm. exact Hm.
Qed.

(** The quotient of a rider at a distance of zero or more, for a positive
    speed. *)
Lemma quotient_nonneg (l : RiderLocation) (s : Q) :
  0 <= distance l -> 0 < s ->
  nonneg (JS.div (JS.div (JS.num (distance l)) (JS.Fin 1000)) (JS.Fin s)).
Proof.
  intros Hd Hs. apply div_nonneg; [| exact Hs].
  apply div_nonneg; [apply num_nonneg; exact Hd | reflexivity].
Qed.

Lemma estimatedTimeToSender_snoc (riders : list RiderLocation)
      (l : RiderLocation) (speed : JS.JSNum) :
  estimatedTimeToSender_of (riders ++ [l]) speed
  = JS.add (estimatedTimeToSender_of riders speed)
           (JS.div (JS.div (JS.num (distance l)) (JS.Fin 1000)) speed).
Proof.
  unfold estimatedTimeToSender_of. rewrite fold_left_app. reflexivity.
Qed.

Lemma estimatedTimeToSender_nonneg (riders : list RiderLocation) (s : Q) :
  0 < s -> Forall (fun x => 0 <= distance x) riders ->
  nonneg (estimatedTimeToSender_of riders (JS.Fin s)).
Proof.
  intros Hs. induction riders as [| l rest IH] using rev_ind; intros Hall.
  - reflexivity.
  - apply Forall_app in Hall. destruct Hall as [Hrest Hl].
    inversion Hl as [| ? ? Hd _]; subst.
    rewrite estimatedTimeToSender_snoc.
    apply add_nonneg; [apply IH; exact Hrest |].
    apply quotient_nonneg; assumption.
Qed.

(** X12.  The estimated time counts every rider returned, not only the
    chosen one: each rider adds its own quotient [distance / 1000 / speed],
    rounded, to the rounded sum of the riders before it; with a positive
    speed and distances of zero or more, one more rider never makes the
    estimate smaller. *)
Theorem estimated_time_sums_all_riders
        (riders : list RiderLocation) (l : RiderLocation) (s : Q) :
  0 < s -> Forall (fun x => 0 <= distance x) riders -> 0 <= distance l ->
  estimatedTimeToSender_of (riders ++ [l]) (JS.Fin s)
  = JS.add (estimatedTimeToSender_of riders (JS.Fin s))
           (JS.div (JS.div (JS.num (distance l)) (JS.Fin 1000)) (JS.Fin s))
  /\ JS.le (estimatedTimeToSender_of riders (JS.Fin s))
           (estimatedTimeToSender_of (riders ++ [l]) (JS.Fin s)) = true.
Proof.
  intros Hs Hall Hl. split; [apply estimatedTimeToSender_snoc |].
  rewrite estimatedTimeToSender_snoc. apply add_increases.
  - intros x Ex. apply (estimatedTimeToSender_representable _ _ _ Ex).
  - apply estimatedTimeToSender_nonneg; assumption.
  - apply quotient_nonneg; assumption.
Qed.

Lemma estimated_time_sums_all_riders_example :
  estimatedTimeToSender_of
    ([mkRiderLocation 11%nat here 1000; mkRiderLocation 12%nat here 3000]
     ++ [mkRiderLocation 13%nat here 6000]) (JS.Fin 30)
  = JS.add (estimatedTimeToSender_of
              [mkRiderLocation 11%nat here 1000;
               mkRiderLocation 12%nat here 3000] (JS.Fin 30))
           (JS.div (JS.div (JS.num 6000) (JS.Fin 1000)) (JS.Fin 30))
  /\ JS.le (estimatedTimeToSender_of
              [mkRiderLocation 11%nat here 1000;
               mkRiderLocation 12%nat here 3000] (JS.Fin 30))
           (estimatedTimeToSender_of
              ([mkRiderLocation 11%nat here 1000;
                mkRiderLocation 12%nat here 3000]
               ++ [mkRiderLocation 13%nat here 6000]) (JS.Fin 30)) = true.
Proof.
  apply (estimated_time_sums_all_riders
           [mkRiderLocation 11%nat here 1000;
            mkRiderLocation 12%nat here 3000]
           (mkRiderLocation 13%nat here 6000) 30).
  - reflexivity.
  - repeat constructor; discriminate.
  - discriminate.
Defined.

(** Riders at 1000, 3000 and 6000 m at 30 km/h: the three rounded quotients
    add up to 0.33333333333333337, the double next above the quotient of
    the total distance, 0.3333333333333333. *)
Example sum_of_rounded_quotients :
  estimatedTimeToSender_of
    [mkRiderLocation 11%nat here 1000; mkRiderLocation 12%nat here 3000;
     mkRiderLocation 13%nat here 6000] (JS.Fin 30)
  = JS.Fin (3002399751580331 # 9007199254740992)
  /\ JS.div (JS.div (JS.num (1000 + 3000 + 6000)) (JS.Fin 1000)) (JS.Fin 30)
     = JS.Fin (6004799503160661 # 18014398509481984).
Proof. split; vm_compute; reflexivity. Qed.

(** X13.  The arrival time of a resolved [findRiders] is a whole number of
    minutes between 2 and 60 whenever the aggregate time is finite, and
    [NaN] when it is not (a speed of zero, an overflow). *)
Theorem arrival_time_between_2_and_60
        (MAX_DISTANCE BIKE_SPEED CAR_SPEED BUS_SPEED AVERAGE_SPEED : Q)
        (RiderLocation_aggregate : Point -> Q -> list RiderLocation)
        (customerId : Id) (db : Database) (resp : HttpResponse) :
  findRiders MAX_DISTANCE BIKE_SPEED CAR_SPEED BUS_SPEED AVERAGE_SPEED
             RiderLocation_aggregate customerId db = Resolve resp ->
  exists lastDelivery rider,
    let riders :=
      riders_around MAX_DISTANCE RiderLocation_aggregate lastDelivery in
    let t :=
      estimatedTimeToSender_of
        riders
        (speedInKmPerHour_of
           BIKE_SPEED CAR_SPEED BUS_SPEED AVERAGE_SPEED
           (Dao.vehicle_findByAny_rider (rider_id rider) db)) in
    JS.last_elem (Dao.delivery_findAll_customer customerId db)
    = Some lastDelivery
    /\ select_rider db riders = Some rider
    /\ ((exists q, t = JS.Fin q) ->
        exists a : Z,
          response_arrivalTime resp = JS.Fin (inject_Z a)
          /\ (2 <= a <= 60)%Z)
    /\ (JS.not_finite t -> response_arrivalTime resp = JS.NaN).
Proof.
  intros Hres.
  destruct (findRiders_resolved _ _ _ _ _ _ _ _ _ Hres)
    as (lastDelivery & rider & Hlast & Hsel & _ & Harr).
  exists lastDelivery, rider. cbv zeta.
  split; [exact Hlast |]. split; [exact Hsel |]. split.
  - intros [q Hq]. rewrite Harr, Hq.
    destruct (minutes_of_finite q) as (m & Em & Hm).
    rewrite Em. exists (Z.max 2 m). split.
    + apply arrivalTime_of_integer. lia.
    + lia.
  - intros Hinf. rewrite Harr. apply arrivalTime_of_not_finite. exact Hinf.
Qed.

(** A speed that is not zero does not make the aggregate time finite: at
    [10^-320] km/h a rider 2 km away takes more hours than binary64 can
    hold, and [NaN] is reported. *)
Example arrival_time_after_an_overflow :
  findRiders 10000 (1 # 10 ^ 320) 50 40 35 three_riders 2%nat
             (discovery_database [bike_of_rider_12])
  = Resolve (mkHttpResponse OK JS.NaN data_of_rider_12).
Proof. vm_compute. reflexivity. Qed.

Lemma arrival_time_between_2_and_60_example :
  exists lastDelivery rider,
    let riders := riders_around 10000 three_riders lastDelivery in
    let t :=
      estimatedTimeToSender_of
        riders
        (speedInKmPerHour_of
           30 50 40 35
           (Dao.vehicle_findByAny_rider
              (rider_id rider) (discovery_database [bike_of_rider_12]))) in
    JS.last_elem (Dao.delivery_findAll_customer
                    2%nat (discovery_database [bike_of_rider_12]))
    = Some lastDelivery
    /\ select_rider (discovery_database [bike_of_rider_12]) riders
       = Some rider
    /\ ((exists q, t = JS.Fin q) ->
        exists a : Z,
          response_arrivalTime
            (mkHttpResponse OK (JS.Fin 16) data_of_rider_12)
          = JS.Fin (inject_Z a)
          /\ (2 <= a <= 60)%Z)
    /\ (JS.not_finite t ->
        response_arrivalTime (mkHttpResponse OK (JS.Fin 16) data_of_rider_12)
        = JS.NaN).
Proof.
  apply (arrival_time_between_2_and_60
           10000 30 50 40 35 three_riders 2%nat
           (discovery_database [bike_of_rider_12])
           (mkHttpResponse OK (JS.Fin 16) data_of_rider_12)).
  vm_compute. reflexivity.
Defined.

Lemma find_after_set_busy (b : bool) (id : Id) (l : list Rider) :
  find (fun x => Nat.eqb (rider_id x) id) (map (Dao.set_busy b) l)
  = option_map (Dao.set_busy b) (find (fun x => Nat.eqb (rider_id x) id) l).
Proof.
  induction l as [|x l IH]; simpl; [reflexivity|].
  destruct (Nat.eqb (rider_id x) id); [reflexivity|exact IH].
Qed.

Lemma online_and_active_ignores_busy (b : bool) (o : option Rider) :
  online_and_active (option_map (Dao.set_busy b) o) = online_and_active o.
Proof. destruct o; reflexivity. Qed.

(** X14.  The choice of the rider does not look at [busy]: with every
    rider's flag set to [b], the same rider is chosen. *)
Theorem discovery_ignores_busy (b : bool) (db : Database)
        (riders : list RiderLocation) :
  select_rider (everyone_busy b db) riders
  = option_map (Dao.set_busy b) (select_rider db riders).
Proof.
  induction riders as [|l rest IH]; simpl; [reflexivity|].
  unfold Dao.rider_findById, Dao.findByAny, everyone_busy in *.
  cbn [riders Dao.with_riders] in *.
  rewrite find_after_set_busy, online_and_active_ignores_busy.
  destruct (online_and_active _); [reflexivity|exact IH].
Qed.

End DiscoveryLaws.

(* ===================================================================== *)
(** ** Dispatch over the bus and the socket handlers *)
(* ===================================================================== *)

Module DispatchFacts.
Import RabbitMqService Dispatch DispatchSamples Lifecycle Statements.
Import SettlementFacts RegistryLaws LifecycleLaws RelayLaws.


Lemma lift_run {A : Type} (m : M A) (sv : Server) :
  lift m sv = (fst (m (service sv)), with_service (snd (m (service sv))) sv).
Proof. unfold lift. destruct (m (service sv)). reflexivity. Qed.

Lemma with_service_same (sv : Server) : with_service (service sv) sv = sv.
Proof. destruct sv. reflexivity. Qed.

(** The events [assignPackageToDriver] sends for a cached record [r]: the
    notification of the rider when the rider is connected. *)
Lemma sendNotificationToDriver_run (riderId : Id) (n : DriverNotification)
      (sv : Server) :
  sendNotificationToDriver riderId n sv =
  (Fulfilled tt,
   mkServer (service sv) (connection sv) (channel sv) (published sv)
            (pendingRequests sv)
            (sent sv ++ notified (socketMap (service sv)) riderId n)).
Proof.
  unfold sendNotificationToDriver, sbind, notified.
  rewrite lift_run. unfold socketMap_get. cbn [fst snd].
  rewrite with_service_same.
  destruct (Map_get (socketMap (service sv)) riderId).
  - reflexivity.
  - unfold sret. rewrite app_nil_r. destruct sv. reflexivity.
Qed.

Lemma assignPackageToDriver_run (packageRequest : PackageRequest)
      (sv : Server) :
  assignPackageToDriver packageRequest sv =
  match matchCache (service sv) with
  | None => (Fulfilled tt, sv)
  | Some r =>
      let n := mkDriverNotification "New Delivery Request" (customerId r) in
      let sent' := sent sv ++ notified (socketMap (service sv)) (riderId r) n in
      if channel sv then
        (Fulfilled tt,
         mkServer (service sv) (connection sv) true
                  (published sv ++
                   [mkPublication assigned_package_requests
                                  (assigned_message packageRequest (riderId r))
                                  None])
                  (pendingRequests sv) sent')
      else
        (Rejected (JS.TypeError "Cannot read properties of null"),
         mkServer (service sv) (connection sv) false (published sv)
                  (pendingRequests sv) sent')
  end.
Proof.
  unfold assignPackageToDriver, getAvailableDriver, sbind.
  rewrite lift_run. unfold getToken. cbn [fst snd].
  rewrite with_service_same.
  destruct (matchCache (service sv)) as [r|]; [|reflexivity].
  rewrite sendNotificationToDriver_run. cbv zeta.
  unfold assertExchange, publish. cbn [channel].
  destruct (channel sv) eqn:Hch; cbn [service connection channel published
                                       pendingRequests sent]; reflexivity.
Qed.

Section BusFacts.

Variable EXPIRATION_AMQP_MESSAGE : Z.
Variable ADMIN_CHARGES : Q.

Lemma submitPackageRequest_run (packageRequest : PackageRequest)
      (sv : Server) :
  channel sv = true ->
  submitPackageRequest EXPIRATION_AMQP_MESSAGE packageRequest sv =
  let requested :=
    mkServer (service sv) (connection sv) true
             (published sv ++
              [mkPublication PACKAGE_REQUEST (request_message packageRequest)
                             (Some EXPIRATION_AMQP_MESSAGE)])
             (pendingRequests sv) (sent sv) in
  let assigned := snd (assignPackageToDriver packageRequest requested) in
  (Fulfilled tt,
   mkServer (service assigned) (connection assigned) (channel assigned)
            (published assigned)
            (pendingRequests assigned ++ [packageRequest]) (sent assigned)).
Proof.
  intros Hch. unfold submitPackageRequest, sbind, assertExchange, publish.
  rewrite Hch. cbv beta iota. rewrite !Hch. cbv beta iota zeta.
  unfold sdetached. reflexivity.
Qed.

(** X15.  After [disconnectFromRabbitMQ], submitting a request or sending
    a driver response is rejected with a [TypeError] and changes nothing:
    no pending request is recorded and nothing is published. *)
Theorem submission_without_channel
        (packageRequest : PackageRequest) (driverResponse : DriverResponse)
        (sv : Server) :
  let off := snd (disconnectFromRabbitMQ sv) in
  submitPackageRequest EXPIRATION_AMQP_MESSAGE packageRequest off
  = (Rejected (JS.TypeError "Cannot read properties of null"), off)
  /\ sendDriverResponse driverResponse off
     = (Rejected (JS.TypeError "Cannot read properties of null"), off)
  /\ pendingRequests off = pendingRequests sv
  /\ published off = published sv
  /\ service off = service sv.
Proof.
  cbv zeta. unfold disconnectFromRabbitMQ, submitPackageRequest,
              sendDriverResponse, sbind, assertExchange.
  destruct sv as [s c ch p q o]. cbn [channel connection snd].
  destruct ch, c; cbn; repeat split.
Qed.

(** X16.  With a channel, [submitPackageRequest] is fulfilled whether or
    not a rider is cached: the request is published on [PACKAGE_REQUEST]
    with the expiration and appended to the pending requests; when a
    rider is cached the assignment is published after it and the rider
    is notified if connected. *)
Theorem submission_is_recorded
        (packageRequest : PackageRequest) (sv : Server) :
  channel sv = true ->
  let sv' := snd (submitPackageRequest EXPIRATION_AMQP_MESSAGE
                                       packageRequest sv) in
  fst (submitPackageRequest EXPIRATION_AMQP_MESSAGE packageRequest sv)
  = Fulfilled tt
  /\ pendingRequests sv' = pendingRequests sv ++ [packageRequest]
  /\ published sv' =
     published sv ++
     mkPublication PACKAGE_REQUEST (request_message packageRequest)
                   (Some EXPIRATION_AMQP_MESSAGE)
     :: match matchCache (service sv) with
        | Some r =>
            [mkPublication assigned_package_requests
                           (assigned_message packageRequest (riderId r))
                           None]
        | None => []
        end
  /\ sent sv' =
     sent sv ++
     match matchCache (service sv) with
     | Some r =>
         notified (socketMap (service sv)) (riderId r)
                  (mkDriverNotification "New Delivery Request"
                                        (customerId r))
     | None => []
     end
  /\ service sv' = service sv.
Proof.
  intros Hch. cbv zeta.
  rewrite (submitPackageRequest_run _ _ Hch). cbv zeta.
  rewrite assignPackageToDriver_run.
  cbn [service channel published pendingRequests sent connection].
  destruct (matchCache (service sv)) as [r|];
    cbn [fst snd service channel published pendingRequests sent connection].
  - rewrite <- app_assoc. repeat split.
  - rewrite app_nil_r. repeat split.
Qed.

End BusFacts.

(** X17.  With a channel and a cached rider, [assignPackageToDriver]
    publishes the request with [assignedTo] the cached rider on
    [assigned_package_requests], whether or not that rider is connected;
    the rider is notified only when connected. *)
Theorem assignment_publishes_for_cached_rider
        (packageRequest : PackageRequest) (sv : Server) (r : MatchRecord) :
  channel sv = true ->
  matchCache (service sv) = Some r ->
  let sv' := snd (assignPackageToDriver packageRequest sv) in
  fst (assignPackageToDriver packageRequest sv) = Fulfilled tt
  /\ published sv' =
     published sv ++
     [mkPublication assigned_package_requests
                    (assigned_message packageRequest (riderId r)) None]
  /\ sent sv' =
     sent sv ++
     match Map_get (socketMap (service sv)) (riderId r) with
     | Some driverSocket =>
         [(driverSocket,
           notification (mkDriverNotification "New Delivery Request"
                                              (customerId r)))]
     | None => []
     end
  /\ service sv' = service sv
  /\ pendingRequests sv' = pendingRequests sv.
Proof.
  intros Hch Hc. cbv zeta.
  rewrite assignPackageToDriver_run, Hc, Hch. cbv zeta.
  repeat split.
Qed.

(** X18.  Without a channel, [assignPackageToDriver] has already notified
    the connected rider when it is rejected: the notification is sent,
    nothing is published. *)
Theorem assignment_notifies_before_publishing
        (packageRequest : PackageRequest) (sv : Server) (r : MatchRecord)
        (driverSocket : Socket) :
  channel sv = false ->
  matchCache (service sv) = Some r ->
  Map_get (socketMap (service sv)) (riderId r) = Some driverSocket ->
  assignPackageToDriver packageRequest sv =
  (Rejected (JS.TypeError "Cannot read properties of null"),
   mkServer (service sv) (connection sv) false (published sv)
            (pendingRequests sv)
            (sent sv ++
             [(driverSocket,
               notification (mkDriverNotification "New Delivery Request"
                                                  (customerId r)))])).
Proof.
  intros Hch Hc Hget.
  rewrite assignPackageToDriver_run, Hc, Hch. cbv zeta.
  unfold notified. rewrite Hget. reflexivity.
Qed.

(* ---- what the server never loses ---- *)

Lemma extends_refl {A : Type} (l : list A) : extends l l.
Proof. exists []. rewrite app_nil_r. reflexivity. Qed.

Lemma extends_app {A : Type} (l more : list A) : extends l (l ++ more).
Proof. exists more. reflexivity. Qed.

Lemma extends_trans {A : Type} (a b c : list A) :
  extends a b -> extends b c -> extends a c.
Proof.
  intros [x ->] [y ->]. exists (x ++ y). rewrite app_assoc. reflexivity.
Qed.

Lemma keeps_service_refl (st : State) : keeps_service st st.
Proof.
  repeat split; auto using extends_refl.
Qed.

Lemma keeps_refl (sv : Server) : keeps sv sv.
Proof.
  unfold keeps. repeat split; auto using extends_refl.
Qed.

Lemma keeps_trans (a b c : Server) : keeps a b -> keeps b c -> keeps a c.
Proof.
  intros (R1 & P1 & B1 & F1 & S1 & E1 & C1) (R2 & P2 & B2 & F2 & S2 & E2 & C2).
  unfold keeps. repeat split; eauto using extends_trans.
  all: try congruence.
Qed.

Lemma Map_set_keeps (m : list (Id * Socket)) (k : Id) (v : Socket) (id : Id) :
  Map_get m id <> None -> Map_get (Map_set m k v) id <> None.
Proof.
  intros H. destruct (Nat.eq_dec id k) as [->|Hne].
  - rewrite Map_get_set_same. discriminate.
  - rewrite Map_get_set_other; assumption.
Qed.

Lemma socketMap_set_keeps (k : Id) (v : Socket) (st : State) :
  keeps_service st (snd (socketMap_set k v st)).
Proof.
  unfold socketMap_set, keeps_service. cbn [snd socketMap db emitted].
  repeat split; auto using extends_refl. intros id. apply Map_set_keeps.
Qed.

Lemma startDeliveryNotification_keeps (data : SignalData) (st : State) :
  keeps_service st (snd (startDeliveryNotification data st)).
Proof.
  destruct (Map_get (socketMap st) (data_customerId data)) as [sock|] eqn:Hg.
  - destruct (matchCache st) as [r|] eqn:Hc.
    + rewrite (startDelivery_connected_run _ _ _ _ Hg Hc).
      unfold keeps_service. cbn [snd socketMap db emitted].
      destruct (startDelivery_database_frame r (db st)) as (_ & Ha & _).
      rewrite Ha. repeat split; auto using extends_refl, extends_app.
    + unfold startDeliveryNotification, bind, socketMap_get, getToken.
      rewrite Hg, Hc. apply keeps_service_refl.
  - unfold startDeliveryNotification, bind, socketMap_get.
    rewrite Hg. apply keeps_service_refl.
Qed.

Lemma endDeliveryNotification_keeps (ADMIN_CHARGES : Q) (data : SignalData)
      (st : State) :
  keeps_service st (snd (endDeliveryNotification ADMIN_CHARGES data st)).
Proof.
  destruct (Map_get (socketMap st) (data_customerId data)) as [sock|] eqn:Hg.
  - destruct (matchCache st) as [r|] eqn:Hc.
    + rewrite (endDelivery_connected_run _ _ _ _ _ Hg Hc).
      unfold keeps_service. cbn [snd socketMap db emitted].
      rewrite endDelivery_database_adminFees.
      repeat split; auto using extends_refl, extends_app.
    + unfold endDeliveryNotification, bind, socketMap_get, getToken.
      rewrite Hg, Hc. apply keeps_service_refl.
  - unfold endDeliveryNotification, bind, socketMap_get.
    rewrite Hg. apply keeps_service_refl.
Qed.

Lemma notifyUserAboutDriverResponse_keeps (driverResponse : DriverResponse)
      (st : State) :
  keeps_service st (snd (notifyUserAboutDriverResponse driverResponse st)).
Proof.
  unfold notifyUserAboutDriverResponse, bind, socketMap_get.
  destruct (Map_get (socketMap st) (response_customerId driverResponse))
    as [sock|]; [|apply keeps_service_refl].
  unfold keeps_service.
  destruct (availability driverResponse).
  - cbn [emit]. rewrite riderAvailability_detached_run.
    cbn [socketMap matchCache db emitted]. unfold getToken.
    cbn [matchCache].
    destruct (matchCache st) as [r|]; cbn [destructure ret throw].
    + rewrite command_run. cbn [fst snd socketMap matchCache db emitted].
      rewrite delivery_updateByAny_run.
      cbn [snd ret socketMap db emitted adminFees Dao.with_deliveries
           Dao.notification_create Dao.with_notifications].
      repeat split; auto using extends_refl, extends_app.
    + cbn [snd socketMap db emitted].
      repeat split; auto using extends_refl, extends_app.
  - rewrite riderAvailability_detached_run.
    unfold emit, deleteRedisKey. cbn [snd socketMap matchCache db emitted].
    destruct (matchCache st) as [r|];
      repeat split; auto using extends_refl, extends_app.
Qed.

Lemma lift_keeps {A : Type} (m : M A) (sv : Server) :
  keeps_service (service sv) (snd (m (service sv))) ->
  keeps sv (snd (lift m sv)).
Proof.
  intros (R & F & E). rewrite lift_run. cbn [snd].
  unfold keeps, with_service. cbn [service pendingRequests published sent
                                     channel].
  repeat split; auto using extends_refl.
Qed.

Lemma assignPackageToDriver_keeps (packageRequest : PackageRequest)
      (sv : Server) :
  keeps sv (snd (assignPackageToDriver packageRequest sv)).
Proof.
  rewrite assignPackageToDriver_run.
  destruct (matchCache (service sv)); [|apply keeps_refl].
  cbv zeta. destruct (channel sv) eqn:Hch; cbn [snd]; unfold keeps;
    cbn [service pendingRequests published sent channel];
    repeat split; auto using extends_refl, extends_app.
Qed.

Section RunFacts.

Variable EXPIRATION_AMQP_MESSAGE : Z.
Variable ADMIN_CHARGES : Q.

Lemma submitPackageRequest_keeps (packageRequest : PackageRequest)
      (sv : Server) :
  keeps sv (snd (submitPackageRequest EXPIRATION_AMQP_MESSAGE
                                      packageRequest sv)).
Proof.
  destruct (channel sv) eqn:Hch.
  - rewrite (submitPackageRequest_run _ _ _ Hch). cbv zeta. cbn [snd].
    match goal with
    | |- context [assignPackageToDriver ?r ?s] =>
        pose proof (assignPackageToDriver_keeps r s) as H;
        destruct (snd (assignPackageToDriver r s)) as [s1 c1 ch1 p1 q1 o1]
    end.
    destruct H as (R & P & B & F & S & E & C). unfold keeps in *.
    cbn [service pendingRequests published sent channel connection] in *.
    repeat split; auto.
    + eapply extends_trans; [exact P|apply extends_app].
    + eapply extends_trans; [apply extends_app|exact B].
    + congruence.
  - unfold submitPackageRequest, sbind, assertExchange. rewrite Hch.
    apply keeps_refl.
Qed.

Lemma handle_keeps (socket : Socket) (ev : Inbound) (sv : Server) :
  keeps sv (snd (handle EXPIRATION_AMQP_MESSAGE ADMIN_CHARGES socket ev sv)).
Proof.
  destruct ev as [[request|]|[id|]|[id|]|[data|]|[data|]|[data|]| | |];
    cbn [handle]; try apply keeps_refl.
  - unfold sdetached. cbn [snd]. apply submitPackageRequest_keeps.
  - unfold send. cbn [snd]. unfold keeps.
    cbn [service pendingRequests published sent channel].
    repeat split; auto using extends_refl, extends_app.
  - apply lift_keeps. apply socketMap_set_keeps.
  - apply lift_keeps. apply keeps_service_refl.
  - apply lift_keeps. apply socketMap_set_keeps.
  - apply lift_keeps. apply keeps_service_refl.
  - unfold sbind. rewrite lift_run. unfold socketMap_get. cbn [fst snd].
    rewrite with_service_same.
    destruct (Map_get _ _); [|apply keeps_refl].
    unfold send. cbn [snd]. unfold keeps.
    cbn [service pendingRequests published sent channel].
    repeat split; auto using extends_refl, extends_app.
  - unfold sdetached. cbn [snd]. apply lift_keeps.
    apply startDeliveryNotification_keeps.
  - unfold sdetached. cbn [snd]. apply lift_keeps. apply keeps_service_refl.
  - unfold sdetached. cbn [snd]. apply lift_keeps.
    apply endDeliveryNotification_keeps.
  - unfold sdetached. cbn [snd]. apply lift_keeps. apply keeps_service_refl.
Qed.

Lemma step_keeps (sv : Server) (i : Input) :
  keeps sv (step EXPIRATION_AMQP_MESSAGE ADMIN_CHARGES sv i).
Proof.
  destruct i as [socket|socket ev|[packageRequest|]|[driverResponse|]];
    cbn [step consume_package_request consume_driver_response];
    try apply keeps_refl.
  - apply lift_keeps. unfold on_connection.
    destruct (findRiderIdBySocketId _ _);
      [apply socketMap_set_keeps|apply keeps_service_refl].
  - apply handle_keeps.
  - unfold sdetached. cbn [snd]. apply assignPackageToDriver_keeps.
  - unfold sdetached. cbn [snd]. apply lift_keeps.
    apply notifyUserAboutDriverResponse_keeps.
Qed.

(** X19.  Whatever connections, client events and bus messages the
    server handles, and however they end, no identity leaves the
    registry, the pending requests, the publications, the admin-fee
    records and the events sent only get longer, and the channel is
    neither opened nor closed. *)
Theorem server_never_forgets (sv : Server) (inputs : list Input) :
  keeps sv (run EXPIRATION_AMQP_MESSAGE ADMIN_CHARGES sv inputs).
Proof.
  unfold run. revert sv.
  induction inputs as [|i rest IH]; intros sv; cbn [fold_left].
  - apply keeps_refl.
  - eapply keeps_trans; [apply step_keeps|apply IH].
Qed.

End RunFacts.

(** X20.  A request submitted by a client and then delivered back by the
    broker to this process's own consumer is assigned twice: with a
    channel and a cached rider, the assignment is published twice and a
    connected rider is notified twice, while the request is recorded as
    pending once. *)
Theorem delivered_request_is_assigned_again
        (EXPIRATION_AMQP_MESSAGE : Z) (ADMIN_CHARGES : Q) (sv : Server)
        (socket : Socket) (request : string) (r : MatchRecord) :
  channel sv = true ->
  matchCache (service sv) = Some r ->
  let sv' :=
    run EXPIRATION_AMQP_MESSAGE ADMIN_CHARGES sv
        [from_client socket (ev_packageRequest (Some request));
         package_request_delivered (Some (Some request))] in
  let assigned :=
    mkPublication assigned_package_requests
                  (assigned_message (Some request) (riderId r)) None in
  let told :=
    notified (socketMap (service sv)) (riderId r)
             (mkDriverNotification "New Delivery Request" (customerId r)) in
  published sv' =
  published sv ++
  [mkPublication PACKAGE_REQUEST (request_message (Some request))
                 (Some EXPIRATION_AMQP_MESSAGE);
   assigned; assigned]
  /\ sent sv' = sent sv ++ told ++ told
  /\ pendingRequests sv' = pendingRequests sv ++ [Some request].
Proof.
  intros Hch Hc. cbv zeta.
  unfold run. cbn [fold_left step handle consume_package_request].
  unfold sdetached. cbn [snd].
  rewrite (submitPackageRequest_run _ _ _ Hch). cbv zeta. cbn [snd].
  rewrite !assignPackageToDriver_run.
  cbn [service channel published pendingRequests sent connection].
  rewrite Hc. cbv zeta.
  cbn [snd service channel published pendingRequests sent connection].
  rewrite Hc. cbv zeta.
  cbn [snd service channel published pendingRequests sent connection].
  rewrite <- !app_assoc. repeat split.
Qed.

Lemma delivered_request_is_assigned_again_example :
  let sv' :=
    run 5000 10 (server_of matched_state true)
        [from_client customer_socket
                     (ev_packageRequest (Some "parcel-1"%string));
         package_request_delivered (Some (Some "parcel-1"%string))] in
  let assigned :=
    mkPublication assigned_package_requests
                  (assigned_message (Some "parcel-1"%string) 3%nat) None in
  let told :=
    [(rider_socket,
      notification (mkDriverNotification "New Delivery Request" 2%nat))] in
  published sv' =
  [mkPublication PACKAGE_REQUEST (request_message (Some "parcel-1"%string))
                 (Some 5000%Z);
   assigned; assigned]
  /\ sent sv' = told ++ told
  /\ pendingRequests sv' = [Some "parcel-1"%string].
Proof.
  exact (delivered_request_is_assigned_again
           5000 10 (server_of matched_state true) customer_socket
           "parcel-1" sample_match eq_refl eq_refl).
Defined.

Lemma submission_is_recorded_example :
  let sv := server_of matched_state true in
  let sv' := snd (submitPackageRequest 5000 a_request sv) in
  fst (submitPackageRequest 5000 a_request sv) = Fulfilled tt
  /\ pendingRequests sv' = [a_request]
  /\ published sv' =
     [mkPublication PACKAGE_REQUEST (request_message a_request)
                    (Some 5000%Z);
      mkPublication assigned_package_requests
                    (assigned_message a_request 3%nat) None]
  /\ sent sv' =
     [(rider_socket,
       notification (mkDriverNotification "New Delivery Request" 2%nat))]
  /\ service sv' = matched_state.
Proof.
  exact (submission_is_recorded 5000 a_request
                                (server_of matched_state true) eq_refl).
Defined.

Lemma assignment_publishes_for_cached_rider_example :
  let sv :=
    server_of (connected_state (sample_delivery PENDING None) []) true in
  let sv' := snd (assignPackageToDriver a_request sv) in
  fst (assignPackageToDriver a_request sv) = Fulfilled tt
  /\ published sv' =
     [mkPublication assigned_package_requests
                    (assigned_message a_request 3%nat) None]
  /\ sent sv' = []
  /\ service sv' = connected_state (sample_delivery PENDING None) []
  /\ pendingRequests sv' = [].
Proof.
  exact (assignment_publishes_for_cached_rider
           a_request
           (server_of (connected_state (sample_delivery PENDING None) [])
                      true)
           sample_match eq_refl eq_refl).
Defined.

Lemma assignment_notifies_before_publishing_example :
  assignPackageToDriver a_request (server_of matched_state false) =
  (Rejected (JS.TypeError "Cannot read properties of null"),
   mkServer matched_state false false [] []
            [(rider_socket,
              notification (mkDriverNotification "New Delivery Request"
                                                 2%nat))]).
Proof.
  exact (assignment_notifies_before_publishing
           a_request (server_of matched_state false) sample_match
           rider_socket eq_refl eq_refl eq_refl).
Defined.

End DispatchFacts.

(* ===================================================================== *)
(** ** Creating and editing a delivery *)
(* ===================================================================== *)

Module OrderFacts.
Import DeliveryController DeliveryOrders OrderSamples Statements.


Lemma toFixed2_nonneg (a : JS.JSNum) :
  nonneg a -> nonneg (JS.toFixed2 a).
Proof.
  unfold nonneg. destruct a as [q | | |]; cbn [JS.toFixed2];
    intros H; try exact H.
  destruct (Qle_bool (10 ^ 21) (Qabs q)); [exact H |].
  assert (Hb : Qle_bool 0 q = true) by exact H.
  rewrite Hb. apply Qle_bool_iff in Hb.
  apply (Binary64.round64_monotone 0).
  assert (Hz : (0 <= Qfloor (q * 100 + (1 # 2)))%Z).
  { change 0%Z with (Qfloor 0). apply Qfloor_resp_le. lra. }
  rewrite Zle_Qle in Hz. change (inject_Z 0) with 0 in Hz.
  apply Qle_shift_div_l; lra.
Qed.

(** [!isNaN(x) && x < 0] is [x < 0]: a comparison with [NaN] is false. *)
Lemma isNegative_lt (x : JS.JSNum) :
  negb (JS.isNaN x) && JS.lt x (JS.Fin 0) = JS.lt x (JS.Fin 0).
Proof. destruct x; reflexivity. Qed.

(** A balance that is not negative, and a difference that is either not
    negative or not larger in magnitude than the balance: their sum is not
    negative. *)
Lemma balance_after_difference (bal : Q) (diff : JS.JSNum) :
  0 <= bal -> JS.isNaN diff = false ->
  JS.lt diff (JS.Fin 0) && JS.lt (JS.Fin bal) (JS.abs diff) = false ->
  nonneg (JS.add (JS.Fin bal) diff).
Proof.
  intros Hbal Hnan Hguard. unfold nonneg.
  destruct diff as [y | | |].
  - cbn [JS.add]. cbn [JS.lt JS.abs] in Hguard.
    apply (Binary64.round64_monotone 0).
    apply andb_false_iff in Hguard. destruct Hguard as [H | H];
      apply negb_false_iff, Qle_bool_iff in H.
    + lra.
    + apply Qabs_Qle_condition in H. lra.
  - reflexivity.
  - discriminate Hguard.
  - discriminate Hnan.
Qed.

Section OrderProperties.

Variables BIKE_SPEED CAR_SPEED BUS_SPEED AVERAGE_SPEED : Q.
Variables PRICE_PER_KM_BIKE PRICE_PER_KM_CAR PRICE_PER_KM_BUS
          AVERAGE_PRICE_PER_KM : Q.
Variable location_difference : Q -> Q -> Q -> Q -> JS.JSNum -> Distance.
Variable deliveryRefNumber_of : Id -> string.

Local Abbreviation fee_of :=
  (_deliveryFee_of BIKE_SPEED CAR_SPEED BUS_SPEED AVERAGE_SPEED
                   PRICE_PER_KM_BIKE PRICE_PER_KM_CAR PRICE_PER_KM_BUS
                   AVERAGE_PRICE_PER_KM location_difference).
Local Abbreviation order :=
  (doDelivery BIKE_SPEED CAR_SPEED BUS_SPEED AVERAGE_SPEED
              PRICE_PER_KM_BIKE PRICE_PER_KM_CAR PRICE_PER_KM_BUS
              AVERAGE_PRICE_PER_KM location_difference
              deliveryRefNumber_of).
Local Abbreviation edit :=
  (doEditDelivery BIKE_SPEED CAR_SPEED BUS_SPEED AVERAGE_SPEED
                  PRICE_PER_KM_BIKE PRICE_PER_KM_CAR PRICE_PER_KM_BUS
                  AVERAGE_PRICE_PER_KM location_difference).

(** X21.  [doDelivery] creates a delivery exactly when the body is valid,
    the customer has a wallet and [wallet.balance < _deliveryFee] is false
    for the fee as binary64 computes it; in every other case nothing is
    written. *)
Theorem delivery_is_created_only_with_funds
        (customerId : Id) (validated : string + DeliveryRequest)
        (b : Books) :
  ((exists delivery, fst (order customerId validated b) = Resolve delivery)
   <-> exists value wallet,
       validated = inr value
       /\ Dao.findByAny (has_customer customerId) (customerWallets b)
          = Some wallet
       /\ JS.lt (cwallet_balance wallet) (fee_of value) = false)
  /\ ((forall delivery,
          fst (order customerId validated b) <> Resolve delivery) ->
      snd (order customerId validated b) = b).
Proof.
  unfold doDelivery.
  destruct validated as [message|value].
  - split; [|reflexivity]. split.
    + intros [d Hd]. discriminate.
    + intros (v & w & Hv & _). discriminate.
  - destruct (Dao.findByAny _ _) as [wallet|].
    + destruct (JS.lt _ _) eqn:Hlt.
      * split; [|reflexivity]. split.
        -- intros [d Hd]. discriminate.
        -- intros (v & w & [= <-] & [= <-] & Hle). congruence.
      * cbn [delivery_create fst snd]. split.
        -- split; [|eauto]. intros _. exists value, wallet. auto.
        -- intros Hno. exfalso. eapply Hno. reflexivity.
    + split; [|reflexivity]. split.
      * intros [d Hd]. discriminate.
      * intros (v & w & _ & Hw & _). discriminate.
Qed.

(** X22.  A created delivery is [PENDING] with no rider, carries the fee
    rounded to two decimals, and the customer's wallet is debited by that
    stored fee, the difference being rounded to binary64. *)
Theorem delivery_debits_wallet
        (customerId : Id) (value : DeliveryRequest) (b : Books)
        (wallet : CustomerWallet) :
  Dao.findByAny (has_customer customerId) (customerWallets b) = Some wallet ->
  find (has_wallet_id (cwallet_id wallet)) (customerWallets b)
  = Some wallet ->
  JS.lt (cwallet_balance wallet) (fee_of value) = false ->
  let delivery :=
    mkDelivery (nextId (books_db b)) PENDING (JS.toFixed2 (fee_of value))
               None customerId (mkPoint (senderLon value) (senderLat value))
               (deliveryRefNumber_of (nextId (books_db b))) in
  let b' := snd (order customerId (inr value) b) in
  fst (order customerId (inr value) b) = Resolve delivery
  /\ deliveries (books_db b') = deliveries (books_db b) ++ [delivery]
  /\ find (has_wallet_id (cwallet_id wallet)) (customerWallets b')
     = Some (set_cwallet_balance
               (JS.sub (cwallet_balance wallet) (deliveryFee delivery))
               wallet)
  /\ (nonneg (fee_of value) -> nonneg (deliveryFee delivery)).
Proof.
  intros Hw Hid Hfunds. cbv zeta. unfold doDelivery. rewrite Hw, Hfunds.
  cbn [delivery_create fst snd deliveryFee books_db customerWallets
       wallet_update_id deliveries].
  split; [reflexivity|]. split; [reflexivity|]. split.
  - apply patch_first_find_after; [exact Hid|].
    unfold has_wallet_id. simpl. apply Nat.eqb_refl.
  - apply toFixed2_nonneg.
Qed.

(** X23.  [doEditDelivery] never throws; when it resolves, the delivery
    exists and was [PENDING]; when it rejects, with [BAD_REQUEST] or
    [NOT_FOUND], nothing is written. *)
Theorem edit_applies_to_pending_deliveries_only
        (deliveryId : Id) (validated : string + DeliveryRequest)
        (b : Books) :
  match fst (edit deliveryId validated b) with
  | Resolve _ =>
      exists _delivery,
        delivery_findById deliveryId (books_db b) = Some _delivery
        /\ delivery_status _delivery = PENDING
  | Reject e =>
      snd (edit deliveryId validated b) = b
      /\ (error_code e = BAD_REQUEST \/ error_code e = NOT_FOUND)
  | Throw _ => False
  end.
Proof.
  unfold doEditDelivery.
  destruct validated as [message|value]; [cbn; auto|].
  destruct (delivery_findById deliveryId (books_db b)) as [_d|];
    [|cbn; auto].
  destruct (delivery_status _d) eqn:Hst; cbn [status_eqb negb];
    try (cbn; auto; fail).
  destruct (Dao.findByAny _ _) as [wallet|]; [|cbn; auto].
  cbv zeta.
  destruct (_ && _); [cbn; auto|].
  rewrite delivery_updateByAny_run. cbn [fst snd].
  destruct (fst (Dao.patch_first _ _ _)); cbn [fst]; eauto.
Qed.

(** X24.  Editing a pending delivery when the difference
    [old fee - new fee], as binary64 computes it, is not negative or is not
    larger in magnitude than the balance: the delivery keeps its rider and
    stays [PENDING] with the new fee rounded to two decimals, and the
    wallet becomes the balance plus the difference, rounded to two
    decimals.  A finite balance that was not negative is not negative
    afterwards, unless the difference is [NaN]. *)
Theorem edit_settles_the_difference
        (deliveryId : Id) (value : DeliveryRequest) (b : Books)
        (_delivery : Delivery) (wallet : CustomerWallet) :
  delivery_findById deliveryId (books_db b) = Some _delivery ->
  delivery_status _delivery = PENDING ->
  Dao.findByAny (has_customer (delivery_customer _delivery))
                (customerWallets b) = Some wallet ->
  find (has_wallet_id (cwallet_id wallet)) (customerWallets b)
  = Some wallet ->
  let deliveryDiff :=
    JS.add (JS.Fin 0) (JS.sub (deliveryFee _delivery) (fee_of value)) in
  JS.lt deliveryDiff (JS.Fin 0)
  && JS.lt (cwallet_balance wallet) (JS.abs deliveryDiff) = false ->
  let edited :=
    edit_patch (JS.toFixed2 (fee_of value))
               (mkPoint (senderLon value) (senderLat value)) _delivery in
  let balance :=
    JS.toFixed2 (JS.add (cwallet_balance wallet) deliveryDiff) in
  let b' := snd (edit deliveryId (inr value) b) in
  fst (edit deliveryId (inr value) b) = Resolve (Some edited)
  /\ delivery_findById deliveryId (books_db b') = Some edited
  /\ find (has_wallet_id (cwallet_id wallet)) (customerWallets b')
     = Some (set_cwallet_balance balance wallet)
  /\ (forall bal : Q,
         cwallet_balance wallet = JS.Fin bal -> 0 <= bal ->
         JS.isNaN deliveryDiff = false -> nonneg balance).
Proof.
  intros Hd Hst Hw Hid. cbv zeta. intros Hcover. unfold doEditDelivery.
  rewrite Hd, Hst. cbn [status_eqb negb]. rewrite Hw. cbv zeta.
  assert (Hdiff :
            (if JS.lt (fee_of value) (deliveryFee _delivery)
             then JS.add (JS.Fin 0)
                         (JS.sub (deliveryFee _delivery) (fee_of value))
             else JS.add (JS.Fin 0)
                         (JS.sub (deliveryFee _delivery) (fee_of value)))
            = JS.add (JS.Fin 0)
                     (JS.sub (deliveryFee _delivery) (fee_of value))).
  { destruct (JS.lt (fee_of value) (deliveryFee _delivery)); reflexivity. }
  rewrite Hdiff. rewrite isNegative_lt, Hcover.
  assert (Hid' : delivery_id _delivery = deliveryId).
  { unfold delivery_findById, Dao.findByAny in Hd.
    apply find_some in Hd. apply Nat.eqb_eq. exact (proj2 Hd). }
  rewrite delivery_updateByAny_run. cbn [fst snd].
  unfold delivery_findById, Dao.findByAny in Hd. rewrite Hid'.
  rewrite (patch_first_found _ _ _ _ Hd).
  cbn [fst snd wallet_update_id books_db customerWallets].
  split; [reflexivity|]. split; [|split].
  - unfold delivery_findById, Dao.findByAny.
    cbn [deliveries Dao.with_deliveries].
    apply patch_first_find_after; [exact Hd|].
    simpl. apply Nat.eqb_eq. exact Hid'.
  - apply patch_first_find_after; [exact Hid|].
    unfold has_wallet_id. simpl. apply Nat.eqb_refl.
  - intros bal Ebal Hbal Hnan. apply toFixed2_nonneg.
    rewrite Ebal in *. apply balance_after_difference; assumption.
Qed.

End OrderProperties.

Lemma delivery_debits_wallet_example :
  let delivery :=
    mkDelivery 30%nat PENDING (JS.Fin 250) None 2%nat
               (mkPoint (3 # 1) (6 # 1)) "REF-NEW" in
  let b' := snd (doDelivery_sample 2%nat (inr by_bike) fresh_books) in
  fst (doDelivery_sample 2%nat (inr by_bike) fresh_books) = Resolve delivery
  /\ deliveries (books_db b') = [delivery]
  /\ find (has_wallet_id 21%nat) (customerWallets b')
     = Some (set_cwallet_balance (JS.Fin 750) wallet_of_customer_2)
  /\ (nonneg (fee_sample by_bike) -> nonneg (JS.Fin 250)).
Proof.
  apply (delivery_debits_wallet
           30 50 40 35 100 150 200 120 flat_distance ref_of
           2%nat by_bike fresh_books wallet_of_customer_2).
  - reflexivity.
  - reflexivity.
  - vm_compute. reflexivity.
Defined.

Lemma edit_settles_the_difference_example :
  let _delivery :=
    mkDelivery 30%nat PENDING (JS.Fin 250) None 2%nat
               (mkPoint (3 # 1) (6 # 1)) "REF-NEW" in
  let wallet := set_cwallet_balance (JS.Fin 750) wallet_of_customer_2 in
  let edited :=
    edit_patch (JS.Fin 375) (mkPoint (3 # 1) (6 # 1)) _delivery in
  let b' := snd (doEditDelivery_sample 30%nat (inr by_car)
                                       books_with_order) in
  fst (doEditDelivery_sample 30%nat (inr by_car) books_with_order)
  = Resolve (Some edited)
  /\ delivery_findById 30%nat (books_db b') = Some edited
  /\ find (has_wallet_id 21%nat) (customerWallets b')
     = Some (set_cwallet_balance (JS.Fin 625) wallet)
  /\ (forall bal : Q,
         JS.Fin 750 = JS.Fin bal -> 0 <= bal ->
         JS.isNaN (JS.Fin (-125)) = false -> nonneg (JS.Fin 625)).
Proof.
  apply (edit_settles_the_difference
           30 50 40 35 100 150 200 120 flat_distance
           30%nat by_car books_with_order
           (mkDelivery 30%nat PENDING (JS.Fin 250) None
                       2%nat (mkPoint (3 # 1) (6 # 1)) "REF-NEW")
           (set_cwallet_balance (JS.Fin 750) wallet_of_customer_2)).
  - reflexivity.
  - reflexivity.
  - reflexivity.
  - reflexivity.
  - vm_compute. reflexivity.
Defined.

(** A trip of 4.15 km at 15 per kilometre: the fee is the double next above
    62.25, so a wallet holding 62.25 is refused as low on cash; a wallet
    holding 62.26 is debited by the stored fee, 62.25, and keeps
    0.00999999999999801. *)
Example fee_above_a_balance_of_62_25 :
  _deliveryFee_of 30 50 40 35 15 150 200 120 distance_of_4150_metres by_bike
  = JS.Fin (8760908650119169 # 140737488355328)
  /\ JS.num (6225 # 100) = JS.Fin (249 # 4)
  /\ doDelivery_at_15 2%nat (inr by_bike) (books_with_balance (6225 # 100))
     = (Reject (mkCustomAPIError "Wallet is low on cash, please fund wallet."
                                 BAD_REQUEST),
        books_with_balance (6225 # 100))
  /\ customerWallets
       (snd (doDelivery_at_15 2%nat (inr by_bike)
                              (books_with_balance (6226 # 100))))
     = [mkCustomerWallet 21%nat 2%nat
                         (JS.Fin (1407374883553 # 140737488355328))].
Proof. repeat split; vm_compute; reflexivity. Qed.

(** The same trip edited onto a delivery whose stored fee is 62.25, with an
    empty wallet: the difference is about -7.1e-15, negative and larger
    than the balance, and the edit is refused. *)
Example edit_of_the_same_route_is_refused :
  doEditDelivery_at_15 30%nat (inr by_bike) books_with_order_of_62_25
  = (Reject (mkCustomAPIError "Wallet is low on cash, please fund wallet"
                              BAD_REQUEST),
     books_with_order_of_62_25).
Proof. vm_compute. reflexivity. Qed.

End OrderFacts.
